(** * pyslm_dxf_generator: the DXF/machine-format plumbing, embedded and verified

    The repository is a set of Python scripts around the slicing library
    (pyslm, trimesh) and the DXF library (ezdxf).  This development embeds the
    functions of [modules/geometry_processing.py] and the copies of them kept
    in [unified_pyslm_pipeline.py], [support_DXF_to_machine_TXT_or_DXF.py],
    [support_DXF_to_clean_DXF.py] and [manufacture_parameters.py].

    Conventions of the embedding:
    - a Python [float] is a binary64 primitive float; a coordinate that a
      library hands out is a [number], a binary64 value together with its
      runtime type ([float] or [numpy.float64]), since [round] looks at it;
    - tuples and lists built by the scripts are Rocq lists, so that their
      shape is something to prove, not something the types give away;
    - objects handed over by a library (an ezdxf vector, an LWPOLYLINE point
      tuple, a numpy coordinate row) are records or pairs;
    - a function that touches the disk, the console or the log is a state
      transformer over [world] that may end in a raised exception;
    - what a library computes (parsing and serialising DXF, slicing, hatching,
      [round], [repr], [numpy.arange]) is an operation of a class, never
      defined here; the ['.3f'] format and [int] of a float are defined on
      the binary64 value. *)

#[local] Set Warnings "-inexact-float".

From Stdlib Require Import ZArith List String Ascii Floats Bool Lia DecimalString.
From stdpp Require Import base option list strings gmap sorting.

Open Scope string_scope.
Open Scope list_scope.

(** ** Python values, exceptions and control *)

Abbreviation float := PrimFloat.float.

#[global] Instance float_inhabited : Inhabited float := populate 0%float.

(** The exception classes the scripts can meet; all derive from [Exception]. *)
Inductive exn_class :=
| DXFStructureError | AttributeError | IndexError | ValueError
| OverflowError | FileNotFoundError | IOError.

Record exn := Exn { exn_type : exn_class; exn_text : string }.

Inductive result (A : Type) :=
| Ok (a : A)
| Raise (e : exn).
Arguments Ok {A} a.
Arguments Raise {A} e.

(** A computation over a mutable state [S] that returns or raises.  What was
    written to the state before a [raise] stays written, as in Python. *)
Definition St (S A : Type) : Type := S -> result A * S.

Definition ret {S A} (a : A) : St S A := fun s => (Ok a, s).
Definition raise {S A} (e : exn) : St S A := fun s => (Raise e, s).
Definition bind {S A B} (m : St S A) (k : A -> St S B) : St S B :=
  fun s => match m s with
           | (Ok a, s') => k a s'
           | (Raise e, s') => (Raise e, s')
           end.
Definition try_except {S A} (body : St S A) (handler : exn -> St S A) : St S A :=
  fun s => match body s with
           | (Ok a, s') => (Ok a, s')
           | (Raise e, s') => handler e s'
           end.
Definition lift {S A} (r : result A) : St S A := fun s => (r, s).
Definition modify {S} (f : S -> S) : St S unit := fun s => (Ok tt, f s).
Definition gets {S A} (f : S -> A) : St S A := fun s => (Ok (f s), s).

Notation "'let*' x ':=' m 'in' k" := (bind m (fun x => k))
  (at level 10, x name, m at level 100, k at level 200).
Notation "'let*' ( x , y ) ':=' m 'in' k" := (bind m (fun xy => let '(x, y) := xy in k))
  (at level 10, x name, y name, m at level 100, k at level 200).
Notation "m ';;' k" := (bind m (fun _ => k))
  (at level 100, k at level 200, right associativity).

(** The same sequencing for a computation without state. *)
Definition result_bind {A B} (r : result A) (k : A -> result B) : result B :=
  match r with
  | Ok a => k a
  | Raise e => Raise e
  end.

Notation "'let?' x ':=' r 'in' k" := (result_bind r (fun x => k))
  (at level 10, x name, r at level 100, k at level 200).

(** [for x in xs] over loop variables, stopping at a raise. *)
Fixpoint result_fold {A B} (xs : list A) (body : A -> B -> result B) (acc : B) : result B :=
  match xs with
  | [] => Ok acc
  | x :: rest => let? acc' := body x acc in result_fold rest body acc'
  end.

(** [for x in xs: body x], threading the state and stopping at a raise. *)
Fixpoint for_each {S A} (xs : list A) (body : A -> St S unit) : St S unit :=
  match xs with
  | [] => ret tt
  | x :: rest => body x ;; for_each rest body
  end.

(** [for i in range(n)] over an accumulator that a pure body rebinds. *)
Definition for_range {B} (n : nat) (body : nat -> B -> B) (acc : B) : B :=
  fold_left (fun a i => body i a) (seq 0 n) acc.

(** [for x in xs] over an accumulator that a pure body rebinds. *)
Definition for_in {A B} (xs : list A) (body : A -> B -> B) (acc : B) : B :=
  fold_left (fun a x => body x a) xs acc.

(** [l[-1]] *)
Definition item_last {A} `{Inhabited A} (l : list A) : A := l !!! (length l - 1)%nat.

(** [a, b = t]: unpacking needs exactly two items. *)
Definition unpack2 {A} (t : list A) : result (A * A) :=
  match t with
  | [a; b] => Ok (a, b)
  | [] | [_] => Raise (Exn ValueError "not enough values to unpack")
  | _ => Raise (Exn ValueError "too many values to unpack")
  end.

(** [l[i]] where the index may be out of range. *)
Definition item {A} (l : list A) (i : nat) : result A :=
  match l !! i with
  | Some a => Ok a
  | None => Raise (Exn IndexError "index out of range")
  end.

Definition nl : string := String "010"%char "".

(** ** Numbers *)

(** A number object: a Python [float] or a [numpy.float64].  Both hold a
    binary64 value; they differ in the methods Python looks up on them, of
    which the scripts use [__round__] (through [round(x, 6)]). *)
Inductive number :=
| PyF (x : float)              (* a [float] *)
| NpF (x : float).             (* a [numpy.float64] *)

(** The binary64 value of a number: what formatting it and storing it in a
    DXF entity look at. *)
Definition value (n : number) : float :=
  match n with
  | PyF x | NpF x => x
  end.
Coercion value : number >-> float.

#[global] Instance number_inhabited : Inhabited number := populate (PyF 0).

(** ** The ezdxf document model *)

(** A vector as ezdxf keeps it: three binary64 values.  [v[0]] and [v[1]]
    hand them out as [float]. *)
Record Vec3 := vec3 { vec_0 : float; vec_1 : float; vec_2 : float }.

Definition vx (v : Vec3) : number := PyF (vec_0 v).
Definition vy (v : Vec3) : number := PyF (vec_1 v).

(** One point of an LWPOLYLINE as ezdxf keeps it: the five binary64 values
    [(x, y, start_width, end_width, bulge)].  The items of
    [LWPolyline.get_points()] hand them out as [numpy.float64], the points
    being kept in a numpy array. *)
Record lwpoint := lwp { lw_0 : float; lw_1 : float; lw_2 : float; lw_3 : float; lw_4 : float }.

Definition lw_x (p : lwpoint) : number := NpF (lw_0 p).
Definition lw_y (p : lwpoint) : number := NpF (lw_1 p).

#[global] Instance lwpoint_inhabited : Inhabited lwpoint := populate (lwp 0 0 0 0 0).

(** What iterating [Polyline.points()] yields, as far as the scripts look at
    it.  ezdxf yields the location of each vertex as a vector, an object
    without [.dxf] ([VertexPlain]); the scripts expect vertex entities, whose
    [.dxf.location] is that vector ([VertexAt]). *)
Inductive vertex :=
| VertexPlain (v : Vec3)       (* a vector: no attribute [dxf] *)
| VertexNoLocation             (* [dxf] without [location] *)
| VertexAt (location : Vec3).

Inductive other_kind := ARC | ELLIPSE | SPLINE | TEXT | MTEXT | INSERT | POINT | HATCH | SOLID.

Inductive entity :=
| LWPOLYLINE (points : list lwpoint) (is_closed : bool)
| POLYLINE (vertices : list vertex) (is_closed : bool)
| LINE (start end_ : Vec3)
| CIRCLE (center : Vec3) (radius : float)
| OTHER (kind : other_kind).

Definition dxftype (e : entity) : string :=
  match e with
  | LWPOLYLINE _ _ => "LWPOLYLINE"
  | POLYLINE _ _ => "POLYLINE"
  | LINE _ _ => "LINE"
  | CIRCLE _ _ => "CIRCLE"
  | OTHER ARC => "ARC" | OTHER ELLIPSE => "ELLIPSE" | OTHER SPLINE => "SPLINE"
  | OTHER TEXT => "TEXT" | OTHER MTEXT => "MTEXT" | OTHER INSERT => "INSERT"
  | OTHER POINT => "POINT" | OTHER HATCH => "HATCH" | OTHER SOLID => "SOLID"
  end.

Abbreviation modelspace := (list entity).

Record document := Document { dxfversion : string; msp : modelspace }.

(** [msp.query(name)]: the entities of that DXF type, in modelspace order. *)
Definition query (name : string) (m : modelspace) : list entity :=
  filter (fun e => dxftype e = name) m.

(** Points and segments as the scripts build them: [(x, y)] and
    [[start_point, end_point]]. *)
Abbreviation point := (list number).
Abbreviation segment := (list point).

(** ** The world: disk, console, log *)

(** A [pathlib.Path] to a file: the folder it lies in and its name. *)
Record path := Path { parent : string; name : string }.

#[global] Instance path_eq_dec : EqDecision path.
Proof. solve_decision. Defined.

(** [str(p)], and what [os.path.join(folder, filename)] returns: no slash
    after an empty folder. *)
Definition path_str (p : path) : string :=
  match parent p with
  | "" => name p
  | folder => folder +:+ "/" +:+ name p
  end.

(** [folder / filename] *)
Definition joinpath (folder filename : string) : path := Path folder filename.

(** The disk maps a folder to its entries and an entry to its text; [stdout]
    collects what [print] wrote and [errlog] what [logging.error] wrote.
    The one I/O failure the model knows is a missing file or folder. *)
Record world := World {
  fs : gmap string (gmap string string);
  stdout : list string;
  errlog : list string }.

Abbreviation IO := (St world).

Definition set_fs (f : gmap string (gmap string string)) (w : world) : world :=
  World f (stdout w) (errlog w).

Definition print (s : string) : IO unit :=
  modify (fun w => World (fs w) (stdout w ++ [s]) (errlog w)).

Definition logging_error (s : string) : IO unit :=
  modify (fun w => World (fs w) (stdout w) (errlog w ++ [s])).

(** [folder.exists()] of a pathlib folder (for [os.path.exists] on a name
    that may be empty see [os_path_exists]) *)
Definition folder_exists (d : string) : IO bool :=
  gets (fun w => bool_decide (is_Some (fs w !! d))).

Definition lookup_file (p : path) (w : world) : option string :=
  fs w !! parent p ≫= fun entries => entries !! name p.

(** [p.exists()], [os.path.exists(p)] for a file path *)
Definition file_exists (p : path) : IO bool :=
  gets (fun w => bool_decide (is_Some (lookup_file p w))).

(** [os.listdir(folder)]: the entry names, in the order the system gives. *)
Definition listdir (d : string) : IO (list string) :=
  fun w => match fs w !! d with
           | Some entries => (Ok (map_to_list entries).*1, w)
           | None => (Raise (Exn FileNotFoundError d), w)
           end.

(** [folder.mkdir(parents=True, exist_ok=True)], [os.makedirs] on a missing folder *)
Definition mkdir_p (d : string) : IO unit :=
  modify (fun w => match fs w !! d with
                   | Some _ => w
                   | None => set_fs (<[d := ∅]> (fs w)) w
                   end).

Definition read_text (p : path) : IO string :=
  fun w => match lookup_file p w with
           | Some s => (Ok s, w)
           | None => (Raise (Exn FileNotFoundError (path_str p)), w)
           end.

(** [open(p, 'w')]: creates or truncates the file; the folder must exist. *)
Definition open_w (p : path) : IO unit :=
  fun w => match fs w !! parent p with
           | Some entries => (Ok tt, set_fs (<[parent p := <[name p := ""]> entries]> (fs w)) w)
           | None => (Raise (Exn FileNotFoundError (path_str p)), w)
           end.

(** [f.write(s)] on the file opened at [p] *)
Definition f_write (p : path) (s : string) : IO unit :=
  modify (fun w => match fs w !! parent p with
                   | Some entries =>
                       set_fs (<[parent p := <[name p := default "" (entries !! name p) +:+ s]> entries]> (fs w)) w
                   | None => w
                   end).

(** ** The libraries *)

(** ezdxf: what [ezdxf.readfile] makes of a file's text (a document, or an
    exception), and the text [doc.saveas] writes for a document. *)
Class Ezdxf := {
  ezdxf_load : string -> result document;
  ezdxf_dump : document -> string }.

(** Python's builtins the scripts call on numbers: [repr(x)] of a [float]
    (which [f"{x}"] uses), and [round(x, 6)], which calls the [__round__] of
    the runtime type of [x]: the result for a [float] and the result for a
    [numpy.float64] of the same value are computed by different code and need
    not hold the same value. *)
Class PyFloat := {
  float_repr : float -> string;
  round6 : number -> number }.

Section ezdxf_calls.
Context `{!Ezdxf}.

(** [ezdxf.readfile(p)] *)
Definition readfile (p : path) : IO document :=
  let* text := read_text p in lift (ezdxf_load text).

(** [doc.saveas(p)] *)
Definition saveas (doc : document) (p : path) : IO unit :=
  open_w p ;; f_write p (ezdxf_dump doc).
End ezdxf_calls.

(** [ezdxf.new(version)]: a document with an empty modelspace. *)
Definition ezdxf_new (version : string) : document := Document version [].

(** A 2-tuple of numbers as ezdxf takes it for a vertex: it keeps the
    binary64 values. *)
Definition xy_values (p : number * number) : float * float := (value p.1, value p.2).

(** [msp.add_line(start, end)] with 2-tuples: z is 0. *)
Definition add_line (start end_ : float * float) (m : modelspace) : modelspace :=
  m ++ [LINE (vec3 start.1 start.2 0) (vec3 end_.1 end_.2 0)].

(** [msp.add_lwpolyline(pts, close=True)] with 2-tuples: widths and bulge are 0. *)
Definition add_lwpolyline (pts : list (float * float)) (close : bool) (m : modelspace) : modelspace :=
  m ++ [LWPOLYLINE (map (fun p => lwp p.1 p.2 0 0 0) pts) close].

(** [msp.add_circle(center, radius=r)] *)
Definition add_circle (center : float * float) (r : float) (m : modelspace) : modelspace :=
  m ++ [CIRCLE (vec3 center.1 center.2 0) r].

(** pyslm, trimesh and numpy, as far as [slice_and_export_raw_dxfs] calls them. *)

Record bbox := mkBbox {
  bb_xmin : float; bb_ymin : float; bb_zmin : float;
  bb_xmax : float; bb_ymax : float; bb_zmax : float }.

Inductive sort_method := AlternateSort.

(** The fields of [hatching.Hatcher] the scripts assign. *)
Record Hatcher := mkHatcher {
  hatchAngle : float;
  volumeOffsetHatch : float;
  spotCompensation : float;
  stripeWidth : float;
  numInnerContours : Z;
  numOuterContours : Z;
  hatchSortMethod : sort_method }.

Definition set_hatchAngle (a : float) (h : Hatcher) : Hatcher :=
  mkHatcher a (volumeOffsetHatch h) (spotCompensation h) (stripeWidth h)
            (numInnerContours h) (numOuterContours h) (hatchSortMethod h).

(** ** Python text: numerals, [format(x, '.3f')], [str.lower], [str.endswith] *)

(** [str(n)] for an [int] *)
Definition str_int (z : Z) : string := NilZero.string_of_int (Z.to_int z).

Definition str_nat (n : nat) : string := NilZero.string_of_uint (Nat.to_uint n).

(** Division rounded to the nearest integer, ties to the even one. *)
Definition div_half_even (n d : Z) : Z :=
  let q := (n / d)%Z in
  let r := (n mod d)%Z in
  if (2 * r <? d)%Z then q
  else if (d <? 2 * r)%Z then (q + 1)%Z
  else if Z.even q then q else (q + 1)%Z.

(** The number of thousandths nearest to [m * 2^e]. *)
Definition thousandths (m : positive) (e : Z) : Z :=
  if (0 <=? e)%Z then (Z.pos m * 2 ^ e * 1000)%Z
  else div_half_even (Z.pos m * 1000) (2 ^ (- e)).

Definition digit_char (d : Z) : ascii := ascii_of_nat (48 + Z.to_nat d).

Definition digits3 (r : Z) : string :=
  String (digit_char (r / 100))
    (String (digit_char (r / 10 mod 10))
       (String (digit_char (r mod 10)) "")).

(** A count of thousandths written with a decimal point. *)
Definition fixed3 (n : Z) : string :=
  NilZero.string_of_uint (N.to_uint (Z.to_N (n / 1000))) +:+ "." +:+ digits3 (n mod 1000).

Definition sign_str (s : bool) : string := if s then "-" else "".

(** [f"{x:.3f}"]: the exact binary value rounded to three decimals, ties to
    even, the sign kept also on a zero result; [nan] and [inf] by name. *)
Definition format_3f (x : float) : string :=
  match Prim2SF x with
  | S754_nan => "nan"
  | S754_infinity s => sign_str s +:+ "inf"
  | S754_zero s => sign_str s +:+ "0.000"
  | S754_finite s m e => sign_str s +:+ fixed3 (thousandths m e)
  end.

Definition finite (x : float) : bool :=
  match Prim2SF x with
  | S754_zero _ | S754_finite _ _ _ => true
  | _ => false
  end.

(** [int(x)] and [int(numpy.ceil(x))] for a float: only a finite one converts. *)
Definition int_of_float (toward : Z -> Z -> Z) (x : float) : result Z :=
  match Prim2SF x with
  | S754_nan => Raise (Exn ValueError "cannot convert float NaN to integer")
  | S754_infinity _ => Raise (Exn OverflowError "cannot convert float infinity to integer")
  | S754_zero _ => Ok 0%Z
  | S754_finite s m e =>
      let n := if s then Z.neg m else Z.pos m in
      Ok (if (0 <=? e)%Z then (n * 2 ^ e)%Z else toward n (2 ^ (- e))%Z)
  end.

Definition ceil_div (n d : Z) : Z := (- ((- n) / d))%Z.

Definition int_ceil (x : float) : result Z := int_of_float ceil_div x.
Definition int_trunc (x : float) : result Z := int_of_float Z.quot x.

(** [min(a, b)] and [max(a, b)] as the builtins compare. *)
Definition py_min (a b : float) : float := if PrimFloat.ltb b a then b else a.
Definition py_max (a b : float) : float := if PrimFloat.ltb a b then b else a.

Definition lower_char (c : ascii) : ascii :=
  let n := nat_of_ascii c in
  if (65 <=? n)%nat && (n <=? 90)%nat then ascii_of_nat (n + 32) else c.

(** [s.lower()] on a name of ASCII characters *)
Fixpoint lower (s : string) : string :=
  match s with
  | EmptyString => EmptyString
  | String c rest => String (lower_char c) (lower rest)
  end.

(** [s.endswith(suffix)] *)
Definition endswith (s suffix : string) : bool :=
  (String.length suffix <=? String.length s)%nat
  && String.eqb (substring (String.length s - String.length suffix) (String.length suffix) s) suffix.

(** [s.endswith((a, b, ...))] *)
Definition endswith_any (s : string) (suffixes : list string) : bool :=
  existsb (endswith s) suffixes.

(** [sorted(names)] *)
Definition sorted (names : list string) : list string := merge_sort String.le names.

(** ** Parameter tables *)

Inductive pyvalue :=
| PStr (s : string)
| PInt (z : Z)
| PFloat (x : float).

(** [f"{value}"] *)
Definition py_str `{!PyFloat} (v : pyvalue) : string :=
  match v with
  | PStr s => s
  | PInt z => str_int z
  | PFloat x => float_repr x
  end.

(** A [dict] with string keys, in insertion order. *)
Abbreviation dict := (list (string * pyvalue)).

(** [d[k] = v]: an existing key keeps its place, a new key goes last. *)
Fixpoint dict_set (d : dict) (k : string) (v : pyvalue) : dict :=
  match d with
  | [] => [(k, v)]
  | (k', v') :: rest =>
      if decide (k' = k) then (k, v) :: rest else (k', v') :: dict_set rest k v
  end.

Definition dict_get (d : dict) (k : string) : option pyvalue :=
  snd <$> find (fun kv => bool_decide (kv.1 = k)) d.

(** ** pyslm layers *)

(** The rows of an [(n, 2)] coordinate array. *)
Abbreviation coords := (list (float * float)).

Inductive geometry :=
| ContourGeometry (c : coords)
| HatchGeometry (c : coords)
| PointsGeometry (c : coords).

Record Layer := mkLayer { layer_z : Z; layer_geometry : list geometry }.

Definition getContourGeometry (layer : Layer) : list coords :=
  omap (fun g => match g with ContourGeometry c => Some c | _ => None end) (layer_geometry layer).
Definition getHatchGeometry (layer : Layer) : list coords :=
  omap (fun g => match g with HatchGeometry c => Some c | _ => None end) (layer_geometry layer).
Definition getPointsGeometry (layer : Layer) : list coords :=
  omap (fun g => match g with PointsGeometry c => Some c | _ => None end) (layer_geometry layer).

(** [range(0, stop, 2)] *)
Definition range_by_2 (stop : nat) : list nat :=
  map (fun k => 2 * k)%nat (seq 0 (Nat.div (stop + 1) 2)).

(** [l[i:j]] *)
Definition slice {A} (l : list A) (i j : nat) : list A := take (j - i) (drop i l).


(** One item of what [simplifyBoundaries] returns: a coordinate array, or a
    polygon with an [exterior]. *)
Inductive Boundary :=
| BoundaryArray (rows : coords)
| BoundaryPolygon (exterior : coords).

Class Slicer := {
  Part : Type;
  Mesh : Type;
  SlicePath : Type;
  (* [part.boundingBox] *)
  boundingBox : Part -> bbox;
  (* [part.getVectorSlice(z)] *)
  getVectorSlice : Part -> float -> list SlicePath;
  (* [h.hatch(paths)] *)
  hatch : Hatcher -> list SlicePath -> Layer;
  (* [trimesh.util.concatenate(meshes).bounds], its [[0, 2]] and [[1, 2]] *)
  concatenate_bounds_z : list Mesh -> float * float;
  (* [pyslm.support.GridBlockSupport.slice(meshes, z)] *)
  GridBlockSupport_slice : list Mesh -> float -> list SlicePath * list SlicePath;
  (* [pyslm.hatching.simplifyBoundaries(paths, tolerance)] *)
  simplifyBoundaries : list SlicePath -> float -> list Boundary;
  (* [numpy.arange(start, stop, step)] *)
  np_arange : float -> float -> float -> list float }.

(** [coords.reshape(-1, 2)]: only an array has it. *)
Definition reshape_rows (b : Boundary) : result coords :=
  match b with
  | BoundaryArray rows => Ok rows
  | BoundaryPolygon _ => Raise (Exn AttributeError "object has no attribute 'reshape'")
  end.

(** Runs a computation over a local state from [s]; a raise leaves the local
    state behind. *)
Definition with_state {S W A} (m : St S A) (s : S) : St W (A * S) :=
  fun w => match m s with
           | (Ok a, s') => (Ok (a, s'), w)
           | (Raise e, _) => (Raise e, w)
           end.

(** [for x in xs] with loop variables [acc] that the body may rebind. *)
Fixpoint for_fold {S A B} (xs : list A) (body : A -> B -> St S B) (acc : B) : St S B :=
  match xs with
  | [] => ret acc
  | x :: rest => let* acc' := body x acc in for_fold rest body acc'
  end.

(** modules/parameters.py *)
Module Parameters.
Definition LAYER_THICKNESS : float := 0.03.
Definition HATCH_ANGLE_INITIAL : float := 10.0.
Definition HATCH_ANGLE_INCREMENT : float := 66.7.
Definition VOLUME_OFFSET_HATCH : float := 0.08.
Definition SPOT_COMPENSATION : float := 0.06.
Definition STRIPE_WIDTH : float := 0.07.
Definition NUM_INNER_CONTOURS : Z := 2.
Definition NUM_OUTER_CONTOURS : Z := 1.
Definition HATCH_SORT_METHOD : sort_method := AlternateSort.
End Parameters.

(** ** More of [os.path], [pathlib] and trimesh *)

(** [os.path.exists(d)] on a folder name: the empty name is never there. *)
Definition os_path_exists (d : string) : IO bool :=
  gets (fun w => negb (bool_decide (d = "")) && bool_decide (is_Some (fs w !! d))).

(** [os.makedirs(d)] on a folder that is not there. *)
Definition os_makedirs (d : string) : IO unit :=
  if bool_decide (d = "") then raise (Exn FileNotFoundError d) else mkdir_p d.

(** [s.rfind(c)]: the position of the last [c], or [-1]. *)
Fixpoint rfind_from (c : ascii) (s : string) (i found : Z) : Z :=
  match s with
  | EmptyString => found
  | String x rest => rfind_from c rest (i + 1) (if Ascii.eqb x c then i else found)
  end.
Definition rfind (c : ascii) (s : string) : Z := rfind_from c s 0 (-1).

(** [os.path.splitext(p)]: the extension starts at the last dot of the name,
    unless only dots come before it. *)
Definition splitext (p : string) : string * string :=
  let sepIndex := rfind "/" p in
  let dotIndex := rfind "." p in
  if (sepIndex <? dotIndex)%Z then
    let filenameIndex := (sepIndex + 1)%Z in
    let before := substring (Z.to_nat filenameIndex) (Z.to_nat (dotIndex - filenameIndex)) p in
    if forallb (Ascii.eqb ".") (list_ascii_of_string before) then (p, "")
    else (substring 0 (Z.to_nat dotIndex) p,
          substring (Z.to_nat dotIndex) (String.length p - Z.to_nat dotIndex) p)
  else (p, "").

(** [s.startswith(prefix)] *)
Definition startswith (s prefix : string) : bool :=
  String.eqb (substring 0 (String.length prefix) s) prefix.

(** pathlib: [Path(name).stem], whose rule for names of dots differs between
    Python versions. *)
Class PathLib := {
  stem : string -> string }.

(** What [path_2d.extrude(height)] hands back, as far as the scripts test it
    with [isinstance]: a list (an item of which may be no [Trimesh]), one
    [Trimesh], or something else. *)
Inductive extrusion (M : Type) :=
| ExtrudedList (items : list (option M))
| ExtrudedMesh (mesh : M)
| ExtrudedOther.
Arguments ExtrudedList {M} items.
Arguments ExtrudedMesh {M} mesh.
Arguments ExtrudedOther {M}.

(** trimesh, as far as the cleaning step calls it. *)
Class Trimesh := {
  Solid : Type;
  (* [trimesh.load_path(np.array(segment), process=False).extrude(height=h)] *)
  load_path_extrude : segment -> float -> result (extrusion Solid);
  (* [mesh.apply_translation([0, 0, z])] *)
  apply_translation : Solid -> float -> result Solid;
  (* [trimesh.util.concatenate(meshes)] and the bytes its [export] writes *)
  concatenate_export : list Solid -> result string }.


(** ** modules/geometry_processing.py *)

Module GeometryProcessing.

(** The loop of [get_line_segments_from_dxf] over the modelspace it has read
    (the function's last 33 lines). *)
Definition line_segments_of (m : modelspace) : list segment :=
  let line_segments : list segment := [] in
  let line_segments :=
    for_in (query "LWPOLYLINE" m) (fun entity line_segments =>
      match entity with
      | LWPOLYLINE points is_closed =>
          if (2 <=? length points)%nat then
            let line_segments :=
              for_range (length points - 1) (fun i line_segments =>
                let start_point := [lw_x (points !!! i); lw_y (points !!! i)] in
                let end_point := [lw_x (points !!! (i + 1)%nat); lw_y (points !!! (i + 1)%nat)] in
                line_segments ++ [[start_point; end_point]]) line_segments in
            if is_closed && (2 <? length points)%nat then
              let start_point := [lw_x (item_last points); lw_y (item_last points)] in
              let end_point := [lw_x (points !!! 0%nat); lw_y (points !!! 0%nat)] in
              line_segments ++ [[start_point; end_point]]
            else line_segments
          else line_segments
      | _ => line_segments
      end) line_segments in
  let line_segments :=
    for_in (query "POLYLINE" m) (fun entity line_segments =>
      match entity with
      | POLYLINE vertices is_closed =>
          let current_polyline_points : list point :=
            for_in vertices (fun vertex current_polyline_points =>
              match vertex with
              | VertexAt location => current_polyline_points ++ [[vx location; vy location]]
              | _ => current_polyline_points
              end) [] in
          if (2 <=? length current_polyline_points)%nat then
            let line_segments :=
              for_range (length current_polyline_points - 1) (fun i line_segments =>
                let start_point :=
                  [(current_polyline_points !!! i) !!! 0%nat; (current_polyline_points !!! i) !!! 1%nat] in
                let end_point :=
                  [(current_polyline_points !!! (i + 1)%nat) !!! 0%nat;
                   (current_polyline_points !!! (i + 1)%nat) !!! 1%nat] in
                line_segments ++ [[start_point; end_point]]) line_segments in
            if is_closed && (2 <? length current_polyline_points)%nat then
              let start_point :=
                [(item_last current_polyline_points) !!! 0%nat; (item_last current_polyline_points) !!! 1%nat] in
              let end_point :=
                [(current_polyline_points !!! 0%nat) !!! 0%nat; (current_polyline_points !!! 0%nat) !!! 1%nat] in
              line_segments ++ [[start_point; end_point]]
            else line_segments
          else line_segments
      | _ => line_segments
      end) line_segments in
  for_in (query "LINE" m) (fun entity line_segments =>
    match entity with
    | LINE start end_ =>
        let start_point := [vx start; vy start] in
        let end_point := [vx end_; vy end_] in
        line_segments ++ [[start_point; end_point]]
    | _ => line_segments
    end) line_segments.

(** The loop of [convert_dxf_to_lines_only_machine_format] over the
    modelspace it has read (lines 144 to 175). *)
Definition all_line_segments_of (m : modelspace) : list segment :=
  let all_line_segments : list segment := [] in
  let all_line_segments :=
    for_in (query "LWPOLYLINE" m) (fun entity all_line_segments =>
      match entity with
      | LWPOLYLINE points is_closed =>
          if (2 <=? length points)%nat then
            let all_line_segments :=
              for_range (length points - 1) (fun i all_line_segments =>
                let start_point := [lw_x (points !!! i); lw_y (points !!! i)] in
                let end_point := [lw_x (points !!! (i + 1)%nat); lw_y (points !!! (i + 1)%nat)] in
                all_line_segments ++ [[start_point; end_point]]) all_line_segments in
            if is_closed && (2 <? length points)%nat then
              let start_point := [lw_x (item_last points); lw_y (points !!! 0%nat)] in
              let end_point := [lw_x (points !!! 0%nat); lw_y (points !!! 0%nat)] in
              all_line_segments ++ [[start_point; end_point]]
            else all_line_segments
          else all_line_segments
      | _ => all_line_segments
      end) all_line_segments in
  let all_line_segments :=
    for_in (query "POLYLINE" m) (fun entity all_line_segments =>
      match entity with
      | POLYLINE vertices is_closed =>
          let current_polyline_points : list point :=
            for_in vertices (fun vertex current_polyline_points =>
              match vertex with
              | VertexAt location => current_polyline_points ++ [[vx location; vy location]]
              | _ => current_polyline_points
              end) [] in
          if (2 <=? length current_polyline_points)%nat then
            let all_line_segments :=
              for_range (length current_polyline_points - 1) (fun i all_line_segments =>
                let start_point :=
                  [(current_polyline_points !!! i) !!! 0%nat; (current_polyline_points !!! i) !!! 1%nat] in
                let end_point :=
                  [(current_polyline_points !!! (i + 1)%nat) !!! 0%nat;
                   (current_polyline_points !!! (i + 1)%nat) !!! 1%nat] in
                all_line_segments ++ [[start_point; end_point]]) all_line_segments in
            if is_closed && (2 <? length current_polyline_points)%nat then
              let start_point :=
                [(item_last current_polyline_points) !!! 0%nat; (item_last current_polyline_points) !!! 1%nat] in
              let end_point :=
                [(current_polyline_points !!! 0%nat) !!! 0%nat; (current_polyline_points !!! 0%nat) !!! 1%nat] in
              all_line_segments ++ [[start_point; end_point]]
            else all_line_segments
          else all_line_segments
      | _ => all_line_segments
      end) all_line_segments in
  for_in (query "LINE" m) (fun entity all_line_segments =>
    match entity with
    | LINE start end_ =>
        let start_point := [vx start; vy start] in
        let end_point := [vx end_; vy end_] in
        all_line_segments ++ [[start_point; end_point]]
    | _ => all_line_segments
    end) all_line_segments.

(** The inner loop of [export_layer_to_dxf] over the coordinates of one hatch
    geometry. *)
Definition add_hatch_lines (coords : coords) : St modelspace unit :=
  for_each (range_by_2 (length coords)) (fun i =>
    let* (start, end_) := lift (unpack2 (slice coords i (i + 2))) in
    modify (add_line start end_)).

Section with_libraries.
Context `{!Ezdxf, !PyFloat, !Slicer}.

(** The modelspace [export_layer_to_dxf] fills before it saves. *)
Definition export_layer_msp (layer : Layer) : St modelspace unit :=
  for_each (getContourGeometry layer) (fun geom =>
    let pts := geom in
    modify (add_lwpolyline pts true)) ;;
  for_each (getHatchGeometry layer) (fun geom =>
    let coords := geom in
    add_hatch_lines coords) ;;
  for_each (getPointsGeometry layer) (fun geom =>
    for_each geom (fun p => modify (add_circle p 0.02))).

Definition export_layer_to_dxf (layer : Layer) (p : path) : IO unit :=
  let doc := ezdxf_new "R2010" in
  let* (_u, m) := with_state (export_layer_msp layer) (msp doc) in
  saveas (Document (dxfversion doc) m) p.

Definition get_line_segments_from_dxf (dxf_path : path) : IO (list segment) :=
  let* read :=
    try_except
      (let* doc := readfile dxf_path in ret (Some (msp doc)))
      (fun e =>
         match exn_type e with
         | DXFStructureError =>
             logging_error ("Invalid DXF structure for '" +:+ path_str dxf_path +:+ "'. Skipping.") ;;
             ret None
         | _ =>
             logging_error ("Unexpected error reading '" +:+ path_str dxf_path +:+ "': "
                            +:+ exn_text e +:+ ". Skipping.") ;;
             ret None
         end) in
  match read with
  | None => ret []
  | Some m => ret (line_segments_of m)
  end.

(** The modelspace [create_simplified_dxf_for_laser] fills before it saves. *)
Definition simplified_msp (line_segments : list segment) : St modelspace unit :=
  for_each line_segments (fun segment =>
    let* start_point := lift (item segment 0) in
    let* end_point := lift (item segment 1) in
    let* sx := lift (item start_point 0) in
    let* sy := lift (item start_point 1) in
    let start_point_rounded := (round6 sx, round6 sy) in
    let* ex := lift (item end_point 0) in
    let* ey := lift (item end_point 1) in
    let end_point_rounded := (round6 ex, round6 ey) in
    modify (add_line (xy_values start_point_rounded) (xy_values end_point_rounded))).

Definition create_simplified_dxf_for_laser (line_segments : list segment) (output_dxf_path : path)
  : IO unit :=
  let doc := ezdxf_new "AC1009" in
  let* (_u, m) := with_state (simplified_msp line_segments) (msp doc) in
  try_except
    (saveas (Document (dxfversion doc) m) output_dxf_path)
    (fun e => print ("Error saving simplified DXF " +:+ path_str output_dxf_path +:+ ": " +:+ exn_text e)).

(** The writes of [convert_dxf_to_lines_only_machine_format] inside its
    [with open(...)] block. *)
Definition write_machine_format (f : path) (all_line_segments : list segment) : IO unit :=
  f_write f ("0" +:+ nl +:+ "SECTION" +:+ nl +:+ "2" +:+ nl +:+ "ENTITIES" +:+ nl) ;;
  for_each all_line_segments (fun segment =>
    let* s0 := lift (item segment 0) in
    let* (start_x, start_y) := lift (unpack2 s0) in
    let* s1 := lift (item segment 1) in
    let* (end_x, end_y) := lift (unpack2 s1) in
    f_write f ("0" +:+ nl +:+ "LINE" +:+ nl +:+ "8" +:+ nl +:+ "0" +:+ nl
               +:+ "10" +:+ nl +:+ format_3f start_x +:+ nl
               +:+ "20" +:+ nl +:+ format_3f start_y +:+ nl
               +:+ "11" +:+ nl +:+ format_3f end_x +:+ nl
               +:+ "21" +:+ nl +:+ format_3f end_y +:+ nl
               +:+ "0" +:+ nl)) ;;
  f_write f ("0" +:+ nl +:+ "ENDSEC" +:+ nl +:+ "0" +:+ nl +:+ "EOF" +:+ nl).

Definition convert_dxf_to_lines_only_machine_format (input_dxf_path output_target_path : path)
  : IO unit :=
  let* found := file_exists input_dxf_path in
  if negb found then
    print ("Error: Input DXF file not found at '" +:+ path_str input_dxf_path +:+ "'")
  else
    let* read :=
      try_except
        (let* doc := readfile input_dxf_path in ret (Some (msp doc)))
        (fun e =>
           match exn_type e with
           | DXFStructureError =>
               print ("Error: Invalid DXF file structure for '" +:+ path_str input_dxf_path
                      +:+ "'. Skipping.") ;;
               ret None
           | _ =>
               print ("An unexpected error occurred reading '" +:+ path_str input_dxf_path +:+ "': "
                      +:+ exn_text e +:+ ". Skipping.") ;;
               ret None
           end) in
    match read with
    | None => ret tt
    | Some m =>
        let all_line_segments := all_line_segments_of m in
        mkdir_p (parent output_target_path) ;;
        try_except
          (open_w output_target_path ;;
           write_machine_format output_target_path all_line_segments)
          (fun e => print ("Error writing to '" +:+ path_str output_target_path +:+ "': " +:+ exn_text e))
    end.

Definition generate_manufacturing_parameters_file
    (input_dxf_folder output_folder : string) (part_name : string) (layer_thickness : float)
  : IO unit :=
  let* found := folder_exists input_dxf_folder in
  if negb found then
    print ("Error: Input DXF folder not found at '" +:+ input_dxf_folder
           +:+ "'. Cannot generate parameters file.")
  else
    let* entries := listdir input_dxf_folder in
    let dxf_files := sorted (filter (fun f => endswith_any (lower f) [".dxf"; ".txt"]) entries) in
    if bool_decide (dxf_files = []) then
      print ("No DXF or TXT files found in '" +:+ input_dxf_folder
             +:+ "'. Cannot generate parameters file.")
    else
      let number_of_layers := length dxf_files in
      let min_x : float := (-7.9)%float in
      let max_x : float := 7.9%float in
      let min_y : float := (-7.9)%float in
      let max_y : float := 7.9%float in
      let final_parameters : dict :=
        [ ("PART NAME", PStr part_name);
          ("MINX", PFloat min_x);
          ("MAXX", PFloat max_x);
          ("MINY", PFloat min_y);
          ("MAXY", PFloat max_y);
          ("NUMBER OF LAYERS", PInt (Z.of_nat number_of_layers));
          ("LAYER THICKNESS", PFloat layer_thickness);
          ("HATCH POWER 1", PInt 40);
          ("HATCH SPEED 1", PInt 170);
          ("VBPP1", PInt 1);
          ("MAGNIFICATION 1", PFloat 1.0);
          ("HATCH POWER 2", PInt 42);
          ("HATCH SPEED 2", PInt 1202);
          ("VBPP2", PInt 2);
          ("MAGNIFICATION 2", PFloat 1.0);
          ("HATCH POWER 3", PInt 43);
          ("HATCH SPEED 3", PInt 1203);
          ("VBPP3", PInt 3);
          ("MAGNIFICATION 3", PFloat 1.0);
          ("NUMBER OF PASSES", PInt 1);
          ("CONTOUR POWER", PInt 11);
          ("CONTOUR SPEED", PInt 1001) ] in
      let output_file_path := joinpath output_folder (part_name +:+ "_auto_machine_parameters.txt") in
      mkdir_p output_folder ;;
      try_except
        (open_w output_file_path ;;
         for_each final_parameters (fun kv =>
           let '(key, value) := kv in
           f_write output_file_path ("[" +:+ key +:+ "]" +:+ nl) ;;
           f_write output_file_path (py_str value +:+ nl)) ;;
         print (nl +:+ "Successfully generated manufacturing parameters file: "
                +:+ path_str output_file_path))
        (fun e => print ("Error generating the file '" +:+ path_str output_file_path +:+ "': "
                         +:+ exn_text e)).

(** The variables the slicing loop carries from one z position to the next. *)
Record slicing_vars := mkVars {
  h : Hatcher;
  layer_idx : nat;
  all_layers_combined : list Layer }.

(** What the loop gathers into [current_layer.geometry] at one z position,
    with the hatcher as already turned for this layer. *)
Definition current_layer_geometry (part_to_slice : Part) (supports_to_slice : list Mesh)
    (h : Hatcher) (zPos : float) : result (list geometry) :=
  let geometry : list geometry := [] in
  let slice_geom_part := getVectorSlice part_to_slice zPos in
  let geometry :=
    if negb (bool_decide (slice_geom_part = [])) then
      let layer_hatch_part := hatch h slice_geom_part in
      for_in (layer_geometry layer_hatch_part) (fun geom geometry => geometry ++ [geom]) geometry
    else geometry in
  let '(innerHatchPaths_support, boundaryPaths_support) :=
    if negb (bool_decide (supports_to_slice = [])) then GridBlockSupport_slice supports_to_slice zPos
    else ([], []) in
  let? geometry :=
    if negb (bool_decide (innerHatchPaths_support = [])) then
      let gridCoords_support := simplifyBoundaries innerHatchPaths_support 0.1 in
      result_fold gridCoords_support (fun coords geometry =>
        let? rows := reshape_rows coords in
        Ok (geometry ++ [HatchGeometry rows])) geometry
    else Ok geometry in
  if negb (bool_decide (boundaryPaths_support = [])) then
    let boundaryCoords_support := simplifyBoundaries boundaryPaths_support 0.1 in
    result_fold boundaryCoords_support (fun coords geometry =>
      match coords with
      | BoundaryPolygon exterior => Ok (geometry ++ [ContourGeometry (removelast exterior)])
      | _ =>
          let? rows := reshape_rows coords in
          Ok (geometry ++ [ContourGeometry rows])
      end) geometry
  else Ok geometry.

(** [f"{model_name}_layer{layer_idx}.dxf"] in the raw folder *)
Definition layer_file (output_dxf_bruto_folder model_name : string) (layer_idx : nat) : path :=
  joinpath output_dxf_bruto_folder (model_name +:+ "_layer" +:+ str_nat layer_idx +:+ ".dxf").

(** One turn of the loop over [z_positions] in [slice_and_export_raw_dxfs]. *)
Definition slice_one_layer (part_to_slice : Part) (supports_to_slice : list Mesh)
    (output_dxf_bruto_folder model_name : string) (zPos : float) (vars : slicing_vars)
  : IO slicing_vars :=
  let* z := lift (int_trunc (zPos * 1000)%float) in
  let h := set_hatchAngle (hatchAngle (h vars) + Parameters.HATCH_ANGLE_INCREMENT)%float (h vars) in
  let* geometry := lift (current_layer_geometry part_to_slice supports_to_slice h zPos) in
  let current_layer := mkLayer z geometry in
  let* all_layers_combined :=
    if negb (bool_decide (geometry = [])) then
      let dxf_name := layer_file output_dxf_bruto_folder model_name (layer_idx vars) in
      export_layer_to_dxf current_layer dxf_name ;;
      ret (all_layers_combined vars ++ [current_layer])
    else ret (all_layers_combined vars) in
  ret (mkVars h (layer_idx vars + 1) all_layers_combined).

(** The lowest and the highest z of the part and its supports together. *)
Definition overall_z_range (part_to_slice : Part) (supports_to_slice : list Mesh) : float * float :=
  let min_z_part := bb_zmin (boundingBox part_to_slice) in
  let max_z_part := bb_zmax (boundingBox part_to_slice) in
  let '(min_z_support, max_z_support) :=
    if negb (bool_decide (supports_to_slice = [])) then concatenate_bounds_z supports_to_slice
    else (min_z_part, max_z_part) in
  let min_z_overall := py_min min_z_part min_z_support in
  let max_z_overall := py_max max_z_part max_z_support in
  (min_z_overall, max_z_overall).

(** The z positions the loop visits, once the number of layers is known. *)
Definition z_positions_for (min_z_overall max_z_overall : float) (num_layers : Z) : list float :=
  let z_positions :=
    np_arange min_z_overall
      (max_z_overall + Parameters.LAYER_THICKNESS / 2)%float Parameters.LAYER_THICKNESS in
  if (length z_positions =? 0)%nat && (num_layers =? 1)%Z then [min_z_overall]
  else z_positions.

(** The hatcher as the function sets it up before the loop. *)
Definition initial_hatcher : Hatcher :=
  mkHatcher Parameters.HATCH_ANGLE_INITIAL Parameters.VOLUME_OFFSET_HATCH
    Parameters.SPOT_COMPENSATION Parameters.STRIPE_WIDTH
    Parameters.NUM_INNER_CONTOURS Parameters.NUM_OUTER_CONTOURS
    Parameters.HATCH_SORT_METHOD.

Definition slice_and_export_raw_dxfs (part_to_slice : Part) (supports_to_slice : list Mesh)
    (output_dxf_bruto_folder model_name : string) : IO unit :=
  print (nl +:+ "--- Slicing to Raw DXFs ---") ;;
  let '(min_z_overall, max_z_overall) := overall_z_range part_to_slice supports_to_slice in
  let h := initial_hatcher in
  print ("Slicing and processing layers for '" +:+ model_name +:+ "' (Raw DXF)...") ;;
  let layer_idx := 0%nat in
  let* num_layers :=
    lift (int_ceil ((max_z_overall - min_z_overall) / Parameters.LAYER_THICKNESS)%float) in
  let* go_on :=
    if (num_layers =? 0)%Z && PrimFloat.ltb min_z_overall max_z_overall then ret (Some 1%Z)
    else if PrimFloat.leb max_z_overall min_z_overall then
      print ("Warning: Part '" +:+ model_name
             +:+ "' has zero or negative height. No layers will be generated.") ;;
      ret None
    else ret (Some num_layers) in
  match go_on with
  | None => ret tt
  | Some num_layers =>
      let z_positions := z_positions_for min_z_overall max_z_overall num_layers in
      let* vars :=
        for_fold z_positions
          (slice_one_layer part_to_slice supports_to_slice output_dxf_bruto_folder model_name)
          (mkVars h layer_idx []) in
      print (nl +:+ "Plotting a sample of combined layers (raw DXFs)...") ;;
      if negb (bool_decide (all_layers_combined vars = [])) then
        ret tt (* [plotLayers] and [plt.show()] draw on the screen only *)
      else print "No raw layers generated to plot."
  end.

End with_libraries.

Section batch.
Context `{!Ezdxf, !PyFloat, !Trimesh, !PathLib}.

(** The body of the [try] that extrudes one segment: what it appends to
    [current_layer_meshes] stays appended when a later step raises. *)
Definition extrude_segment (segment_2d : segment) (z_offset : float) : St (list Solid) unit :=
  let* extruded_result := lift (load_path_extrude segment_2d Parameters.LAYER_THICKNESS) in
  match extruded_result with
  | ExtrudedList items =>
      for_each items (fun extruded_slice =>
        match extruded_slice with
        | Some mesh =>
            let* moved := lift (apply_translation mesh z_offset) in
            modify (fun current_layer_meshes => current_layer_meshes ++ [moved])
        | None => ret tt
        end)
  | ExtrudedMesh mesh =>
      let* moved := lift (apply_translation mesh z_offset) in
      modify (fun current_layer_meshes => current_layer_meshes ++ [moved])
  | ExtrudedOther => ret tt
  end.

(** The loop over the segments of one layer, from an empty
    [current_layer_meshes]. *)
Definition extrude_layer (dxf_file : string) (line_segments_2d : list segment) (z_offset : float)
  : IO (list Solid) :=
  for_fold line_segments_2d (fun segment_2d current_layer_meshes =>
    if (length segment_2d <? 2)%nat then ret current_layer_meshes
    else
      match extrude_segment segment_2d z_offset current_layer_meshes with
      | (Ok _, current_layer_meshes) => ret current_layer_meshes
      | (Raise e, current_layer_meshes) =>
          logging_error ("Error extruding line segment in " +:+ dxf_file +:+ " for STL: "
                         +:+ exn_text e) ;;
          ret current_layer_meshes
      end) [].

(** One turn of the loop over the raw files; the loop variables are
    [all_meshes_for_stl] and [z_offset]. *)
Definition clean_one_layer (output_dxf_bruto_folder output_dxf_clean_folder : string)
    (dxf_file : string) (vars : list Solid * float) : IO (list Solid * float) :=
  let '(all_meshes_for_stl, z_offset) := vars in
  let dxf_path_bruto := joinpath output_dxf_bruto_folder dxf_file in
  let* line_segments_2d := get_line_segments_from_dxf dxf_path_bruto in
  if bool_decide (line_segments_2d = []) then
    print ("Warning: No valid lines or polylines found in " +:+ dxf_file
           +:+ ". Skipping this layer.") ;;
    ret (all_meshes_for_stl, (z_offset + Parameters.LAYER_THICKNESS)%float)
  else
    let output_clean_dxf_path := joinpath output_dxf_clean_folder ("clean_" +:+ dxf_file) in
    create_simplified_dxf_for_laser line_segments_2d output_clean_dxf_path ;;
    let* current_layer_meshes := extrude_layer dxf_file line_segments_2d z_offset in
    ret (all_meshes_for_stl ++ current_layer_meshes, (z_offset + Parameters.LAYER_THICKNESS)%float).

(** [combined_mesh.export(p)]: the file is opened, then the mesh is written. *)
Definition export_combined (meshes : list Solid) (p : path) : IO unit :=
  open_w p ;;
  let* bytes := lift (concatenate_export meshes) in
  f_write p bytes.

Definition clean_raw_dxfs_and_generate_stl
    (output_dxf_bruto_folder output_dxf_clean_folder output_root_folder : string)
    (model_name current_datetime_str : string) : IO unit :=
  print (nl +:+ "--- Cleaning Raw DXFs & Generating Clean DXFs (and optional combined STL) ---") ;;
  let* entries := listdir output_dxf_bruto_folder in
  let dxf_files_bruto := sorted (filter (fun f => endswith (lower f) ".dxf") entries) in
  let all_meshes_for_stl : list Solid := [] in
  let z_offset : float := 0.0%float in
  if bool_decide (dxf_files_bruto = []) then
    print ("No raw DXF files found in: " +:+ output_dxf_bruto_folder +:+ ". Skipping cleaning.")
  else
    print "Starting processing of DXF layers (extracting lines and generating clean DXFs)..." ;;
    let* (all_meshes_for_stl, _z_offset) :=
      for_fold dxf_files_bruto
        (clean_one_layer output_dxf_bruto_folder output_dxf_clean_folder)
        (all_meshes_for_stl, z_offset) in
    (if bool_decide (all_meshes_for_stl = []) then
       print "No 3D solid created from DXF files for STL (possibly due to empty layers)."
     else
       let output_stl_path :=
         joinpath output_root_folder
           (model_name +:+ "_combined_cleaned_" +:+ current_datetime_str +:+ ".stl") in
       export_combined all_meshes_for_stl output_stl_path ;;
       print (nl +:+ "3D Model '" +:+ name output_stl_path +:+ "' successfully generated at: "
              +:+ path_str output_stl_path)) ;;
    print (nl +:+ "DXF cleaning process completed.").

(** [output_txt_machine_folder / f"machine_{base_filename}.dxf"] for a file
    of the clean folder. *)
Definition machine_file (output_txt_machine_folder filename : string) : path :=
  joinpath output_txt_machine_folder ("machine_" +:+ stem filename +:+ ".dxf").

Definition convert_clean_dxfs_to_machine_format
    (output_dxf_clean_folder output_txt_machine_folder : string) : IO unit :=
  print (nl +:+ "--- Converting Clean DXFs to Machine Format (.dxf simplified) ---") ;;
  let* entries := listdir output_dxf_clean_folder in
  let dxf_files_clean := sorted (filter (fun f => endswith (lower f) ".dxf") entries) in
  if bool_decide (dxf_files_clean = []) then
    print ("No 'clean' DXF files found in '" +:+ output_dxf_clean_folder
           +:+ "'. Skipping conversion to machine format.")
  else
    print ("Starting batch conversion of " +:+ str_nat (length dxf_files_clean)
           +:+ " clean DXF files...") ;;
    for_each dxf_files_clean (fun filename =>
      let input_file_path := joinpath output_dxf_clean_folder filename in
      let output_file_path := machine_file output_txt_machine_folder filename in
      convert_dxf_to_lines_only_machine_format input_file_path output_file_path) ;;
    print (nl +:+ "Machine format conversion completed.").

End batch.
End GeometryProcessing.

(** ** unified_pyslm_pipeline.py *)

Module UnifiedPipeline.

(** The loop of this file's [convert_dxf_to_lines_only_machine_format]
    (lines 209 to 240). *)
Definition all_line_segments_of (m : modelspace) : list segment :=
  let all_line_segments : list segment := [] in
  let all_line_segments :=
    for_in (query "LWPOLYLINE" m) (fun entity all_line_segments =>
      match entity with
      | LWPOLYLINE points is_closed =>
          if (2 <=? length points)%nat then
            let all_line_segments :=
              for_range (length points - 1) (fun i all_line_segments =>
                let start_point := [lw_x (points !!! i); lw_y (points !!! i)] in
                let end_point := [lw_x (points !!! (i + 1)%nat); lw_y (points !!! (i + 1)%nat)] in
                all_line_segments ++ [[start_point; end_point]]) all_line_segments in
            if is_closed && (2 <? length points)%nat then
              let start_point := [lw_x (item_last points); lw_y (points !!! 0%nat)] in
              let end_point := [lw_x (points !!! 0%nat); lw_y (points !!! 0%nat)] in
              all_line_segments ++ [[start_point; end_point]]
            else all_line_segments
          else all_line_segments
      | _ => all_line_segments
      end) all_line_segments in
  let all_line_segments :=
    for_in (query "POLYLINE" m) (fun entity all_line_segments =>
      match entity with
      | POLYLINE vertices is_closed =>
          let current_polyline_points : list point :=
            for_in vertices (fun vertex current_polyline_points =>
              match vertex with
              | VertexAt location => current_polyline_points ++ [[vx location; vy location]]
              | _ => current_polyline_points
              end) [] in
          if (2 <=? length current_polyline_points)%nat then
            let all_line_segments :=
              for_range (length current_polyline_points - 1) (fun i all_line_segments =>
                let start_point :=
                  [(current_polyline_points !!! i) !!! 0%nat; (current_polyline_points !!! i) !!! 1%nat] in
                let end_point :=
                  [(current_polyline_points !!! (i + 1)%nat) !!! 0%nat;
                   (current_polyline_points !!! (i + 1)%nat) !!! 1%nat] in
                all_line_segments ++ [[start_point; end_point]]) all_line_segments in
            if is_closed && (2 <? length current_polyline_points)%nat then
              let start_point :=
                [(item_last current_polyline_points) !!! 0%nat; (item_last current_polyline_points) !!! 1%nat] in
              let end_point :=
                [(current_polyline_points !!! 0%nat) !!! 0%nat; (current_polyline_points !!! 0%nat) !!! 1%nat] in
              all_line_segments ++ [[start_point; end_point]]
            else all_line_segments
          else all_line_segments
      | _ => all_line_segments
      end) all_line_segments in
  for_in (query "LINE" m) (fun entity all_line_segments =>
    match entity with
    | LINE start end_ =>
        let start_point := [vx start; vy start] in
        let end_point := [vx end_; vy end_] in
        all_line_segments ++ [[start_point; end_point]]
    | _ => all_line_segments
    end) all_line_segments.

(** The inner loop of [export_layer_to_dxf] over the coordinates of one hatch
    geometry. *)
Definition add_hatch_lines (coords : coords) : St modelspace unit :=
  for_each (range_by_2 (length coords)) (fun i =>
    let* (start, end_) := lift (unpack2 (slice coords i (i + 2))) in
    modify (add_line start end_)).

Section with_libraries.
Context `{!Ezdxf, !PyFloat}.

(** The modelspace [export_layer_to_dxf] fills before it saves. *)
Definition export_layer_msp (layer : Layer) : St modelspace unit :=
  for_each (getContourGeometry layer) (fun geom =>
    let pts := geom in
    modify (add_lwpolyline pts true)) ;;
  for_each (getHatchGeometry layer) (fun geom =>
    let coords := geom in
    add_hatch_lines coords) ;;
  for_each (getPointsGeometry layer) (fun geom =>
    for_each geom (fun p => modify (add_circle p 0.02))).

Definition export_layer_to_dxf (layer : Layer) (p : path) : IO unit :=
  let doc := ezdxf_new "R2010" in
  let* (_u, m) := with_state (export_layer_msp layer) (msp doc) in
  saveas (Document (dxfversion doc) m) p.

Definition generate_manufacturing_parameters_file
    (input_dxf_folder output_folder : string) (part_name : string) (layer_thickness : float)
  : IO unit :=
  let* found := folder_exists input_dxf_folder in
  if negb found then
    print ("Error: Input DXF folder not found at '" +:+ input_dxf_folder
           +:+ "'. Cannot generate parameters file.")
  else
    let* entries := listdir input_dxf_folder in
    let dxf_files := sorted (filter (fun f => endswith_any (lower f) [".dxf"; ".txt"]) entries) in
    if bool_decide (dxf_files = []) then
      print ("No DXF or TXT files found in '" +:+ input_dxf_folder
             +:+ "'. Cannot generate parameters file.")
    else
      let number_of_layers := length dxf_files in
      let min_x : float := (-7.9)%float in
      let max_x : float := 7.9%float in
      let min_y : float := (-7.9)%float in
      let max_y : float := 7.9%float in
      let final_parameters : dict :=
        [ ("PART NAME", PStr part_name);
          ("MINX", PFloat min_x);
          ("MAXX", PFloat max_x);
          ("MINY", PFloat min_y);
          ("MAXY", PFloat max_y);
          ("NUMBER OF LAYERS", PInt (Z.of_nat number_of_layers));
          ("LAYER THICKNESS", PFloat layer_thickness);
          ("HATCH POWER 1", PInt 40);
          ("HATCH SPEED 1", PInt 170);
          ("VBPP1", PInt 1);
          ("MAGNIFICATION 1", PFloat 1.0);
          ("HATCH POWER 2", PInt 42);
          ("HATCH SPEED 2", PInt 1202);
          ("VBPP2", PInt 2);
          ("MAGNIFICATION 2", PFloat 1.0);
          ("HATCH POWER 3", PInt 43);
          ("HATCH SPEED 3", PInt 1203);
          ("VBPP3", PInt 3);
          ("MAGNIFICATION 3", PFloat 1.0);
          ("NUMBER OF PASSES", PInt 1);
          ("CONTOUR POWER", PInt 11);
          ("CONTOUR SPEED", PInt 1001) ] in
      let output_file_path := joinpath output_folder (part_name +:+ "_auto_machine_parameters.txt") in
      mkdir_p output_folder ;;
      try_except
        (open_w output_file_path ;;
         for_each final_parameters (fun kv =>
           let '(key, value) := kv in
           f_write output_file_path ("[" +:+ key +:+ "]" +:+ nl) ;;
           f_write output_file_path (py_str value +:+ nl)) ;;
         print (nl +:+ "Successfully generated manufacturing parameters file: "
                +:+ path_str output_file_path))
        (fun e => print ("Error generating the file '" +:+ path_str output_file_path +:+ "': "
                         +:+ exn_text e)).

End with_libraries.
End UnifiedPipeline.

(** ** support_DXF_to_clean_DXF.py *)

Module SupportDxfToClean.

(** The loop of this file's [get_line_segments_from_dxf] (lines 51 to 89). *)
Definition line_segments_of (m : modelspace) : list segment :=
  let line_segments : list segment := [] in
  let line_segments :=
    for_in (query "LWPOLYLINE" m) (fun entity line_segments =>
      match entity with
      | LWPOLYLINE points is_closed =>
          if (2 <=? length points)%nat then
            let line_segments :=
              for_range (length points - 1) (fun i line_segments =>
                let start_point := [lw_x (points !!! i); lw_y (points !!! i)] in
                let end_point := [lw_x (points !!! (i + 1)%nat); lw_y (points !!! (i + 1)%nat)] in
                line_segments ++ [[start_point; end_point]]) line_segments in
            if is_closed && (2 <? length points)%nat then
              let start_point := [lw_x (item_last points); lw_y (item_last points)] in
              let end_point := [lw_x (points !!! 0%nat); lw_y (points !!! 0%nat)] in
              line_segments ++ [[start_point; end_point]]
            else line_segments
          else line_segments
      | _ => line_segments
      end) line_segments in
  let line_segments :=
    for_in (query "POLYLINE" m) (fun entity line_segments =>
      match entity with
      | POLYLINE vertices is_closed =>
          let current_polyline_points : list point :=
            for_in vertices (fun vertex current_polyline_points =>
              match vertex with
              | VertexAt location => current_polyline_points ++ [[vx location; vy location]]
              | _ => current_polyline_points
              end) [] in
          if (2 <=? length current_polyline_points)%nat then
            let line_segments :=
              for_range (length current_polyline_points - 1) (fun i line_segments =>
                let start_point :=
                  [(current_polyline_points !!! i) !!! 0%nat; (current_polyline_points !!! i) !!! 1%nat] in
                let end_point :=
                  [(current_polyline_points !!! (i + 1)%nat) !!! 0%nat;
                   (current_polyline_points !!! (i + 1)%nat) !!! 1%nat] in
                line_segments ++ [[start_point; end_point]]) line_segments in
            if is_closed && (2 <? length current_polyline_points)%nat then
              let start_point :=
                [(item_last current_polyline_points) !!! 0%nat; (item_last current_polyline_points) !!! 1%nat] in
              let end_point :=
                [(current_polyline_points !!! 0%nat) !!! 0%nat; (current_polyline_points !!! 0%nat) !!! 1%nat] in
              line_segments ++ [[start_point; end_point]]
            else line_segments
          else line_segments
      | _ => line_segments
      end) line_segments in
  for_in (query "LINE" m) (fun entity line_segments =>
    match entity with
    | LINE start end_ =>
        let start_point := [vx start; vy start] in
        let end_point := [vx end_; vy end_] in
        line_segments ++ [[start_point; end_point]]
    | _ => line_segments
    end) line_segments.

Section with_libraries.
Context `{!Ezdxf, !PyFloat}.

(** The modelspace [create_simplified_dxf_for_laser] fills before it saves. *)
Definition simplified_msp (line_segments : list segment) : St modelspace unit :=
  for_each line_segments (fun segment =>
    let* start_point := lift (item segment 0) in
    let* end_point := lift (item segment 1) in
    let* sx := lift (item start_point 0) in
    let* sy := lift (item start_point 1) in
    let start_point_rounded := (round6 sx, round6 sy) in
    let* ex := lift (item end_point 0) in
    let* ey := lift (item end_point 1) in
    let end_point_rounded := (round6 ex, round6 ey) in
    modify (add_line (xy_values start_point_rounded) (xy_values end_point_rounded))).

Definition create_simplified_dxf_for_laser (line_segments : list segment) (output_dxf_path : path)
  : IO unit :=
  let doc := ezdxf_new "AC1009" in
  let* (_u, m) := with_state (simplified_msp line_segments) (msp doc) in
  try_except
    (saveas (Document (dxfversion doc) m) output_dxf_path)
    (fun e => print ("Erro ao salvar DXF simplificado " +:+ path_str output_dxf_path +:+ ": " +:+ exn_text e)).

(** This file's [get_line_segments_from_dxf]: the read, then the loop. *)
Definition get_line_segments_from_dxf (dxf_path : path) : IO (list segment) :=
  let* read :=
    try_except
      (let* doc := readfile dxf_path in ret (Some (msp doc)))
      (fun e =>
         match exn_type e with
         | DXFStructureError =>
             logging_error ("Estrutura DXF inválida para '" +:+ path_str dxf_path +:+ "'. Pulando.") ;;
             ret None
         | _ =>
             logging_error ("Erro inesperado ao ler '" +:+ path_str dxf_path +:+ "': "
                            +:+ exn_text e +:+ ". Pulando.") ;;
             ret None
         end) in
  match read with
  | None => ret []
  | Some m => ret (line_segments_of m)
  end.

End with_libraries.

Section batch.
Context `{!Ezdxf, !PyFloat, !Trimesh}.

(** The body of the [try] that extrudes one segment. *)
Definition extrude_segment (segment_2d : segment) (layer_height z_offset : float)
  : St (list Solid) unit :=
  let* extruded_result := lift (load_path_extrude segment_2d layer_height) in
  match extruded_result with
  | ExtrudedList items =>
      for_each items (fun extruded_slice =>
        match extruded_slice with
        | Some mesh =>
            let* moved := lift (apply_translation mesh z_offset) in
            modify (fun current_layer_meshes => current_layer_meshes ++ [moved])
        | None => ret tt
        end)
  | ExtrudedMesh mesh =>
      let* moved := lift (apply_translation mesh z_offset) in
      modify (fun current_layer_meshes => current_layer_meshes ++ [moved])
  | ExtrudedOther => ret tt
  end.

Definition extrude_layer (dxf_file : string) (line_segments_2d : list segment)
    (layer_height z_offset : float) : IO (list Solid) :=
  for_fold line_segments_2d (fun segment_2d current_layer_meshes =>
    if (length segment_2d <? 2)%nat then ret current_layer_meshes
    else
      match extrude_segment segment_2d layer_height z_offset current_layer_meshes with
      | (Ok _, current_layer_meshes) => ret current_layer_meshes
      | (Raise e, current_layer_meshes) =>
          logging_error ("Erro ao extrudar segmento de linha em " +:+ dxf_file +:+ " para STL: "
                         +:+ exn_text e) ;;
          ret current_layer_meshes
      end) [].

(** [if output_stl_filename:] holds for a name that is not empty. *)
Definition stl_wanted (output_stl_filename : option string) : bool :=
  match output_stl_filename with
  | Some filename => negb (bool_decide (filename = ""))
  | None => false
  end.

(** One turn of the loop over the raw files; the loop variables are
    [all_meshes] and [z_offset]. *)
Definition clean_one_layer (input_dxf_folder output_clean_dxf_folder : string)
    (layer_height : float) (output_stl_filename : option string)
    (dxf_file : string) (vars : list Solid * float) : IO (list Solid * float) :=
  let '(all_meshes, z_offset) := vars in
  let dxf_path := joinpath input_dxf_folder dxf_file in
  let* line_segments_2d := get_line_segments_from_dxf dxf_path in
  if bool_decide (line_segments_2d = []) then
    print ("Aviso: Nenhuma linha ou polilinha válida encontrada em " +:+ dxf_file
           +:+ ". Pulando esta camada.") ;;
    ret (all_meshes, (z_offset + layer_height)%float)
  else
    let output_clean_dxf_path := joinpath output_clean_dxf_folder ("clean_" +:+ dxf_file) in
    create_simplified_dxf_for_laser line_segments_2d output_clean_dxf_path ;;
    let* all_meshes :=
      if stl_wanted output_stl_filename then
        let* current_layer_meshes := extrude_layer dxf_file line_segments_2d layer_height z_offset in
        ret (all_meshes ++ current_layer_meshes)
      else ret all_meshes in
    ret (all_meshes, (z_offset + layer_height)%float).

(** [combined_mesh.export(p)]: the file is opened, then the mesh is written. *)
Definition export_combined (meshes : list Solid) (p : path) : IO unit :=
  open_w p ;;
  let* bytes := lift (concatenate_export meshes) in
  f_write p bytes.

Definition process_dxf_to_clean_dxf_and_optional_stl
    (input_dxf_folder output_clean_dxf_folder : string) (layer_height : float)
    (output_stl_filename : option string) : IO unit :=
  let* found := os_path_exists input_dxf_folder in
  if negb found then
    print ("Erro: Pasta de entrada de DXFs 'brutos' não encontrada em '" +:+ input_dxf_folder +:+ "'")
  else
    let* clean_found := os_path_exists output_clean_dxf_folder in
    (if negb clean_found then
       os_makedirs output_clean_dxf_folder ;;
       print ("Pasta de DXF 'limpos' criada: '" +:+ output_clean_dxf_folder +:+ "'")
     else ret tt) ;;
    let* entries := listdir input_dxf_folder in
    let dxf_files := sorted (filter (fun f => endswith (lower f) ".dxf") entries) in
    if bool_decide (dxf_files = []) then
      print ("Nenhum arquivo DXF encontrado na pasta: " +:+ input_dxf_folder)
    else
      let all_meshes : list Solid := [] in
      let z_offset : float := 0.0%float in
      print "Iniciando o processamento de camadas DXF (extraindo linhas e gerando DXFs limpos)..." ;;
      let* (all_meshes, _z_offset) :=
        for_fold dxf_files
          (clean_one_layer input_dxf_folder output_clean_dxf_folder layer_height output_stl_filename)
          (all_meshes, z_offset) in
      (match output_stl_filename with
       | Some filename =>
           if negb (bool_decide (filename = "")) then
             if bool_decide (all_meshes = []) then
               print "Nenhum sólido 3D foi criado a partir dos arquivos DXF para o STL."
             else
               let output_stl_path := joinpath output_clean_dxf_folder filename in
               export_combined all_meshes output_stl_path ;;
               print (nl +:+ "Modelo 3D '" +:+ filename +:+ "' gerado com sucesso em: "
                      +:+ path_str output_stl_path)
           else ret tt
       | None => ret tt
       end) ;;
      print (nl +:+ "Processo de limpeza de DXF concluído.").

End batch.
End SupportDxfToClean.

(** ** support_DXF_to_machine_TXT_or_DXF.py *)

Module SupportDxfToMachine.

(** The loop of [convert_dxf_to_lines_only] (lines 51 to 93). *)
Definition all_line_segments_of (m : modelspace) : list segment :=
  let all_line_segments : list segment := [] in
  let all_line_segments :=
    for_in (query "LWPOLYLINE" m) (fun entity all_line_segments =>
      match entity with
      | LWPOLYLINE points is_closed =>
          if (2 <=? length points)%nat then
            let all_line_segments :=
              for_range (length points - 1) (fun i all_line_segments =>
                let start_point := [lw_x (points !!! i); lw_y (points !!! i)] in
                let end_point := [lw_x (points !!! (i + 1)%nat); lw_y (points !!! (i + 1)%nat)] in
                all_line_segments ++ [[start_point; end_point]]) all_line_segments in
            if is_closed && (2 <? length points)%nat then
              let start_point := [lw_x (item_last points); lw_y (item_last points)] in
              let end_point := [lw_x (points !!! 0%nat); lw_y (points !!! 0%nat)] in
              all_line_segments ++ [[start_point; end_point]]
            else all_line_segments
          else all_line_segments
      | _ => all_line_segments
      end) all_line_segments in
  let all_line_segments :=
    for_in (query "POLYLINE" m) (fun entity all_line_segments =>
      match entity with
      | POLYLINE vertices is_closed =>
          let current_polyline_points : list point :=
            for_in vertices (fun vertex current_polyline_points =>
              match vertex with
              | VertexAt location => current_polyline_points ++ [[vx location; vy location]]
              | _ => current_polyline_points
              end) [] in
          if (2 <=? length current_polyline_points)%nat then
            let all_line_segments :=
              for_range (length current_polyline_points - 1) (fun i all_line_segments =>
                let start_point :=
                  [(current_polyline_points !!! i) !!! 0%nat; (current_polyline_points !!! i) !!! 1%nat] in
                let end_point :=
                  [(current_polyline_points !!! (i + 1)%nat) !!! 0%nat;
                   (current_polyline_points !!! (i + 1)%nat) !!! 1%nat] in
                all_line_segments ++ [[start_point; end_point]]) all_line_segments in
            if is_closed && (2 <? length current_polyline_points)%nat then
              let start_point :=
                [(item_last current_polyline_points) !!! 0%nat; (item_last current_polyline_points) !!! 1%nat] in
              let end_point :=
                [(current_polyline_points !!! 0%nat) !!! 0%nat; (current_polyline_points !!! 0%nat) !!! 1%nat] in
              all_line_segments ++ [[start_point; end_point]]
            else all_line_segments
          else all_line_segments
      | _ => all_line_segments
      end) all_line_segments in
  for_in (query "LINE" m) (fun entity all_line_segments =>
    match entity with
    | LINE start end_ =>
        let start_point := [vx start; vy start] in
        let end_point := [vx end_; vy end_] in
        all_line_segments ++ [[start_point; end_point]]
    | _ => all_line_segments
    end) all_line_segments.

Section with_libraries.
Context `{!Ezdxf}.

(** The writes of [convert_dxf_to_lines_only] inside its [with open(...)] block. *)
Definition write_lines_only (f : path) (all_line_segments : list segment) : IO unit :=
  f_write f ("0" +:+ nl) ;;
  f_write f ("SECTION" +:+ nl) ;;
  f_write f ("2" +:+ nl) ;;
  f_write f ("ENTITIES" +:+ nl) ;;
  for_each all_line_segments (fun segment =>
    let* s0 := lift (item segment 0) in
    let* (start_x, start_y) := lift (unpack2 s0) in
    let* s1 := lift (item segment 1) in
    let* (end_x, end_y) := lift (unpack2 s1) in
    f_write f ("0" +:+ nl) ;;
    f_write f ("LINE" +:+ nl) ;;
    f_write f ("8" +:+ nl) ;;
    f_write f ("0" +:+ nl) ;;
    f_write f ("10" +:+ nl) ;;
    f_write f (format_3f start_x +:+ nl) ;;
    f_write f ("20" +:+ nl) ;;
    f_write f (format_3f start_y +:+ nl) ;;
    f_write f ("11" +:+ nl) ;;
    f_write f (format_3f end_x +:+ nl) ;;
    f_write f ("21" +:+ nl) ;;
    f_write f (format_3f end_y +:+ nl) ;;
    f_write f ("0" +:+ nl)) ;;
  f_write f ("0" +:+ nl) ;;
  f_write f ("ENDSEC" +:+ nl) ;;
  f_write f ("0" +:+ nl) ;;
  f_write f ("EOF" +:+ nl).

Definition convert_dxf_to_lines_only (input_dxf_path output_target_path : path)
    (output_extension : string) : IO unit :=
  let* found := file_exists input_dxf_path in
  if negb found then
    print ("Erro: Arquivo DXF de entrada não encontrado em '" +:+ path_str input_dxf_path +:+ "'")
  else
    let* read :=
      try_except
        (let* doc := readfile input_dxf_path in ret (Some (msp doc)))
        (fun e =>
           match exn_type e with
           | DXFStructureError =>
               print ("Erro: Estrutura de arquivo DXF inválida para '" +:+ path_str input_dxf_path
                      +:+ "'. Pulando.") ;;
               ret None
           | _ =>
               print ("Ocorreu um erro inesperado ao ler '" +:+ path_str input_dxf_path +:+ "': "
                      +:+ exn_text e +:+ ". Pulando.") ;;
               ret None
           end) in
    match read with
    | None => ret tt
    | Some m =>
        let all_line_segments := all_line_segments_of m in
        let output_dir := parent output_target_path in
        let* dir_found := folder_exists output_dir in
        (if negb (bool_decide (output_dir = "")) && negb dir_found then mkdir_p output_dir
         else ret tt) ;;
        try_except
          (open_w output_target_path ;;
           write_lines_only output_target_path all_line_segments)
          (fun e => print ("Erro ao escrever em '" +:+ path_str output_target_path +:+ "': "
                           +:+ exn_text e))
    end.
(** [os.path.join(output_folder_path, f"cleaned_{base_filename}{output_extension}")] *)
Definition cleaned_file (output_folder_path filename output_extension : string) : path :=
  let base_filename := (splitext filename).1 in
  joinpath output_folder_path ("cleaned_" +:+ base_filename +:+ output_extension).

Definition process_dxf_folder (input_folder_path output_folder_path : string)
    (output_extension : string) : IO unit :=
  let* found := os_path_exists input_folder_path in
  if negb found then
    print ("Erro: Pasta de entrada não encontrada em '" +:+ input_folder_path +:+ "'")
  else
    let* out_found := os_path_exists output_folder_path in
    (if negb out_found then
       os_makedirs output_folder_path ;;
       print ("Pasta de saída criada: '" +:+ output_folder_path +:+ "'")
     else ret tt) ;;
    let* entries := listdir input_folder_path in
    let dxf_files := filter (fun f => endswith (lower f) ".dxf") entries in
    if bool_decide (dxf_files = []) then
      print ("Nenhum arquivo DXF encontrado em '" +:+ input_folder_path +:+ "'.")
    else
      print ("Iniciando a conversão em lote de " +:+ str_nat (length dxf_files)
             +:+ " arquivos DXF de '" +:+ input_folder_path +:+ "' para '"
             +:+ output_folder_path +:+ "'...") ;;
      for_each dxf_files (fun filename =>
        let input_file_path := joinpath input_folder_path filename in
        let output_file_path := cleaned_file output_folder_path filename output_extension in
        convert_dxf_to_lines_only input_file_path output_file_path output_extension) ;;
      print (nl +:+ "Conversão em lote concluída!").
End with_libraries.
End SupportDxfToMachine.

(** ** STL_to_machine_TXT.py *)

Module StlToMachineTxt.

(** The loop of this file's [convert_dxf_to_lines_only_machine_format]
    (lines 158 to 191). *)
Definition all_line_segments_of (m : modelspace) : list segment :=
  let all_line_segments : list segment := [] in
  let all_line_segments :=
    for_in (query "LWPOLYLINE" m) (fun entity all_line_segments =>
      match entity with
      | LWPOLYLINE points is_closed =>
          if (2 <=? length points)%nat then
            let all_line_segments :=
              for_range (length points - 1) (fun i all_line_segments =>
                let start_point := [lw_x (points !!! i); lw_y (points !!! i)] in
                let end_point := [lw_x (points !!! (i + 1)%nat); lw_y (points !!! (i + 1)%nat)] in
                all_line_segments ++ [[start_point; end_point]]) all_line_segments in
            if is_closed && (2 <? length points)%nat then
              let start_point := [lw_x (item_last points); lw_y (item_last points)] in
              let end_point := [lw_x (points !!! 0%nat); lw_y (points !!! 0%nat)] in
              all_line_segments ++ [[start_point; end_point]]
            else all_line_segments
          else all_line_segments
      | _ => all_line_segments
      end) all_line_segments in
  let all_line_segments :=
    for_in (query "POLYLINE" m) (fun entity all_line_segments =>
      match entity with
      | POLYLINE vertices is_closed =>
          let current_polyline_points : list point :=
            for_in vertices (fun vertex current_polyline_points =>
              match vertex with
              | VertexAt location => current_polyline_points ++ [[vx location; vy location]]
              | _ => current_polyline_points
              end) [] in
          if (2 <=? length current_polyline_points)%nat then
            let all_line_segments :=
              for_range (length current_polyline_points - 1) (fun i all_line_segments =>
                let start_point :=
                  [(current_polyline_points !!! i) !!! 0%nat; (current_polyline_points !!! i) !!! 1%nat] in
                let end_point :=
                  [(current_polyline_points !!! (i + 1)%nat) !!! 0%nat;
                   (current_polyline_points !!! (i + 1)%nat) !!! 1%nat] in
                all_line_segments ++ [[start_point; end_point]]) all_line_segments in
            if is_closed && (2 <? length current_polyline_points)%nat then
              let start_point :=
                [(item_last current_polyline_points) !!! 0%nat; (item_last current_polyline_points) !!! 1%nat] in
              let end_point :=
                [(current_polyline_points !!! 0%nat) !!! 0%nat; (current_polyline_points !!! 0%nat) !!! 1%nat] in
              all_line_segments ++ [[start_point; end_point]]
            else all_line_segments
          else all_line_segments
      | _ => all_line_segments
      end) all_line_segments in
  for_in (query "LINE" m) (fun entity all_line_segments =>
    match entity with
    | LINE start end_ =>
        let start_point := [vx start; vy start] in
        let end_point := [vx end_; vy end_] in
        all_line_segments ++ [[start_point; end_point]]
    | _ => all_line_segments
    end) all_line_segments.

Section with_libraries.
Context `{!Ezdxf}.

(** The writes of this file's converter inside its [with open(...)] block. *)
Definition write_machine_format (f : path) (all_line_segments : list segment) : IO unit :=
  f_write f ("0" +:+ nl +:+ "SECTION" +:+ nl +:+ "2" +:+ nl +:+ "ENTITIES" +:+ nl) ;;
  for_each all_line_segments (fun segment =>
    let* s0 := lift (item segment 0) in
    let* (start_x, start_y) := lift (unpack2 s0) in
    let* s1 := lift (item segment 1) in
    let* (end_x, end_y) := lift (unpack2 s1) in
    f_write f ("0" +:+ nl +:+ "LINE" +:+ nl +:+ "8" +:+ nl +:+ "0" +:+ nl
               +:+ "10" +:+ nl +:+ format_3f start_x +:+ nl
               +:+ "20" +:+ nl +:+ format_3f start_y +:+ nl
               +:+ "11" +:+ nl +:+ format_3f end_x +:+ nl
               +:+ "21" +:+ nl +:+ format_3f end_y +:+ nl
               +:+ "0" +:+ nl)) ;;
  f_write f ("0" +:+ nl +:+ "ENDSEC" +:+ nl +:+ "0" +:+ nl +:+ "EOF" +:+ nl).

Definition convert_dxf_to_lines_only_machine_format (input_dxf_path output_target_path : path)
  : IO unit :=
  let* found := file_exists input_dxf_path in
  if negb found then
    print ("Erro: Arquivo DXF de entrada não encontrado em '" +:+ path_str input_dxf_path +:+ "'")
  else
    let* read :=
      try_except
        (let* doc := readfile input_dxf_path in ret (Some (msp doc)))
        (fun e =>
           match exn_type e with
           | DXFStructureError =>
               print ("Erro: Estrutura de arquivo DXF inválida para '" +:+ path_str input_dxf_path
                      +:+ "'. Pulando.") ;;
               ret None
           | _ =>
               print ("Ocorreu um erro inesperado ao ler '" +:+ path_str input_dxf_path +:+ "': "
                      +:+ exn_text e +:+ ". Pulando.") ;;
               ret None
           end) in
    match read with
    | None => ret tt
    | Some m =>
        let all_line_segments := all_line_segments_of m in
        mkdir_p (parent output_target_path) ;;
        try_except
          (open_w output_target_path ;;
           write_machine_format output_target_path all_line_segments)
          (fun e => print ("Erro ao escrever em '" +:+ path_str output_target_path +:+ "': "
                           +:+ exn_text e))
    end.

End with_libraries.
End StlToMachineTxt.

(** ** support_DXF_to_clean_DXF_old.py *)

Module SupportDxfToCleanOld.

(** The loop of this file's [get_line_segments_from_dxf] (lines 18 to 56):
    the test for the closing segment comes after the test on the length,
    not inside it. *)
Definition line_segments_of (m : modelspace) : list segment :=
  let line_segments : list segment := [] in
  let line_segments :=
    for_in (query "LWPOLYLINE" m) (fun entity line_segments =>
      match entity with
      | LWPOLYLINE points is_closed =>
          let line_segments :=
            if (2 <=? length points)%nat then
              for_range (length points - 1) (fun i line_segments =>
                let start_point := [lw_x (points !!! i); lw_y (points !!! i)] in
                let end_point := [lw_x (points !!! (i + 1)%nat); lw_y (points !!! (i + 1)%nat)] in
                line_segments ++ [[start_point; end_point]]) line_segments
            else line_segments in
          if is_closed && (2 <? length points)%nat then
            let start_point := [lw_x (item_last points); lw_y (item_last points)] in
            let end_point := [lw_x (points !!! 0%nat); lw_y (points !!! 0%nat)] in
            line_segments ++ [[start_point; end_point]]
          else line_segments
      | _ => line_segments
      end) line_segments in
  let line_segments :=
    for_in (query "POLYLINE" m) (fun entity line_segments =>
      match entity with
      | POLYLINE vertices is_closed =>
          let current_polyline_points : list point :=
            for_in vertices (fun vertex current_polyline_points =>
              match vertex with
              | VertexAt location => current_polyline_points ++ [[vx location; vy location]]
              | _ => current_polyline_points
              end) [] in
          let line_segments :=
            if (2 <=? length current_polyline_points)%nat then
              for_range (length current_polyline_points - 1) (fun i line_segments =>
                let start_point :=
                  [(current_polyline_points !!! i) !!! 0%nat; (current_polyline_points !!! i) !!! 1%nat] in
                let end_point :=
                  [(current_polyline_points !!! (i + 1)%nat) !!! 0%nat;
                   (current_polyline_points !!! (i + 1)%nat) !!! 1%nat] in
                line_segments ++ [[start_point; end_point]]) line_segments
            else line_segments in
          if is_closed && (2 <? length current_polyline_points)%nat then
            let start_point :=
              [(item_last current_polyline_points) !!! 0%nat; (item_last current_polyline_points) !!! 1%nat] in
            let end_point :=
              [(current_polyline_points !!! 0%nat) !!! 0%nat; (current_polyline_points !!! 0%nat) !!! 1%nat] in
            line_segments ++ [[start_point; end_point]]
          else line_segments
      | _ => line_segments
      end) line_segments in
  for_in (query "LINE" m) (fun entity line_segments =>
    match entity with
    | LINE start end_ =>
        let start_point := [vx start; vy start] in
        let end_point := [vx end_; vy end_] in
        line_segments ++ [[start_point; end_point]]
    | _ => line_segments
    end) line_segments.

Section with_libraries.
Context `{!Ezdxf}.

(** This file's [get_line_segments_from_dxf] reads without a [try]. *)
Definition get_line_segments_from_dxf (dxf_path : path) : IO (list segment) :=
  let* doc := readfile dxf_path in
  let msp := msp doc in
  ret (line_segments_of msp).

End with_libraries.
End SupportDxfToCleanOld.

(** ** manufacture_parameters.py *)

(** [os.path.basename(p)]: what follows the last slash. *)
Fixpoint basename_from (s acc : string) : string :=
  match s with
  | EmptyString => acc
  | String c rest =>
      if Ascii.eqb c "/"%char then basename_from rest "" else basename_from rest (acc +:+ String c "")
  end.
Definition basename (p : string) : string := basename_from p "".

Module ManufactureParameters.

(** The body of the [try] in [get_dxf_line_segments] after the file is read;
    [segments] is the list it appends to. *)
Definition collect_segments (m : modelspace) : St (list segment) unit :=
  for_each (query "LINE" m) (fun entity =>
    match entity with
    | LINE start end_ =>
        let start_point := [vx start; vy start] in
        let end_point := [vx end_; vy end_] in
        modify (fun segments => segments ++ [[start_point; end_point]])
    | _ => ret tt
    end) ;;
  for_each (query "LWPOLYLINE" m) (fun entity =>
    match entity with
    | LWPOLYLINE points is_closed =>
        modify (for_range (length points - 1) (fun i segments =>
          segments ++ [[[lw_x (points !!! i); lw_y (points !!! i)];
                        [lw_x (points !!! (i + 1)%nat); lw_y (points !!! (i + 1)%nat)]]])) ;;
        if is_closed && (2 <? length points)%nat then
          modify (fun segments =>
            segments ++ [[[lw_x (item_last points); lw_y (item_last points)];
                          [lw_x (points !!! 0%nat); lw_y (points !!! 0%nat)]]])
        else ret tt
    | _ => ret tt
    end) ;;
  for_each (query "POLYLINE" m) (fun entity =>
    match entity with
    | POLYLINE vertices is_closed =>
        let* current_polyline_points :=
          for_fold vertices (fun vertex current_polyline_points =>
            match vertex with
            | VertexAt location => ret (current_polyline_points ++ [[vx location; vy location]])
            | VertexPlain _ => raise (Exn AttributeError "object has no attribute 'dxf'")
            | VertexNoLocation => raise (Exn AttributeError "object has no attribute 'location'")
            end) ([] : list point) in
        if (2 <=? length current_polyline_points)%nat then
          modify (for_range (length current_polyline_points - 1) (fun i segments =>
            segments ++ [[[(current_polyline_points !!! i) !!! 0%nat;
                           (current_polyline_points !!! i) !!! 1%nat];
                          [(current_polyline_points !!! (i + 1)%nat) !!! 0%nat;
                           (current_polyline_points !!! (i + 1)%nat) !!! 1%nat]]])) ;;
          if is_closed && (2 <? length current_polyline_points)%nat then
            modify (fun segments =>
              segments ++ [[[(item_last current_polyline_points) !!! 0%nat;
                             (item_last current_polyline_points) !!! 1%nat];
                            [(current_polyline_points !!! 0%nat) !!! 0%nat;
                             (current_polyline_points !!! 0%nat) !!! 1%nat]]])
          else ret tt
        else ret tt
    | _ => ret tt
    end).

Section with_libraries.
Context `{!Ezdxf, !PyFloat}.

(** The whole body is one [try] whose handler is [pass]; [segments] keeps
    what was appended before a raise. *)
Definition get_dxf_line_segments (dxf_path : path) : IO (list segment) :=
  let segments : list segment := [] in
  let* read :=
    try_except (let* doc := readfile dxf_path in ret (Some (msp doc))) (fun _ => ret None) in
  match read with
  | None => ret segments
  | Some m => ret (try_except (collect_segments m) (fun _ => ret tt) segments).2
  end.

(** The table [generate_auto_parameters_file] writes, once the part name
    and the layer count are known. *)
Definition final_parameters_of (part_name : string) (number_of_layers : nat)
    (layer_thickness : float) (machine_settings : option dict) : dict :=
  let final_parameters : dict :=
    [ ("PART NAME", PStr part_name);
      ("MINX", PFloat (-7.9));
      ("MAXX", PFloat 7.9);
      ("MINY", PFloat (-7.9));
      ("MAXY", PFloat 7.9);
      ("NUMBER OF LAYERS", PInt (Z.of_nat number_of_layers));
      ("LAYER THICKNESS", PFloat layer_thickness);
      ("HATCH POWER 1", PInt 40);
      ("HATCH SPEED 1", PInt 170);
      ("VBPP1", PInt 1);
      ("MAGNIFICATION 1", PFloat 1.0);
      ("HATCH POWER 2", PInt 42);
      ("HATCH SPEED 2", PInt 1202);
      ("VBPP2", PInt 2);
      ("MAGNIFICATION 2", PFloat 1.0);
      ("HATCH POWER 3", PInt 43);
      ("HATCH SPEED 3", PInt 1203);
      ("VBPP3", PInt 3);
      ("MAGNIFICATION 3", PFloat 1.0);
      ("NUMBER OF PASSES", PInt 1);
      ("CONTOUR POWER", PInt 11);
      ("CONTOUR SPEED", PInt 1001) ] in
  match machine_settings with
  | Some settings =>
      for_in settings (fun kv final_parameters => dict_set final_parameters kv.1 kv.2)
             final_parameters
  | None => final_parameters
  end.

Definition generate_auto_parameters_file (input_dxf_folder : string) (output_file_path : path)
    (layer_thickness : float) (part_name : option string) (machine_settings : option dict)
  : IO unit :=
  let* found := os_path_exists input_dxf_folder in
  if negb found then
    print ("Error: Input DXF folder not found at '" +:+ input_dxf_folder +:+ "'")
  else
    let* entries := listdir input_dxf_folder in
    let dxf_files := sorted (filter (fun f => endswith_any (lower f) [".dxf"; ".txt"]) entries) in
    if bool_decide (dxf_files = []) then
      print ("No DXF or TXT files found in '" +:+ input_dxf_folder +:+ "'.")
    else
      let min_x := infinity in
      let max_x := neg_infinity in
      let min_y := infinity in
      let max_y := neg_infinity in
      let number_of_layers := length dxf_files in
      print ("Analyzing " +:+ str_nat number_of_layers +:+ " DXF/TXT layers for bounding box...") ;;
      for_each dxf_files (fun filename =>
        let file_path := joinpath input_dxf_folder filename in
        let* segments := get_dxf_line_segments file_path in
        ret tt) ;;
      let* bounding_box :=
        if PrimFloat.eqb min_x infinity then
          let zeroed := (0%float, 0%float, 0%float, 0%float) in
          print "Warning: No valid geometry found in DXF/TXT files. Bounding box defaulted to (0,0,0,0)." ;;
          ret zeroed
        else ret (min_x, max_x, min_y, max_y) in
      let part_name :=
        match part_name with
        | None => basename input_dxf_folder
        | Some given => given
        end in
      let final_parameters :=
        final_parameters_of part_name number_of_layers layer_thickness machine_settings in
      let output_dir := parent output_file_path in
      let* dir_found := os_path_exists output_dir in
      (if negb (bool_decide (output_dir = "")) && negb dir_found then mkdir_p output_dir
       else ret tt) ;;
      try_except
        (open_w output_file_path ;;
         for_each final_parameters (fun kv =>
           let '(key, value) := kv in
           f_write output_file_path ("[" +:+ key +:+ "]" +:+ nl) ;;
           f_write output_file_path (py_str value +:+ nl)) ;;
         print (nl +:+ "Successfully generated manufacturing parameters file: "
                +:+ path_str output_file_path))
        (fun e => print ("Error generating the file '" +:+ path_str output_file_path +:+ "': "
                         +:+ exn_text e)).
End with_libraries.
End ManufactureParameters.

(** ** What the extraction is meant to compute, in closed form *)

Section closed_forms.

(** The segments between consecutive items. *)
Fixpoint consecutive {A} (ps : list A) : list (list A) :=
  match ps with
  | p :: (q :: _) as rest => [p; q] :: consecutive rest
  | _ => []
  end.

(** The segment from the last item back to the first, for a closed
    polyline of more than two points. *)
Definition closing_segment (ps : list point) (is_closed : bool) : list segment :=
  if is_closed && (2 <? length ps)%nat then [[default [] (last ps); default [] (head ps)]]
  else [].

Definition polyline_segments (ps : list point) (is_closed : bool) : list segment :=
  consecutive ps ++ closing_segment ps is_closed.

Definition lw_xy (p : lwpoint) : point := [lw_x p; lw_y p].
Definition vec_xy (v : Vec3) : point := [vx v; vy v].

(** The points of the vertices that carry a location. *)
Definition located (vertices : list vertex) : list point :=
  omap (fun v => match v with VertexAt location => Some (vec_xy location) | _ => None end) vertices.

Definition entity_segments (e : entity) : list segment :=
  match e with
  | LWPOLYLINE points is_closed => polyline_segments (map lw_xy points) is_closed
  | POLYLINE vertices is_closed => polyline_segments (located vertices) is_closed
  | LINE start end_ => [[vec_xy start; vec_xy end_]]
  | _ => []
  end.

(** All LWPOLYLINEs first, then all POLYLINEs, then all LINEs, each group in
    modelspace order. *)
Definition expected_segments (m : modelspace) : list segment :=
  flat_map entity_segments (query "LWPOLYLINE" m)
  ++ flat_map entity_segments (query "POLYLINE" m)
  ++ flat_map entity_segments (query "LINE" m).

(** What the loop over [query name] appends for one entity. *)
Definition appended_for (name : string) (e : entity) : list segment :=
  if decide (dxftype e = name) then entity_segments e else [].

(** The closing segment as [convert_dxf_to_lines_only_machine_format] builds
    it for an LWPOLYLINE: its start takes x from the last point and y from
    the first. *)
Definition slipped_closing (points : list lwpoint) (is_closed : bool) : list segment :=
  if is_closed && (2 <? length points)%nat then
    [[[lw_x (item_last points); lw_y (points !!! 0%nat)];
      [lw_x (points !!! 0%nat); lw_y (points !!! 0%nat)]]]
  else [].

Definition entity_segments_slipped (e : entity) : list segment :=
  match e with
  | LWPOLYLINE points is_closed => consecutive (map lw_xy points) ++ slipped_closing points is_closed
  | _ => entity_segments e
  end.

(** Every closed LWPOLYLINE of more than two points ends at the y it
    started from. *)
Definition closes_at_same_y (m : modelspace) : Prop :=
  forall points, LWPOLYLINE points true ∈ m -> (2 < length points)%nat ->
    lw_y (item_last points) = lw_y (points !!! 0%nat).

Definition is_extracted_kind (e : entity) : bool :=
  match e with
  | LWPOLYLINE _ _ | POLYLINE _ _ | LINE _ _ => true
  | _ => false
  end.

(** A segment pairs exactly two points of exactly two coordinates each. *)
Definition well_shaped (s : segment) : Prop :=
  length s = 2%nat /\ Forall (fun p : point => length p = 2%nat) s.

(** What is asked of one polyline with the points [ps], given what
    the extraction returns for it when open and when closed. *)
Definition polyline_rule (ps : list point) (open_result closed_result : list segment) : Prop :=
  ((2 <= length ps)%nat ->
     length open_result = (length ps - 1)%nat
     /\ forall i p q, ps !! i = Some p -> ps !! S i = Some q -> open_result !! i = Some [p; q])
  /\ ((length ps < 2)%nat -> open_result = [])
  /\ ((2 < length ps)%nat ->
        forall first final, head ps = Some first -> last ps = Some final ->
          closed_result = open_result ++ [[final; first]])
  /\ ((length ps <= 2)%nat -> closed_result = open_result).

(** A computation keeps the property [P] of its state, also when it raises. *)
Definition preserves {S A} (P : S -> Prop) (m : St S A) : Prop :=
  forall s, P s -> P (m s).2.

End closed_forms.

(** ** The machine format, in closed form *)

Section machine_format.

(** A segment [((x1, y1), (x2, y2))] of four numbers. *)
Definition xyxy : Type := (number * number) * (number * number).

(** The Python value of a segment: [[(x1, y1), (x2, y2)]]. *)
Definition seg_of (s : xyxy) : segment := [[s.1.1; s.1.2]; [s.2.1; s.2.2]].

(** The segment a well-shaped Python value stands for. *)
Definition xyxy_of (s : segment) : xyxy :=
  (((s !!! 0%nat) !!! 0%nat, (s !!! 0%nat) !!! 1%nat),
   ((s !!! 1%nat) !!! 0%nat, (s !!! 1%nat) !!! 1%nat)).

(** The text of some lines, each ended by a newline. *)
Fixpoint lines (ls : list string) : string :=
  match ls with
  | [] => ""
  | l :: rest => l +:+ nl +:+ lines rest
  end.

Definition machine_header : string := lines ["0"; "SECTION"; "2"; "ENTITIES"].

Definition machine_line (s : xyxy) : string :=
  lines ["0"; "LINE"; "8"; "0";
         "10"; format_3f s.1.1; "20"; format_3f s.1.2;
         "11"; format_3f s.2.1; "21"; format_3f s.2.2; "0"].

Definition machine_footer : string := lines ["0"; "ENDSEC"; "0"; "EOF"].

Fixpoint concat_text (ts : list string) : string :=
  match ts with
  | [] => ""
  | t :: rest => t +:+ concat_text rest
  end.

Definition machine_text (segments : list xyxy) : string :=
  machine_header +:+ concat_text (map machine_line segments) +:+ machine_footer.

Definition is_digit (c : ascii) : bool :=
  (48 <=? nat_of_ascii c)%nat && (nat_of_ascii c <=? 57)%nat.

Definition all_digits (s : string) : bool := forallb is_digit (list_ascii_of_string s).

(** An optional minus sign, at least one digit, a point, exactly three digits. *)
Definition three_decimals (s : string) : Prop :=
  exists sign whole frac,
    s = sign +:+ whole +:+ "." +:+ frac
    /\ (sign = "" \/ sign = "-")
    /\ whole <> "" /\ all_digits whole = true
    /\ String.length frac = 3%nat /\ all_digits frac = true.

(** The world in which the file [f] holds the text [c]. *)
Definition put_file (f : path) (c : string) (w : world) : world :=
  set_fs (<[parent f := <[name f := c]> (default ∅ (fs w !! parent f))]> (fs w)) w.

End machine_format.

(** ** The parameter file, in closed form *)

Section parameter_file.
Context `{!PyFloat}.

Definition is_layer_file (f : string) : bool := endswith_any (lower f) [".dxf"; ".txt"].

(** The number of entries of a folder whose lowercased name ends with [.dxf]
    or [.txt]. *)
Definition layer_file_count (entries : gmap string string) : nat :=
  size (filter (fun kv : string * string => is_layer_file kv.1) entries).

Definition parameter_keys : list string :=
  [ "PART NAME"; "MINX"; "MAXX"; "MINY"; "MAXY"; "NUMBER OF LAYERS"; "LAYER THICKNESS";
    "HATCH POWER 1"; "HATCH SPEED 1"; "VBPP1"; "MAGNIFICATION 1";
    "HATCH POWER 2"; "HATCH SPEED 2"; "VBPP2"; "MAGNIFICATION 2";
    "HATCH POWER 3"; "HATCH SPEED 3"; "VBPP3"; "MAGNIFICATION 3";
    "NUMBER OF PASSES"; "CONTOUR POWER"; "CONTOUR SPEED" ].

(** A line [[KEY]] and a line with the value. *)
Definition parameter_entry (key : string) (value : pyvalue) : string :=
  "[" +:+ key +:+ "]" +:+ nl +:+ py_str value +:+ nl.

Definition parameters_text (table : dict) : string :=
  concat_text (map (fun kv => parameter_entry kv.1 kv.2) table).

(** The values [generate_manufacturing_parameters_file] writes under the keys,
    for a part name, a layer count and a layer thickness. *)
Definition manufacturing_values (part_name : string) (number_of_layers : nat)
    (layer_thickness : float) : list pyvalue :=
  [ PStr part_name; PFloat (-7.9); PFloat 7.9; PFloat (-7.9); PFloat 7.9;
    PInt (Z.of_nat number_of_layers); PFloat layer_thickness;
    PInt 40; PInt 170; PInt 1; PFloat 1.0;
    PInt 42; PInt 1202; PInt 2; PFloat 1.0;
    PInt 43; PInt 1203; PInt 3; PFloat 1.0;
    PInt 1; PInt 11; PInt 1001 ].

(** The part name [generate_auto_parameters_file] ends up with. *)
Definition effective_part_name (part_name : option string) (input_dxf_folder : string) : string :=
  match part_name with
  | None => basename input_dxf_folder
  | Some given => given
  end.

(** The folder of an output file is there, or will be made: the scripts that
    build the folder themselves skip the empty (current) folder. *)
Definition can_open (f : path) (w : world) : Prop :=
  parent f <> "" \/ is_Some (fs w !! parent f).

Definition bounding_box_keys : list string := ["MINX"; "MAXX"; "MINY"; "MAXY"].

(** The keys a [machine_settings] argument assigns. *)
Definition overridden_keys (machine_settings : option dict) : list string :=
  match machine_settings with
  | None => []
  | Some settings => settings.*1
  end.

End parameter_file.

(** ** The documents the scripts build, in closed form *)

(** What [start, end = ...] raises on a single row. *)
Definition unpack_error : exn := Exn ValueError "not enough values to unpack".

Section built_documents.
Context `{!PyFloat}.

(** The LINE entity of a segment, each coordinate through [round(_, 6)]:
    the entity keeps the binary64 values of the rounded numbers. *)
Definition rounded_line (s : xyxy) : entity :=
  LINE (vec3 (round6 s.1.1) (round6 s.1.2) 0) (vec3 (round6 s.2.1) (round6 s.2.2) 0).

(** The LINE entities of a hatch geometry: rows 0-1, rows 2-3, and so on. *)
Fixpoint hatch_lines (c : coords) : list entity :=
  match c with
  | a :: b :: rest => LINE (vec3 a.1 a.2 0) (vec3 b.1 b.2 0) :: hatch_lines rest
  | _ => []
  end.

Definition contour_polyline (c : coords) : entity :=
  LWPOLYLINE (map (fun p => lwp p.1 p.2 0 0 0) c) true.

Definition point_circles (c : coords) : list entity :=
  map (fun p => CIRCLE (vec3 p.1 p.2 0) 0.02) c.

(** Contours first, then hatch lines, then point circles. *)
Definition layer_entities (layer : Layer) : modelspace :=
  map contour_polyline (getContourGeometry layer)
  ++ flat_map hatch_lines (getHatchGeometry layer)
  ++ flat_map point_circles (getPointsGeometry layer).

End built_documents.

(** ** The slicing loop *)

(** [h.hatchAngle += HATCH_ANGLE_INCREMENT] *)
Definition turn_hatcher (h : Hatcher) : Hatcher :=
  set_hatchAngle (hatchAngle h + Parameters.HATCH_ANGLE_INCREMENT)%float h.

(** The hatcher in use at z position number [i], counting from 0, when the
    loop starts from [h]. *)
Fixpoint hatcher_at (h : Hatcher) (i : nat) : Hatcher :=
  match i with
  | O => turn_hatcher h
  | S i' => hatcher_at (turn_hatcher h) i'
  end.

(** The banner lines the function prints before it looks at the height. *)
Definition slicing_banner (model_name : string) : list string :=
  [ nl +:+ "--- Slicing to Raw DXFs ---";
    "Slicing and processing layers for '" +:+ model_name +:+ "' (Raw DXF)..." ].

Definition zero_height_warning (model_name : string) : string :=
  "Warning: Part '" +:+ model_name +:+ "' has zero or negative height. No layers will be generated.".

(** ** From one step of the pipeline to the next, in closed form *)

Section round_trips.
Context `{!PyFloat}.

(** A segment as it is read back from the LINE of its rounded coordinates:
    each coordinate through [round(_, 6)], and the binary64 value of the
    result handed out as a [float]. *)
Definition rounded (s : xyxy) : xyxy :=
  ((PyF (round6 s.1.1), PyF (round6 s.1.2)), (PyF (round6 s.2.1), PyF (round6 s.2.2))).

End round_trips.

(** A row of a coordinate array, as the point the extraction makes of it
    when it reads the row back from a LINE: two [float]. *)
Definition line_point (p : float * float) : point := [PyF p.1; PyF p.2].

(** The same when it reads the row back from an LWPOLYLINE: two
    [numpy.float64]. *)
Definition lwpolyline_point (p : float * float) : point := [NpF p.1; NpF p.2].

(** The segments of a hatch geometry: rows 0-1, rows 2-3, and so on. *)
Fixpoint hatch_segments (c : coords) : list segment :=
  match c with
  | a :: b :: rest => [line_point a; line_point b] :: hatch_segments rest
  | _ => []
  end.

(** The edges of a contour: consecutive rows, and the last row back to the
    first when there are more than two. *)
Definition contour_segments (c : coords) : list segment :=
  polyline_segments (map lwpolyline_point c) true.

(** Every vertex of every POLYLINE carries a location. *)
Definition all_located (e : entity) : bool :=
  match e with
  | POLYLINE vertices _ =>
      forallb (fun v => match v with VertexAt _ => true | _ => false end) vertices
  | _ => true
  end.

(** The items before the first one that fails [ok]. *)
Fixpoint prefix_while {A} (ok : A -> bool) (l : list A) : list A :=
  match l with
  | x :: rest => if ok x then x :: prefix_while ok rest else []
  | [] => []
  end.

(** ** Loops over the files of a folder, in closed form *)

(** The file [p] is written by the turn for [x], when the turn for [x]
    writes the text [content x] (if any) to [target x]. *)
Definition written_by {A} (target : A -> path) (content : A -> option string) (p : path) (x : A)
  : Prop :=
  target x = p /\ is_Some (content x).

#[global] Instance written_by_dec {A} (target : A -> path) (content : A -> option string)
    (p : path) (x : A) : Decision (written_by target content p x).
Proof. unfold written_by. apply _. Defined.

(** What one turn of a loop does to the disk, in a world that satisfies
    [Inv]: it completes, keeps [Inv], and changes at most its own file. *)
Definition turn_writes {A B} (body : A -> B -> IO B) (Inv : world -> Prop)
    (target : A -> path) (content : A -> option string) : Prop :=
  forall x b w, Inv w ->
    exists b' w',
      body x b w = (Ok b', w') /\ Inv w'
      /\ forall p, lookup_file p w'
                   = if decide (p = target x)
                     then match content x with Some c => Some c | None => lookup_file p w end
                     else lookup_file p w.

(** In [w'] every file holds what the last turn that wrote it left, and
    otherwise what it held in [w]. *)
Definition holds_last_writes {A} (target : A -> path) (content : A -> option string)
    (xs : list A) (w w' : world) : Prop :=
  forall p, lookup_file p w'
            = match last (filter (written_by target content p) xs) with
              | Some x => content x
              | None => lookup_file p w
              end.

(** The names of a folder's entries that end with [.dxf], whatever the case. *)
Definition is_dxf_name (f : string) : bool := endswith (lower f) ".dxf".

Section batch_texts.
Context `{!Ezdxf, !PyFloat}.

(** The machine-format text the converter of geometry_processing.py makes
    of a file's text, when ezdxf reads it. *)
Definition machine_text_of (text : string) : option string :=
  match ezdxf_load text with
  | Ok doc => Some (machine_text (map xyxy_of (GeometryProcessing.all_line_segments_of (msp doc))))
  | Raise _ => None
  end.

(** The same for the converter of support_DXF_to_machine_TXT_or_DXF.py. *)
Definition lines_only_text_of (text : string) : option string :=
  match ezdxf_load text with
  | Ok doc => Some (machine_text (map xyxy_of (SupportDxfToMachine.all_line_segments_of (msp doc))))
  | Raise _ => None
  end.

(** The clean DXF of a raw file's text: the segments extracted from it, each
    as one rounded LINE; nothing when ezdxf cannot read the text or nothing
    is extracted. *)
Definition clean_text_of (text : string) : option string :=
  match ezdxf_load text with
  | Ok doc =>
      let segments := GeometryProcessing.line_segments_of (msp doc) in
      if bool_decide (segments = []) then None
      else Some (ezdxf_dump (Document "AC1009" (map rounded_line (map xyxy_of segments))))
  | Raise _ => None
  end.

End batch_texts.

(** ** Concrete documents, disks and libraries to run the definitions on *)

Module Examples.

(** A closed triangle whose last vertex differs from the first in y. *)
Definition triangle : modelspace :=
  [LWPOLYLINE [lwp 0 0 0 0 0; lwp 1 0 0 0 0; lwp 1 1 0 0 0] true].

Definition mixed : modelspace :=
  [ LINE (vec3 5 5 0) (vec3 6 6 0);
    CIRCLE (vec3 0 0 0) 0.02;
    LWPOLYLINE [lwp 0 0 0 0 0; lwp 1 0 0 0 0; lwp 1 1 0 0 0] true;
    POLYLINE [VertexAt (vec3 2 2 0); VertexPlain (vec3 2 3 0); VertexAt (vec3 3 2 0)] true;
    OTHER TEXT ].

(** An ezdxf that reads the text [triangle] as the triangle, the text
    [mixed] as the mixed drawing, fails on the text [locked] with an
    error of its own, and finds any other text malformed. *)
Definition ezdxf : Ezdxf := {|
  ezdxf_load text :=
    if decide (text = "triangle") then Ok (Document "R2010" triangle)
    else if decide (text = "mixed") then Ok (Document "R2010" mixed)
    else if decide (text = "locked") then Raise (Exn IOError "permission denied")
    else Raise (Exn DXFStructureError "invalid DXF");
  ezdxf_dump doc := "dxf with " +:+ str_nat (length (msp doc)) +:+ " entities" |}.

(** A [repr] that knows the floats of the parameter tables, and a [round]
    for coordinates that have no more than six decimals, whatever their
    runtime type. *)
Definition pyfloat : PyFloat := {|
  float_repr x :=
    if PrimFloat.eqb x (-7.9) then "-7.9"
    else if PrimFloat.eqb x 7.9 then "7.9"
    else if PrimFloat.eqb x 1.0 then "1.0"
    else if PrimFloat.eqb x 0.03 then "0.03"
    else "?";
  round6 x := x |}.

(** A [round] that tells the runtime types apart at 7.8872335: the [float]
    goes down to 7.887233, the [numpy.float64] of the same value up to
    7.887234; every other number is left as it is. *)
Definition split_round : PyFloat := {|
  float_repr := @float_repr pyfloat;
  round6 n :=
    match n with
    | PyF x => PyF (if PrimFloat.eqb x 7.8872335 then 7.887233 else x)
    | NpF x => NpF (if PrimFloat.eqb x 7.8872335 then 7.887234 else x)
    end |}.

(** A drawing with a coordinate that [split_round] rounds by runtime type:
    an open LWPOLYLINE from (7.8872335, 0) to (1, 0) and a LINE between the
    same two points. *)
Definition near_tie : modelspace :=
  [ LWPOLYLINE [lwp 7.8872335 0 0 0 0; lwp 1 0 0 0 0] false;
    LINE (vec3 7.8872335 0 0) (vec3 1 0 0) ].

(** A second disk: as many layer files as in [raw], with other drawings. *)
Definition other_disk : world := {|
  fs := {[ "layers" := {[ "a.dxf" := "mixed"; "b.dxf" := "mixed";
                          "c.TXT" := "triangle"; "d.txt" := "junk"; "readme" := "r" ]} ]};
  stdout := [];
  errlog := [] |}.

Definition disk : world := {|
  fs := {[ "raw" := {[ "tri.dxf" := "triangle"; "mix.DXF" := "mixed";
                       "bad.dxf" := "junk"; "notes.md" := "n"; "l.txt" := "locked" ]};
           "empty" := ∅ ]};
  stdout := [];
  errlog := [] |}.

(** [numpy.arange] in the usual case: [ceil((stop - start) / step)] values
    [start + i * step]. *)
Definition arange (start stop step : float) : list float :=
  match int_ceil ((stop - start) / step)%float with
  | Ok n => map (fun i => (start + PrimFloat.of_uint63 (Uint63.of_Z (Z.of_nat i)) * step)%float)
                (seq 0 (Z.to_nat n))
  | Raise _ => []
  end.

(** A slicer for a part that is [top] millimetres high and hollow at
    z = 0.03: every other slice is one path, hatched into one hatch line. *)
Definition slicer (top : float) : Slicer := {|
  Part := unit;
  Mesh := unit;
  SlicePath := unit;
  boundingBox _ := mkBbox 0 0 0 1 1 top;
  getVectorSlice _ z := if PrimFloat.eqb z 0.03 then [] else [tt];
  hatch h paths := mkLayer 0 [HatchGeometry [(0, 0); (1, 0)]%float];
  concatenate_bounds_z _ := (0, top)%float;
  GridBlockSupport_slice _ _ := ([], []);
  simplifyBoundaries _ _ := [];
  np_arange := arange |}.

Definition raw_disk : world := {| fs := {[ "dxf_bruto" := ∅ ]}; stdout := []; errlog := [] |}.

(** [Path.stem] as Python up to 3.12 computes it: the name up to its last
    dot, when that dot is neither the first nor the last character. *)
Definition pathlib : PathLib := {|
  stem name :=
    let i := rfind "." name in
    if ((0 <? i) && (i <? Z.of_nat (String.length name) - 1))%Z
    then substring 0 (Z.to_nat i) name
    else name |}.

(** A trimesh whose solids are the heights they were moved to: a segment
    extrudes to one solid, unless it starts at x = 5, where the extrusion
    fails. *)
Definition trimesh : Trimesh := {|
  Solid := float;
  load_path_extrude segment_2d height :=
    match segment_2d with
    | (x :: _) :: _ =>
        if PrimFloat.eqb x 5 then Raise (Exn ValueError "degenerate path")
        else Ok (ExtrudedMesh 0%float)
    | _ => Ok ExtrudedOther
    end;
  apply_translation mesh z := Ok (mesh + z)%float;
  concatenate_export meshes := Ok ("stl of " +:+ str_nat (length meshes) +:+ " solids") |}.

(** Two sides of a square, as a clean DXF holds them. *)
Definition two_sides : modelspace :=
  [LINE (vec3 0 0 0) (vec3 1 0 0); LINE (vec3 1 0 0) (vec3 1 1 0)].

(** The same two sides as segments: the first as the extraction makes it of
    an LWPOLYLINE, the second as it makes it of a LINE. *)
Definition two_sides_segments : list xyxy :=
  [ ((NpF 0, NpF 0), (NpF 1, NpF 0)); ((PyF 1, PyF 0), (PyF 1, PyF 1)) ].

(** An ezdxf that writes every document as the text [two sides] and reads
    that text as the two sides: it reads back what it saved when the
    document saved is this one. *)
Definition two_sides_ezdxf : Ezdxf := {|
  ezdxf_load text :=
    if decide (text = "two sides") then Ok (Document "AC1009" two_sides)
    else Raise (Exn DXFStructureError "invalid DXF");
  ezdxf_dump doc := "two sides" |}.

End Examples.

(** * Proofs *)

(** ** Loops that only append *)

Lemma for_range_append {A} (f : nat -> A) (n : nat) (acc : list A) :
  for_range n (fun i acc => acc ++ [f i]) acc = acc ++ map f (seq 0 n).
Proof.
  unfold for_range. induction n as [|n IH].
  - simpl. by rewrite app_nil_r.
  - rewrite seq_S, fold_left_app, IH, map_app. simpl. by rewrite <- app_assoc.
Qed.

Lemma for_in_append {A B} (g : A -> list B) (body : A -> list B -> list B) (xs : list A) :
  (forall x acc, body x acc = acc ++ g x) ->
  forall acc, for_in xs body acc = acc ++ flat_map g xs.
Proof.
  intros Hbody. unfold for_in. induction xs as [|x xs IH]; intros acc; simpl.
  - by rewrite app_nil_r.
  - rewrite IH, Hbody. by rewrite <- app_assoc.
Qed.

(** Pairing item [i] with item [i+1] by index gives the consecutive pairs. *)
Lemma consecutive_by_index {A B} `{Inhabited A} (f : A -> B) (ps : list A) :
  map (fun i => [f (ps !!! i); f (ps !!! (i + 1)%nat)]) (seq 0 (length ps - 1))
  = consecutive (map f ps).
Proof.
  induction ps as [|a [|b rest] IH]; [done | done |].
  change (length (a :: b :: rest) - 1)%nat with (S (length rest)).
  change (consecutive (map f (a :: b :: rest)))
    with ([f a; f b] :: consecutive (map f (b :: rest))).
  rewrite <- IH, <- cons_seq, <- seq_shift. simpl length.
  rewrite (map_cons _ 0%nat), map_map.
  replace (S (length rest) - 1)%nat with (length rest) by lia. reflexivity.
Qed.

Lemma item_last_spec {A} `{Inhabited A} (l : list A) :
  item_last l = default inhabitant (last l).
Proof.
  unfold item_last. rewrite last_lookup.
  replace (length l - 1)%nat with (Nat.pred (length l)) by lia.
  rewrite list_lookup_total_alt. done.
Qed.

Lemma consecutive_length {A} (ps : list A) : length (consecutive ps) = (length ps - 1)%nat.
Proof.
  induction ps as [|a [|b rest] IH]; [done | done |].
  change (consecutive (a :: b :: rest)) with ([a; b] :: consecutive (b :: rest)).
  rewrite length_cons, IH. simpl. lia.
Qed.

Lemma consecutive_lookup {A} (ps : list A) (i : nat) (p q : A) :
  ps !! i = Some p -> ps !! S i = Some q -> consecutive ps !! i = Some [p; q].
Proof.
  revert i. induction ps as [|a [|b rest] IH]; intros i Hp Hq; [done | by destruct i |].
  change (consecutive (a :: b :: rest)) with ([a; b] :: consecutive (b :: rest)).
  destruct i as [|i].
  - simpl in *. congruence.
  - apply (IH i); [exact Hp | exact Hq].
Qed.

(** ** The extraction loops in closed form *)

Lemma last_map_default {A B} (f : A -> B) (d : A) (d' : B) (l : list A) :
  l <> [] -> default d' (last (map f l)) = f (default d (last l)).
Proof.
  induction l as [|a [|b rest] IH]; intros Hne; [done | done |].
  change (last (map f (a :: b :: rest))) with (last (map f (b :: rest))).
  change (last (a :: b :: rest)) with (last (b :: rest)).
  by apply IH.
Qed.

Lemma closing_by_index {A} `{Inhabited A} (f : A -> point) (ps : list A) (is_closed : bool) :
  (if is_closed && (2 <? length ps)%nat then [[f (item_last ps); f (ps !!! 0%nat)]] else [])
  = closing_segment (map f ps) is_closed.
Proof.
  unfold closing_segment. rewrite length_map.
  destruct (is_closed && (2 <? length ps)%nat) eqn:Hc; [|done].
  apply andb_true_iff in Hc as [_ Hlen]. apply Nat.ltb_lt in Hlen.
  destruct ps as [|a ps]; [simpl in Hlen; lia|].
  rewrite item_last_spec, (last_map_default f inhabitant) by done.
  reflexivity.
Qed.

(** The shape shared by every polyline loop of the scripts: the indexed
    loop, then the closing segment. *)
Lemma polyline_loop {A} `{Inhabited A} (f : A -> point) (ps : list A) (is_closed : bool)
    (acc : list segment) :
  (if (2 <=? length ps)%nat then
     let acc' := for_range (length ps - 1)
                   (fun i acc => acc ++ [[f (ps !!! i); f (ps !!! (i + 1)%nat)]]) acc in
     if is_closed && (2 <? length ps)%nat then acc' ++ [[f (item_last ps); f (ps !!! 0%nat)]]
     else acc'
   else acc)
  = acc ++ polyline_segments (map f ps) is_closed.
Proof.
  unfold polyline_segments. rewrite <- closing_by_index, <- consecutive_by_index.
  destruct (2 <=? length ps)%nat eqn:Hlen.
  - cbv zeta. rewrite for_range_append.
    destruct (is_closed && (2 <? length ps)%nat); [by rewrite <- app_assoc | by rewrite app_nil_r].
  - apply Nat.leb_gt in Hlen.
    replace (2 <? length ps)%nat with false by (symmetry; apply Nat.ltb_ge; lia).
    rewrite andb_false_r, app_nil_r.
    replace (length ps - 1)%nat with 0%nat by lia. simpl. by rewrite app_nil_r.
Qed.

Lemma located_loop (vertices : list vertex) :
  for_in vertices (fun vertex current_polyline_points =>
    match vertex with
    | VertexAt location => current_polyline_points ++ [[vx location; vy location]]
    | _ => current_polyline_points
    end) [] = located vertices.
Proof.
  rewrite (for_in_append
             (fun v => match v with VertexAt location => [vec_xy location] | _ => [] end)).
  - simpl. unfold located. induction vertices as [|[| |loc] vs IH]; simpl; by rewrite ?IH.
  - intros [| |loc] acc; simpl; by rewrite ?app_nil_r.
Qed.

Lemma located_two (vertices : list vertex) :
  Forall (fun p : point => length p = 2%nat) (located vertices).
Proof.
  unfold located. induction vertices as [|[| |loc] vs IH]; simpl; auto.
Qed.

Lemma renormalise_points (ps : list point) :
  Forall (fun p : point => length p = 2%nat) ps ->
  map (fun p : point => [p !!! 0%nat; p !!! 1%nat]) ps = ps.
Proof.
  induction 1 as [|p ps Hp _ IH]; [done|]. simpl. rewrite IH. f_equal.
  destruct p as [|x [|y [|? ?]]]; simpl in Hp; try lia. reflexivity.
Qed.

Lemma flat_map_query_ext {B} (g g' : entity -> list B) (name : string) (m : modelspace) :
  (forall e, dxftype e = name -> g e = g' e) ->
  flat_map g (query name m) = flat_map g' (query name m).
Proof.
  intros Hext. unfold query. induction m as [|e m IH]; [done|].
  rewrite filter_cons. case_decide as He; [|exact IH].
  simpl. rewrite IH. f_equal. by apply Hext.
Qed.

Lemma flat_map_appended_for (name : string) (m : modelspace) :
  flat_map (appended_for name) (query name m) = flat_map entity_segments (query name m).
Proof.
  apply flat_map_query_ext. intros e He. unfold appended_for. by rewrite decide_True.
Qed.

Ltac by_entity_kind :=
  unfold appended_for; case_decide; try discriminate; try (exfalso; simpl in *; congruence);
  cbn [entity_segments]; rewrite ?app_nil_r; try reflexivity.

Lemma line_segments_of_closed_form (m : modelspace) :
  GeometryProcessing.line_segments_of m = expected_segments m.
Proof.
  unfold GeometryProcessing.line_segments_of, expected_segments.
  rewrite (for_in_append (appended_for "LINE")) with (xs := query "LINE" m).
  2:{ intros [| |start end_| |[]] acc; by_entity_kind. }
  rewrite (for_in_append (appended_for "POLYLINE")) with (xs := query "POLYLINE" m).
  2:{ intros [|vertices is_closed| | |[]] acc; by_entity_kind.
      rewrite located_loop.
      rewrite (polyline_loop (fun p : point => [p !!! 0%nat; p !!! 1%nat])).
      by rewrite renormalise_points by apply located_two. }
  rewrite (for_in_append (appended_for "LWPOLYLINE")) with (xs := query "LWPOLYLINE" m).
  2:{ intros [points is_closed| | | |[]] acc; by_entity_kind.
      apply (polyline_loop lw_xy). }
  rewrite !flat_map_appended_for. simpl. by rewrite <- app_assoc.
Qed.

(** ** The loop of the machine-format converter, with its closing segment *)

Lemma polyline_loop_closing {A} `{Inhabited A} (f : A -> point) (ps : list A) (is_closed : bool)
    (acc : list segment) (c : segment) :
  (if (2 <=? length ps)%nat then
     let acc' := for_range (length ps - 1)
                   (fun i acc => acc ++ [[f (ps !!! i); f (ps !!! (i + 1)%nat)]]) acc in
     if is_closed && (2 <? length ps)%nat then acc' ++ [c] else acc'
   else acc)
  = acc ++ consecutive (map f ps) ++ (if is_closed && (2 <? length ps)%nat then [c] else []).
Proof.
  rewrite <- consecutive_by_index.
  destruct (2 <=? length ps)%nat eqn:Hlen.
  - cbv zeta. rewrite for_range_append.
    destruct (is_closed && (2 <? length ps)%nat); [by rewrite <- app_assoc | by rewrite !app_nil_r].
  - apply Nat.leb_gt in Hlen.
    replace (2 <? length ps)%nat with false by (symmetry; apply Nat.ltb_ge; lia).
    rewrite andb_false_r, app_nil_r.
    replace (length ps - 1)%nat with 0%nat by lia. simpl. by rewrite app_nil_r.
Qed.

Lemma all_line_segments_of_closed_form (m : modelspace) :
  GeometryProcessing.all_line_segments_of m
  = flat_map entity_segments_slipped (query "LWPOLYLINE" m)
    ++ flat_map entity_segments (query "POLYLINE" m)
    ++ flat_map entity_segments (query "LINE" m).
Proof.
  unfold GeometryProcessing.all_line_segments_of.
  rewrite (for_in_append (appended_for "LINE")) with (xs := query "LINE" m).
  2:{ intros [| |start end_| |[]] acc; by_entity_kind. }
  rewrite (for_in_append (appended_for "POLYLINE")) with (xs := query "POLYLINE" m).
  2:{ intros [|vertices is_closed| | |[]] acc; by_entity_kind.
      rewrite located_loop.
      rewrite (polyline_loop (fun p : point => [p !!! 0%nat; p !!! 1%nat])).
      by rewrite renormalise_points by apply located_two. }
  rewrite (for_in_append
             (fun e => if decide (dxftype e = "LWPOLYLINE") then entity_segments_slipped e else []))
    with (xs := query "LWPOLYLINE" m).
  2:{ intros [points is_closed| | | |[]] acc; case_decide; try discriminate;
        try (exfalso; simpl in *; congruence); rewrite ?app_nil_r; try reflexivity.
      apply (polyline_loop_closing lw_xy). }
  rewrite !flat_map_appended_for.
  rewrite (flat_map_query_ext _ entity_segments_slipped)
    by (intros e He; by rewrite decide_True).
  simpl. by rewrite <- app_assoc.
Qed.

(** The converter's loop agrees with the other copies wherever the slip
    cannot show. *)
Lemma converter_agrees_when_closing_at_same_y (m : modelspace) :
  closes_at_same_y m ->
  GeometryProcessing.all_line_segments_of m = GeometryProcessing.line_segments_of m.
Proof.
  intros Hsame. rewrite all_line_segments_of_closed_form, line_segments_of_closed_form.
  unfold expected_segments. f_equal.
  assert (Hin : forall e, e ∈ query "LWPOLYLINE" m -> e ∈ m).
  { intros e He. unfold query in He. by apply list_elem_of_filter in He as [_ He]. }
  induction (query "LWPOLYLINE" m) as [|e l IH]; [done|].
  simpl. rewrite IH by (intros e' He'; apply Hin; by right). f_equal.
  destruct e as [points is_closed| | | |]; try reflexivity.
  unfold entity_segments_slipped, entity_segments, polyline_segments. f_equal.
  rewrite <- (closing_by_index lw_xy). unfold slipped_closing.
  destruct is_closed; [|done]. simpl.
  destruct (2 <? length points)%nat eqn:Hlen; [|done].
  apply Nat.ltb_lt in Hlen. unfold lw_xy.
  rewrite (Hsame points); [done | apply Hin; by left | done].
Qed.

(** ** Running a computation step by step *)

Lemma bind_Ok {S A B} (m : St S A) (k : A -> St S B) (s s' : S) (a : A) :
  m s = (Ok a, s') -> bind m k s = k a s'.
Proof. intros H. unfold bind. by rewrite H. Qed.

Lemma bind_Raise {S A B} (m : St S A) (k : A -> St S B) (s s' : S) (e : exn) :
  m s = (Raise e, s') -> bind m k s = (Raise e, s').
Proof. intros H. unfold bind. by rewrite H. Qed.

Lemma try_Ok {S A} (body : St S A) (handler : exn -> St S A) (s s' : S) (a : A) :
  body s = (Ok a, s') -> try_except body handler s = (Ok a, s').
Proof. intros H. unfold try_except. by rewrite H. Qed.

Lemma try_Raise {S A} (body : St S A) (handler : exn -> St S A) (s s' : S) (e : exn) :
  body s = (Raise e, s') -> try_except body handler s = handler e s'.
Proof. intros H. unfold try_except. by rewrite H. Qed.

Lemma for_each_map {S A B} (g : A -> B) (xs : list A) (body : B -> St S unit) :
  for_each (map g xs) body = for_each xs (fun x => body (g x)).
Proof. induction xs as [|x xs IH]; [done|]. simpl. by rewrite IH. Qed.

Lemma for_each_ext {S A} (xs : list A) (body body' : A -> St S unit) :
  (forall x, body x = body' x) -> for_each xs body = for_each xs body'.
Proof. intros Hext. induction xs as [|x xs IH]; [done|]. simpl. by rewrite IH, Hext. Qed.

(** ** Properties kept by a computation *)

Section preserves.
Context {S : Type} (P : S -> Prop).

Lemma preserves_ret {A} (a : A) : preserves P (ret a).
Proof. by intros s. Qed.

Lemma preserves_raise {A} (e : exn) : preserves P (@raise S A e).
Proof. by intros s. Qed.

Lemma preserves_lift {A} (r : result A) : preserves P (lift r).
Proof. by intros s. Qed.

Lemma preserves_gets {A} (f : S -> A) : preserves P (gets f).
Proof. by intros s. Qed.

Lemma preserves_modify (f : S -> S) : (forall s, P s -> P (f s)) -> preserves P (modify f).
Proof. intros Hf s Hs. by apply Hf. Qed.

Lemma preserves_bind {A B} (m : St S A) (k : A -> St S B) :
  preserves P m -> (forall a, preserves P (k a)) -> preserves P (bind m k).
Proof.
  intros Hm Hk s Hs. unfold bind. specialize (Hm s Hs).
  destruct (m s) as [[a|e] s']; simpl in *; [by apply Hk | done].
Qed.

Lemma preserves_try_except {A} (body : St S A) (handler : exn -> St S A) :
  preserves P body -> (forall e, preserves P (handler e)) -> preserves P (try_except body handler).
Proof.
  intros Hb Hh s Hs. unfold try_except. specialize (Hb s Hs).
  destruct (body s) as [[a|e] s']; simpl in *; [done | by apply Hh].
Qed.

Lemma preserves_for_each {A} (xs : list A) (body : A -> St S unit) :
  (forall x, preserves P (body x)) -> preserves P (for_each xs body).
Proof.
  intros Hbody. induction xs as [|x xs IH]; simpl.
  - apply preserves_ret.
  - apply preserves_bind; [apply Hbody | intros _; exact IH].
Qed.

Lemma preserves_for_fold {A B} (xs : list A) (body : A -> B -> St S B) (acc : B) :
  (forall x b, preserves P (body x b)) -> preserves P (for_fold xs body acc).
Proof.
  intros Hbody. revert acc. induction xs as [|x xs IH]; intros acc; simpl.
  - apply preserves_ret.
  - apply preserves_bind; [apply Hbody | intros b; apply IH].
Qed.

End preserves.

Lemma for_range_Forall {B} (P : B -> Prop) (n : nat) (body : nat -> list B -> list B) (acc : list B) :
  (forall i acc, Forall P acc -> Forall P (body i acc)) ->
  Forall P acc -> Forall P (for_range n body acc).
Proof.
  intros Hbody. unfold for_range. generalize (seq 0 n). intros l. revert acc.
  induction l as [|i l IH]; intros acc Hacc; simpl; [done|]. apply IH. by apply Hbody.
Qed.

Lemma for_in_Forall {A B} (P : B -> Prop) (xs : list A) (body : A -> list B -> list B) (acc : list B) :
  (forall x acc, Forall P acc -> Forall P (body x acc)) ->
  Forall P acc -> Forall P (for_in xs body acc).
Proof.
  intros Hbody. unfold for_in. revert acc.
  induction xs as [|x xs IH]; intros acc Hacc; simpl; [done|]. apply IH. by apply Hbody.
Qed.

Lemma well_shaped_snoc (acc : list segment) (a b c d : number) :
  Forall well_shaped acc -> Forall well_shaped (acc ++ [[[a; b]; [c; d]]]).
Proof.
  intros Hacc. apply Forall_app. split; [done|].
  repeat constructor.
Qed.

(** Closes the goals that an extraction loop leaves: every branch either
    returns the list as it is or appends one two-by-two segment. *)
Ltac shape_step :=
  repeat match goal with
         | |- Forall well_shaped [] => constructor
         | |- Forall well_shaped (_ ++ [[[_; _]; [_; _]]]) => apply well_shaped_snoc
         | |- Forall well_shaped (for_in _ _ _) => apply for_in_Forall; [intros ? ? ?|]
         | |- Forall well_shaped (for_range _ _ _) => apply for_range_Forall; [intros ? ? ?|]
         | |- Forall well_shaped (match ?e with _ => _ end) => destruct e
         | |- Forall well_shaped (let _ := _ in _) => cbv zeta
         | |- _ => assumption
         end.

Lemma line_segments_of_shape (m : modelspace) :
  Forall well_shaped (GeometryProcessing.line_segments_of m).
Proof. unfold GeometryProcessing.line_segments_of. cbv zeta. shape_step. Qed.

Lemma all_line_segments_of_shape (m : modelspace) :
  Forall well_shaped (GeometryProcessing.all_line_segments_of m).
Proof. unfold GeometryProcessing.all_line_segments_of. cbv zeta. shape_step. Qed.

Ltac preserve_step :=
  repeat match goal with
         | |- preserves _ (bind _ _) => apply preserves_bind; [|intros ?]
         | |- preserves _ (for_each _ _) => apply preserves_for_each; intros ?
         | |- preserves _ (for_fold _ _ _) => apply preserves_for_fold; intros ? ?
         | |- preserves _ (try_except _ _) => apply preserves_try_except; [|intros ?]
         | |- preserves _ (ret _) => apply preserves_ret
         | |- preserves _ (raise _) => apply preserves_raise
         | |- preserves _ (lift _) => apply preserves_lift
         | |- preserves _ (gets _) => apply preserves_gets
         | |- preserves _ (match ?e with _ => _ end) => destruct e
         | |- preserves _ (let _ := _ in _) => cbv zeta
         end.

Lemma collect_segments_shape (m : modelspace) :
  preserves (Forall well_shaped) (ManufactureParameters.collect_segments m).
Proof.
  unfold ManufactureParameters.collect_segments.
  preserve_step; apply preserves_modify; intros segments Hsegments; shape_step.
Qed.

Section extraction_results.
Context `{!Ezdxf}.

Lemma get_line_segments_from_dxf_returns (dxf_path : path) (w : world) :
  exists segments w',
    GeometryProcessing.get_line_segments_from_dxf dxf_path w = (Ok segments, w')
    /\ fs w' = fs w /\ stdout w' = stdout w
    /\ match (readfile dxf_path w).1 with
       | Ok doc => segments = GeometryProcessing.line_segments_of (msp doc) /\ w' = w
       | Raise e => segments = [] /\ exists message, errlog w' = errlog w ++ [message]
       end.
Proof.
  unfold GeometryProcessing.get_line_segments_from_dxf, bind at 1, try_except, bind at 1.
  assert (Hw : (readfile dxf_path w).2 = w).
  { unfold readfile, bind, read_text, lift. destruct (lookup_file dxf_path w); done. }
  destruct (readfile dxf_path w) as [[doc|e] w0]; simpl in Hw; subst w0; simpl.
  - eauto 10.
  - destruct (exn_type e); simpl; eauto 10.
Qed.

Lemma get_dxf_line_segments_returns (dxf_path : path) (w : world) :
  exists segments,
    ManufactureParameters.get_dxf_line_segments dxf_path w = (Ok segments, w)
    /\ Forall well_shaped segments.
Proof.
  unfold ManufactureParameters.get_dxf_line_segments, bind at 1, try_except at 1, bind at 1.
  assert (Hw : (readfile dxf_path w).2 = w).
  { unfold readfile, bind, read_text, lift. destruct (lookup_file dxf_path w); done. }
  destruct (readfile dxf_path w) as [[doc|e] w0]; simpl in Hw; subst w0; simpl.
  - eexists. split; [reflexivity|].
    apply (preserves_try_except (Forall well_shaped)); [apply collect_segments_shape | | constructor].
    intros ?. apply preserves_ret.
  - eexists. split; [reflexivity | constructor].
Qed.
End extraction_results.

(** C6: every element of the list an extraction function returns is a segment
    of exactly two points, each point of exactly two coordinates; the
    functions that read a file return such a list (possibly empty) for every
    disk, also when the read fails. *)
Theorem extracted_segments_are_two_by_two `{!Ezdxf} :
  (forall m : modelspace,
      Forall well_shaped (GeometryProcessing.line_segments_of m)
      /\ Forall well_shaped (GeometryProcessing.all_line_segments_of m)
      /\ Forall well_shaped (UnifiedPipeline.all_line_segments_of m)
      /\ Forall well_shaped (SupportDxfToMachine.all_line_segments_of m)
      /\ Forall well_shaped (SupportDxfToClean.line_segments_of m))
  /\ (forall (dxf_path : path) (w : world),
        exists segments w',
          GeometryProcessing.get_line_segments_from_dxf dxf_path w = (Ok segments, w')
          /\ Forall well_shaped segments)
  /\ (forall (dxf_path : path) (w : world),
        exists segments,
          ManufactureParameters.get_dxf_line_segments dxf_path w = (Ok segments, w)
          /\ Forall well_shaped segments).
Proof.
  split; [|split].
  - intros m. repeat split.
    + apply line_segments_of_shape.
    + apply all_line_segments_of_shape.
    + apply all_line_segments_of_shape.
    + apply line_segments_of_shape.
    + apply line_segments_of_shape.
  - intros dxf_path w.
    destruct (get_line_segments_from_dxf_returns dxf_path w) as (segments & w' & Hrun & _ & _ & Hcase).
    exists segments, w'. split; [exact Hrun|].
    destruct (readfile dxf_path w).1.
    + destruct Hcase as [-> _]. apply line_segments_of_shape.
    + destruct Hcase as [-> _]. constructor.
  - apply get_dxf_line_segments_returns.
Qed.

(** ** What the extraction returns *)

Lemma query_app (name : string) (m1 m2 : modelspace) :
  query name (m1 ++ m2) = query name m1 ++ query name m2.
Proof. unfold query. apply filter_app. Qed.

Lemma expected_segments_skip (m1 m2 : modelspace) (e : entity) :
  is_extracted_kind e = false ->
  expected_segments (m1 ++ e :: m2) = expected_segments (m1 ++ m2).
Proof.
  intros He. unfold expected_segments. rewrite !query_app.
  replace (query "LWPOLYLINE" (e :: m2)) with (query "LWPOLYLINE" m2)
    by (destruct e as [| | | |[]]; done).
  replace (query "POLYLINE" (e :: m2)) with (query "POLYLINE" m2)
    by (destruct e as [| | | |[]]; done).
  replace (query "LINE" (e :: m2)) with (query "LINE" m2)
    by (destruct e as [| | | |[]]; done).
  reflexivity.
Qed.

Lemma expected_segments_one (e : entity) : expected_segments [e] = entity_segments e.
Proof.
  unfold expected_segments, query. rewrite !filter_cons, !filter_nil.
  destruct e as [| | | |[]];
    repeat case_decide; try discriminate; try (exfalso; simpl in *; congruence);
    simpl; by rewrite ?app_nil_r.
Qed.

Lemma polyline_segments_rule (ps : list point) :
  polyline_rule ps (polyline_segments ps false) (polyline_segments ps true).
Proof.
  unfold polyline_rule, polyline_segments, closing_segment. simpl. rewrite !app_nil_r.
  repeat split.
  - apply consecutive_length.
  - intros i p q. apply consecutive_lookup.
  - intros Hlen. destruct ps as [|a [|b rest]]; simpl in *; [done | done | lia].
  - intros Hlen first final Hfirst Hfinal.
    replace (2 <? length ps)%nat with true by (symmetry; by apply Nat.ltb_lt).
    by rewrite Hfirst, Hfinal.
  - intros Hlen.
    replace (2 <? length ps)%nat with false by (symmetry; apply Nat.ltb_ge; lia).
    by rewrite app_nil_r.
Qed.

(** What the loop of [get_line_segments_from_dxf] does with each kind of
    entity, whatever [points()] yields: [get_line_segments_from_dxf] returns
    the loop's result for the document it read; the loop (here and in
    support_DXF_to_clean_DXF.py) yields the LWPOLYLINE segments, then the
    POLYLINE segments, then the LINE segments; an entity of another type
    changes nothing; the points of an LWPOLYLINE are all its points, those
    the loop keeps of a POLYLINE are the points of the items that carry a
    [dxf.location]; n >= 2 such points yield their n-1 consecutive segments
    in order, closed ones also the last-to-first segment exactly when n > 2;
    a LINE yields its one segment. *)
Theorem get_line_segments_from_dxf_three_kinds `{!Ezdxf} :
  (forall (dxf_path : path) (w : world) (doc : document),
      (readfile dxf_path w).1 = Ok doc ->
      GeometryProcessing.get_line_segments_from_dxf dxf_path w
      = (Ok (GeometryProcessing.line_segments_of (msp doc)), w))
  /\ (forall m : modelspace,
        GeometryProcessing.line_segments_of m = expected_segments m
        /\ SupportDxfToClean.line_segments_of m = expected_segments m)
  /\ (forall (m1 m2 : modelspace) (e : entity),
        is_extracted_kind e = false ->
        GeometryProcessing.line_segments_of (m1 ++ e :: m2)
        = GeometryProcessing.line_segments_of (m1 ++ m2))
  /\ (forall points : list lwpoint,
        polyline_rule (map lw_xy points)
          (GeometryProcessing.line_segments_of [LWPOLYLINE points false])
          (GeometryProcessing.line_segments_of [LWPOLYLINE points true]))
  /\ (forall vertices : list vertex,
        polyline_rule (located vertices)
          (GeometryProcessing.line_segments_of [POLYLINE vertices false])
          (GeometryProcessing.line_segments_of [POLYLINE vertices true]))
  /\ (forall start end_ : Vec3,
        GeometryProcessing.line_segments_of [LINE start end_] = [[vec_xy start; vec_xy end_]]).
Proof.
  split; [|split; [|split; [|split; [|split]]]].
  - intros dxf_path w doc Hread.
    destruct (get_line_segments_from_dxf_returns dxf_path w) as (segments & w' & Hrun & _ & _ & Hcase).
    rewrite Hread in Hcase. destruct Hcase as [-> ->]. exact Hrun.
  - intros m. split; apply line_segments_of_closed_form.
  - intros m1 m2 e He. rewrite !line_segments_of_closed_form. by apply expected_segments_skip.
  - intros points. rewrite !line_segments_of_closed_form, !expected_segments_one.
    apply polyline_segments_rule.
  - intros vertices. rewrite !line_segments_of_closed_form, !expected_segments_one.
    apply polyline_segments_rule.
  - intros start end_. by rewrite line_segments_of_closed_form, expected_segments_one.
Qed.

(** C3, at a POLYLINE as ezdxf hands it out: [Polyline.points()] yields the
    location of each vertex as a vector, an object without [.dxf]; the guard
    [hasattr(vertex, 'dxf')] of the loop is false for every one of them, so
    the POLYLINE yields no segment, open or closed, however many vertices it
    has, here and in support_DXF_to_clean_DXF.py.  For two vertices or more
    this is not what is asked of a polyline (n-1 consecutive segments, and
    the closing one); for the vertices (0,0), (1,0), (1,1) of a closed
    POLYLINE three segments are asked for and none is returned. *)
Theorem polyline_from_a_file_yields_no_segment :
  (forall (locations : list Vec3) (is_closed : bool),
      GeometryProcessing.line_segments_of [POLYLINE (map VertexPlain locations) is_closed] = []
      /\ SupportDxfToClean.line_segments_of [POLYLINE (map VertexPlain locations) is_closed] = [])
  /\ (forall (a b : Vec3) (rest : list Vec3),
        ~ polyline_rule (map vec_xy (a :: b :: rest))
            (GeometryProcessing.line_segments_of
               [POLYLINE (map VertexPlain (a :: b :: rest)) false])
            (GeometryProcessing.line_segments_of
               [POLYLINE (map VertexPlain (a :: b :: rest)) true]))
  /\ GeometryProcessing.line_segments_of
       [POLYLINE [VertexPlain (vec3 0 0 0); VertexPlain (vec3 1 0 0); VertexPlain (vec3 1 1 0)] true]
     = []
  /\ polyline_segments (map vec_xy [vec3 0 0 0; vec3 1 0 0; vec3 1 1 0]) true
     = [ [[PyF 0; PyF 0]; [PyF 1; PyF 0]];
         [[PyF 1; PyF 0]; [PyF 1; PyF 1]];
         [[PyF 1; PyF 1]; [PyF 0; PyF 0]] ].
Proof.
  assert (Hnone : forall (locations : list Vec3) (is_closed : bool),
             GeometryProcessing.line_segments_of [POLYLINE (map VertexPlain locations) is_closed]
             = []).
  { intros locations is_closed.
    rewrite line_segments_of_closed_form, expected_segments_one.
    cbn [entity_segments]. unfold located.
    replace (omap _ (map VertexPlain locations)) with (@nil point);
      [by destruct is_closed|].
    induction locations as [|v locations IH]; [reflexivity | exact IH]. }
  split; [|split; [|split]].
  - intros locations is_closed. split; [apply Hnone|].
    exact (Hnone locations is_closed).
  - intros a b rest [Hopen _]. rewrite !Hnone in Hopen.
    destruct Hopen as [Hlen _]; [cbn [map length]; lia|].
    cbn [map length] in Hlen. lia.
  - apply (Hnone [vec3 0 0 0; vec3 1 0 0; vec3 1 1 0] true).
  - reflexivity.
Qed.

(** ** Files and text *)

Lemma string_app_assoc (a b c : string) : (a +:+ b) +:+ c = a +:+ (b +:+ c).
Proof.
  induction a as [|x a IH]; [reflexivity|].
  change (String x ((a +:+ b) +:+ c) = String x (a +:+ (b +:+ c))). by rewrite IH.
Qed.

Lemma string_app_nil_r (a : string) : a +:+ "" = a.
Proof.
  induction a as [|x a IH]; [reflexivity|].
  change (String x (a +:+ "") = String x a). by rewrite IH.
Qed.

Lemma lookup_file_put_file (f : path) (c : string) (w : world) :
  lookup_file f (put_file f c w) = Some c.
Proof.
  unfold lookup_file, put_file. simpl. rewrite lookup_insert_eq. simpl. by rewrite lookup_insert_eq.
Qed.

Lemma put_file_put_file (f : path) (c1 c2 : string) (w : world) :
  put_file f c2 (put_file f c1 w) = put_file f c2 w.
Proof.
  unfold put_file. simpl. rewrite lookup_insert_eq. simpl.
  by rewrite insert_insert_eq, insert_insert_eq.
Qed.

Lemma lookup_file_put_file_ne (f g : path) (c : string) (w : world) :
  f <> g -> lookup_file g (put_file f c w) = lookup_file g w.
Proof.
  intros Hne. unfold lookup_file, put_file. simpl.
  destruct (decide (parent f = parent g)) as [Hp|Hp].
  - rewrite Hp, lookup_insert_eq. simpl.
    assert (name f <> name g) by (destruct f, g; simpl in *; congruence).
    rewrite lookup_insert_ne by done.
    destruct (fs w !! parent g); simpl; [done | by rewrite lookup_empty].
  - by rewrite lookup_insert_ne.
Qed.

(** [open(f, 'w')] in an existing folder leaves the empty file. *)
Lemma open_w_spec (f : path) (w : world) :
  is_Some (fs w !! parent f) -> open_w f w = (Ok tt, put_file f "" w).
Proof.
  intros [entries He]. unfold open_w, put_file. by rewrite He.
Qed.

(** [f.write(s)] appends to what the file holds. *)
Lemma f_write_spec (f : path) (c s : string) (w : world) :
  lookup_file f w = Some c -> f_write f s w = (Ok tt, put_file f (c +:+ s) w).
Proof.
  unfold lookup_file, f_write, modify, put_file. intros Hc.
  destruct (fs w !! parent f) as [entries|]; simpl in *; [|done]. by rewrite Hc.
Qed.

(** Two writes in a row are one write of the two texts. *)
Lemma f_write_then {A} (f : path) (c s : string) (w : world) (k : IO A) :
  lookup_file f w = Some c ->
  (f_write f s ;; k) w = k (put_file f (c +:+ s) w).
Proof. intros Hc. unfold bind. by rewrite (f_write_spec f c). Qed.

Lemma put_file_same (f : path) (c : string) (w : world) :
  lookup_file f w = Some c -> put_file f c w = w.
Proof.
  unfold lookup_file, put_file. intros Hc. destruct w as [disk out log]. simpl in *.
  destruct (disk !! parent f) as [entries|] eqn:He; simpl in *; [|done].
  unfold set_fs. simpl. f_equal. rewrite (insert_id entries) by done. by apply insert_id.
Qed.

(** Two writes in a row are one write of the two texts, whatever the disk. *)
Lemma f_write_f_write (f : path) (a b : string) (w : world) :
  (f_write f a ;; f_write f b) w = f_write f (a +:+ b) w.
Proof.
  unfold bind, f_write, modify.
  destruct (fs w !! parent f) as [entries|] eqn:He; simpl; [|by rewrite He].
  rewrite lookup_insert_eq. simpl. rewrite lookup_insert_eq. simpl.
  by rewrite !insert_insert_eq, string_app_assoc.
Qed.

Lemma f_write_f_write_then {A} (f : path) (a b : string) (k : IO A) (w : world) :
  (f_write f a ;; f_write f b ;; k) w = (f_write f (a +:+ b) ;; k) w.
Proof.
  pose proof (f_write_f_write f a b w) as H. unfold bind in *.
  destruct (f_write f a w) as [[[]|e] w1] eqn:H1; [|done].
  destruct (f_write f b w1) as [[[]|e] w2] eqn:H2; by rewrite <- H.
Qed.

(** Runs the next write of a sequence on a file whose content is known. *)
Ltac write_step :=
  erewrite f_write_then by (first [eassumption | apply lookup_file_put_file]);
  rewrite ?put_file_put_file.

(** A loop that writes one text per item writes their concatenation. *)
Lemma write_each {A} (f : path) (body : A -> IO unit) (text : A -> string) :
  (forall x w, body x w = f_write f (text x) w) ->
  forall (xs : list A) (c : string) (w : world),
    lookup_file f w = Some c ->
    for_each xs body w = (Ok tt, put_file f (c +:+ concat_text (map text xs)) w).
Proof.
  intros Hbody. induction xs as [|x rest IH]; intros c w Hc.
  - simpl. unfold ret. by rewrite string_app_nil_r, put_file_same.
  - cbn [map for_each]. unfold bind. rewrite Hbody, (f_write_spec f c) by done.
    rewrite (IH _ _ (lookup_file_put_file _ _ _)), put_file_put_file.
    do 2 f_equal. cbn [concat_text]. by rewrite string_app_assoc.
Qed.

Lemma write_loop (f : path) (body : segment -> IO unit) (text : xyxy -> string) :
  (forall s w, body (seg_of s) w = f_write f (text s) w) ->
  forall (segments : list xyxy) (c : string) (w : world),
    lookup_file f w = Some c ->
    for_each (map seg_of segments) body w
    = (Ok tt, put_file f (c +:+ concat_text (map text segments)) w).
Proof.
  intros Hbody segments c w Hc.
  rewrite for_each_map. by apply (write_each f _ text).
Qed.

Lemma write_machine_format_spec (f : path) (segments : list xyxy) (c : string) (w : world) :
  lookup_file f w = Some c ->
  GeometryProcessing.write_machine_format f (map seg_of segments) w
  = (Ok tt, put_file f (c +:+ machine_text segments) w).
Proof.
  intros Hc. unfold GeometryProcessing.write_machine_format.
  write_step. unfold bind at 1.
  rewrite (write_loop f _ machine_line) with (c := c +:+ machine_header);
    [|by intros [[x1 y1] [x2 y2]] w'|apply lookup_file_put_file].
  rewrite put_file_put_file.
  rewrite (f_write_spec f _ _ _ (lookup_file_put_file _ _ _)), put_file_put_file.
  do 2 f_equal. unfold machine_text. by rewrite !string_app_assoc.
Qed.

Lemma write_lines_only_spec (f : path) (segments : list xyxy) (c : string) (w : world) :
  lookup_file f w = Some c ->
  SupportDxfToMachine.write_lines_only f (map seg_of segments) w
  = (Ok tt, put_file f (c +:+ machine_text segments) w).
Proof.
  intros Hc. unfold SupportDxfToMachine.write_lines_only.
  do 4 write_step. unfold bind at 1.
  rewrite (write_loop f _ machine_line)
    with (c := (((c +:+ "0" +:+ nl) +:+ "SECTION" +:+ nl) +:+ "2" +:+ nl) +:+ "ENTITIES" +:+ nl);
    [| |apply lookup_file_put_file].
  2:{ intros [[x1 y1] [x2 y2]] w'. unfold seg_of. cbn [fst snd].
      change (let* s0 := lift (item [[x1; y1]; [x2; y2]] 0) in _)
        with (f_write f ("0" +:+ nl) ;; f_write f ("LINE" +:+ nl) ;; f_write f ("8" +:+ nl) ;;
              f_write f ("0" +:+ nl) ;; f_write f ("10" +:+ nl) ;; f_write f (format_3f x1 +:+ nl) ;;
              f_write f ("20" +:+ nl) ;; f_write f (format_3f y1 +:+ nl) ;;
              f_write f ("11" +:+ nl) ;; f_write f (format_3f x2 +:+ nl) ;;
              f_write f ("21" +:+ nl) ;; f_write f (format_3f y2 +:+ nl) ;;
              f_write f ("0" +:+ nl)).
      rewrite !f_write_f_write_then, f_write_f_write.
      f_equal. unfold machine_line. cbn [lines fst snd]. rewrite !string_app_assoc. reflexivity. }
  rewrite put_file_put_file.
  do 3 write_step.
  rewrite (f_write_spec f _ _ _ (lookup_file_put_file _ _ _)), put_file_put_file.
  do 2 f_equal. unfold machine_text. rewrite !string_app_assoc. reflexivity.
Qed.

(** ** [format(x, '.3f')] on a finite float *)

Example format_3f_examples :
  format_3f 1.5 = "1.500" /\ format_3f (-0.0004) = "-0.000" /\ format_3f 0.0625 = "0.062"
  /\ format_3f 12345.6789 = "12345.679" /\ format_3f 0.0005 = "0.001"
  /\ format_3f 2.675 = "2.675" /\ format_3f 1.0005 = "1.000" /\ format_3f (-3) = "-3.000"
  /\ format_3f infinity = "inf" /\ format_3f nan = "nan".
Proof. vm_compute. repeat split. Qed.

Example python_text_examples :
  int_ceil 3.5 = Ok 4%Z /\ int_ceil (-3.5) = Ok (-3)%Z /\ int_trunc (-3.5) = Ok (-3)%Z
  /\ lower "LaYer1.DXF" = "layer1.dxf" /\ endswith "a.dxf" ".dxf" = true
  /\ endswith "dxf" ".dxf" = false /\ sorted ["b"; "a"; "C"] = ["C"; "a"; "b"]
  /\ range_by_2 5 = [0; 2; 4]%nat /\ range_by_2 4 = [0; 2]%nat
  /\ str_int (-12) = "-12" /\ str_nat 0 = "0" /\ basename "dxfs/fin/txt_machine" = "txt_machine".
Proof. vm_compute. repeat split. Qed.

Lemma is_digit_digit_char (d : Z) : (0 <= d < 10)%Z -> is_digit (digit_char d) = true.
Proof.
  intros Hd.
  assert (d = 0 \/ d = 1 \/ d = 2 \/ d = 3 \/ d = 4 \/ d = 5 \/ d = 6 \/ d = 7 \/ d = 8 \/ d = 9)%Z
    as Hcases by lia.
  repeat (destruct Hcases as [->|Hcases]; [reflexivity|]). by subst.
Qed.

Lemma all_digits_uint (u : Decimal.uint) : all_digits (NilEmpty.string_of_uint u) = true.
Proof. induction u; simpl; auto. Qed.

Lemma whole_part_digits (n : N) :
  NilZero.string_of_uint (N.to_uint n) <> "" /\ all_digits (NilZero.string_of_uint (N.to_uint n)) = true.
Proof.
  unfold NilZero.string_of_uint. destruct (N.to_uint n) eqn:Hu; try done;
    (split; [done | rewrite <- Hu at 1; try apply all_digits_uint]);
    rewrite Hu; apply (all_digits_uint (_ _)).
Qed.

Lemma digits3_shape (r : Z) :
  (0 <= r < 1000)%Z -> String.length (digits3 r) = 3%nat /\ all_digits (digits3 r) = true.
Proof.
  intros Hr. split; [reflexivity|].
  unfold digits3, all_digits. cbn [list_ascii_of_string forallb].
  rewrite !is_digit_digit_char; [done| | |].
  - apply Z.mod_pos_bound. lia.
  - apply Z.mod_pos_bound. lia.
  - split; [apply Z.div_pos; lia | apply Z.div_lt_upper_bound; lia].
Qed.

Lemma fixed3_shape (n : Z) (sign : string) :
  sign = "" \/ sign = "-" -> three_decimals (sign +:+ fixed3 n).
Proof.
  intros Hsign. unfold fixed3.
  exists sign, (NilZero.string_of_uint (N.to_uint (Z.to_N (n / 1000)))), (digits3 (n mod 1000)).
  destruct (whole_part_digits (Z.to_N (n / 1000))) as [Hne Hdigits].
  destruct (digits3_shape (n mod 1000)) as [Hlen Hfrac]; [apply Z.mod_pos_bound; lia|].
  repeat split; try done.
Qed.

Lemma format_3f_three_decimals (x : float) : finite x = true -> three_decimals (format_3f x).
Proof.
  unfold finite, format_3f. destruct (Prim2SF x) as [s|s| |s m e]; try discriminate; intros _.
  - exists (sign_str s), "0", "000". repeat split; try done. destruct s; auto.
  - apply fixed3_shape. destruct s; auto.
Qed.

(** ** Reading, converting, and what a failed read leaves behind *)

Lemma seg_of_xyxy_of (s : segment) : well_shaped s -> seg_of (xyxy_of s) = s.
Proof.
  intros [Hlen Hpoints].
  destruct s as [|p [|q [|? ?]]]; simpl in Hlen; try lia.
  apply Forall_cons in Hpoints as [Hp Hq]. apply Forall_cons in Hq as [Hq _].
  destruct p as [|x1 [|y1 [|? ?]]]; simpl in Hp; try lia.
  destruct q as [|x2 [|y2 [|? ?]]]; simpl in Hq; try lia.
  reflexivity.
Qed.

Lemma map_seg_of_xyxy_of (segments : list segment) :
  Forall well_shaped segments -> map seg_of (map xyxy_of segments) = segments.
Proof.
  induction 1 as [|s rest Hs _ IH]; [done|]. simpl. by rewrite IH, seg_of_xyxy_of.
Qed.

Section reading.
Context `{!Ezdxf}.

Lemma readfile_world (p : path) (w : world) : (readfile p w).2 = w.
Proof. unfold readfile, bind, read_text, lift. by destruct (lookup_file p w). Qed.

Lemma readfile_Ok_exists (p : path) (w : world) (doc : document) :
  (readfile p w).1 = Ok doc -> is_Some (lookup_file p w).
Proof.
  unfold readfile, bind, read_text, lift. destruct (lookup_file p w); [eauto | done].
Qed.

Lemma mkdir_p_spec (d : string) (w : world) :
  exists w', mkdir_p d w = (Ok tt, w')
             /\ is_Some (fs w' !! d)
             /\ stdout w' = stdout w /\ errlog w' = errlog w
             /\ (forall p, is_Some (lookup_file p w) -> lookup_file p w' = lookup_file p w)
             /\ (forall p, lookup_file p w = None -> lookup_file p w' = None).
Proof.
  unfold mkdir_p, modify. destruct (fs w !! d) as [entries|] eqn:Hd.
  - exists w. rewrite Hd. eauto 10.
  - eexists. split; [reflexivity|]. simpl. rewrite lookup_insert_eq.
    repeat split; eauto.
    + intros p [c Hc]. unfold lookup_file in *. simpl.
      destruct (decide (d = parent p)) as [->|Hne]; [|by rewrite lookup_insert_ne].
      rewrite Hd in Hc. done.
    + intros p Hp. unfold lookup_file in *. simpl.
      destruct (decide (d = parent p)) as [->|Hne]; [|by rewrite lookup_insert_ne].
      rewrite lookup_insert_eq. simpl. apply lookup_empty.
Qed.

(** The read step shared by the converters: a document, or a message and
    nothing. *)
Lemma convert_runs (input_dxf_path output_target_path : path) (w : world) :
  match (readfile input_dxf_path w).1 with
  | Ok doc =>
      exists w0,
        mkdir_p (parent output_target_path) w = (Ok tt, w0)
        /\ GeometryProcessing.convert_dxf_to_lines_only_machine_format
             input_dxf_path output_target_path w
           = (Ok tt, put_file output_target_path
                       (machine_text (map xyxy_of (GeometryProcessing.all_line_segments_of (msp doc))))
                       w0)
  | Raise e =>
      exists message,
        GeometryProcessing.convert_dxf_to_lines_only_machine_format
          input_dxf_path output_target_path w
        = (Ok tt, World (fs w) (stdout w ++ [message]) (errlog w))
  end.
Proof.
  unfold GeometryProcessing.convert_dxf_to_lines_only_machine_format.
  pose proof (readfile_world input_dxf_path w) as Hw.
  pose proof (readfile_Ok_exists input_dxf_path w) as Hex.
  destruct (readfile input_dxf_path w) as [[doc|e] w1] eqn:Hread; simpl in Hw; subst w1; simpl.
  - destruct (mkdir_p_spec (parent output_target_path) w) as (w0 & Hmk & Hdir & _).
    exists w0. split; [done|].
    erewrite bind_Ok; [|unfold file_exists, gets; by rewrite bool_decide_eq_true_2 by eauto].
    cbn [negb]. erewrite bind_Ok; [|apply try_Ok; erewrite bind_Ok by exact Hread; reflexivity].
    cbv beta iota zeta. erewrite bind_Ok by exact Hmk.
    apply try_Ok. erewrite bind_Ok by exact (open_w_spec _ _ Hdir).
    rewrite <- (map_seg_of_xyxy_of (GeometryProcessing.all_line_segments_of (msp doc)))
      by apply all_line_segments_of_shape.
    rewrite (write_machine_format_spec _ _ "") by apply lookup_file_put_file.
    rewrite map_seg_of_xyxy_of by apply all_line_segments_of_shape.
    by rewrite put_file_put_file.
  - erewrite bind_Ok by (unfold file_exists, gets; reflexivity).
    destruct (bool_decide (is_Some (lookup_file input_dxf_path w))); cbn [negb].
    + erewrite bind_Ok.
      2:{ erewrite try_Raise by (erewrite bind_Raise by exact Hread; reflexivity).
          instantiate (2 := None).
          instantiate (1 := World (fs w) (stdout w ++ [match exn_type e with
            | DXFStructureError => _ | _ => _ end]) (errlog w)).
          destruct (exn_type e); reflexivity. }
      cbv beta iota. eauto.
    + unfold print, modify. eauto.
Qed.
End reading.

(** C4: when reading the input DXF raises (a malformed structure or any other
    exception), [get_line_segments_from_dxf] logs one message and returns the
    empty list, and [convert_dxf_to_lines_only_machine_format] prints one
    message and returns; both end normally and leave the disk as it was. *)
Theorem read_failure_is_caught `{!Ezdxf}
    (dxf_path output_target_path : path) (w : world) (e : exn) :
  (readfile dxf_path w).1 = Raise e ->
  (exists message,
      GeometryProcessing.get_line_segments_from_dxf dxf_path w
      = (Ok [], World (fs w) (stdout w) (errlog w ++ [message])))
  /\ (exists message,
        GeometryProcessing.convert_dxf_to_lines_only_machine_format dxf_path output_target_path w
        = (Ok tt, World (fs w) (stdout w ++ [message]) (errlog w))).
Proof.
  intros Hread. split.
  - destruct (get_line_segments_from_dxf_returns dxf_path w)
      as (segments & w' & Hrun & Hfs & Hout & Hcase).
    rewrite Hread in Hcase. destruct Hcase as [-> [message Hlog]].
    exists message. rewrite Hrun. f_equal. destruct w'. simpl in *. by subst.
  - pose proof (convert_runs dxf_path output_target_path w) as Hrun.
    by rewrite Hread in Hrun.
Qed.

Lemma read_failure_is_caught_witness :
  (@readfile Examples.ezdxf (Path "raw" "bad.dxf") Examples.disk).1
  = Raise (Exn DXFStructureError "invalid DXF")
  /\ (exists message,
         @GeometryProcessing.get_line_segments_from_dxf Examples.ezdxf (Path "raw" "bad.dxf") Examples.disk
         = (Ok [], World (fs Examples.disk) (stdout Examples.disk) (errlog Examples.disk ++ [message])))
  /\ (exists message,
         @GeometryProcessing.convert_dxf_to_lines_only_machine_format Examples.ezdxf
           (Path "raw" "bad.dxf") (Path "machine" "machine_bad.dxf") Examples.disk
         = (Ok tt, World (fs Examples.disk) (stdout Examples.disk ++ [message]) (errlog Examples.disk))).
Proof.
  split; [vm_compute; reflexivity|].
  apply (@read_failure_is_caught Examples.ezdxf (Path "raw" "bad.dxf") (Path "machine" "machine_bad.dxf")
Examples.disk (Exn DXFStructureError "invalid DXF")).
  vm_compute. reflexivity.
Defined.

(** C2: the machine-format writer, in both scripts that have it, leaves in the
    opened file exactly the header, then for each segment in list order the
    LINE group-code template with the four coordinates in ['.3f'] format, then
    the footer; the converter writes that text for the segments it extracted;
    and the ['.3f'] text of a finite coordinate has exactly three decimals. *)
Theorem machine_format_text_is_exact `{!Ezdxf} :
  (forall (segments : list xyxy) (f : path) (w : world),
      is_Some (fs w !! parent f) ->
      (open_w f ;; GeometryProcessing.write_machine_format f (map seg_of segments)) w
      = (Ok tt, put_file f (machine_text segments) w)
      /\ (open_w f ;; SupportDxfToMachine.write_lines_only f (map seg_of segments)) w
         = (Ok tt, put_file f (machine_text segments) w))
  /\ (forall (input_dxf_path output_target_path : path) (w : world) (doc : document),
        (readfile input_dxf_path w).1 = Ok doc ->
        exists w',
          GeometryProcessing.convert_dxf_to_lines_only_machine_format
            input_dxf_path output_target_path w = (Ok tt, w')
          /\ lookup_file output_target_path w'
             = Some (machine_text (map xyxy_of (GeometryProcessing.all_line_segments_of (msp doc)))))
  /\ (forall x : float, finite x = true -> three_decimals (format_3f x)).
Proof.
  split; [|split].
  - intros segments f w Hdir. split.
    + erewrite bind_Ok by exact (open_w_spec _ _ Hdir).
      rewrite (write_machine_format_spec _ _ "") by apply lookup_file_put_file.
      by rewrite put_file_put_file.
    + erewrite bind_Ok by exact (open_w_spec _ _ Hdir).
      rewrite (write_lines_only_spec _ _ "") by apply lookup_file_put_file.
      by rewrite put_file_put_file.
  - intros input_dxf_path output_target_path w doc Hread.
    pose proof (convert_runs input_dxf_path output_target_path w) as Hrun.
    rewrite Hread in Hrun. destruct Hrun as (w0 & _ & Hrun).
    eexists. split; [exact Hrun | apply lookup_file_put_file].
  - apply format_3f_three_decimals.
Qed.

Lemma machine_format_text_is_exact_witness :
  (is_Some (fs Examples.disk !! "empty")
   /\ (open_w (Path "empty" "out.txt") ;;
       GeometryProcessing.write_machine_format (Path "empty" "out.txt")
         (map seg_of [((PyF 0, NpF 0), (NpF 1.5, PyF (-2.25)))])) Examples.disk
      = (Ok tt, put_file (Path "empty" "out.txt")
                  (lines ["0"; "SECTION"; "2"; "ENTITIES";
                          "0"; "LINE"; "8"; "0"; "10"; "0.000"; "20"; "0.000";
                          "11"; "1.500"; "21"; "-2.250"; "0";
                          "0"; "ENDSEC"; "0"; "EOF"])
Examples.disk))
  /\ ((@readfile Examples.ezdxf (Path "raw" "tri.dxf") Examples.disk).1
      = Ok (Document "R2010" Examples.triangle)
      /\ exists w',
          @GeometryProcessing.convert_dxf_to_lines_only_machine_format Examples.ezdxf
            (Path "raw" "tri.dxf") (Path "machine" "machine_tri.dxf") Examples.disk = (Ok tt, w')
          /\ lookup_file (Path "machine" "machine_tri.dxf") w'
             = Some (machine_text [ ((NpF 0, NpF 0), (NpF 1, NpF 0));
                                    ((NpF 1, NpF 0), (NpF 1, NpF 1));
                                    ((NpF 1, NpF 0), (NpF 0, NpF 0)) ]))
  /\ (finite 1.5 = true /\ three_decimals (format_3f 1.5)).
Proof.
  destruct (@machine_format_text_is_exact Examples.ezdxf) as (Hwriter & Hconvert & Hdecimals).
  split; [|split].
  - assert (Hdir : is_Some (fs Examples.disk !! "empty")) by (eexists; vm_compute; reflexivity).
    split; [exact Hdir|].
    exact (proj1 (Hwriter [((PyF 0, NpF 0), (NpF 1.5, PyF (-2.25)))]
                    (Path "empty" "out.txt") Examples.disk Hdir)).
  - assert (Hread : (@readfile Examples.ezdxf (Path "raw" "tri.dxf") Examples.disk).1
                    = Ok (Document "R2010" Examples.triangle)) by (vm_compute; reflexivity).
    split; [exact Hread|].
    exact (Hconvert (Path "raw" "tri.dxf") (Path "machine" "machine_tri.dxf") Examples.disk _ Hread).
  - assert (Hfinite : finite 1.5 = true) by (vm_compute; reflexivity).
    split; [exact Hfinite | exact (Hdecimals _ Hfinite)].
Defined.

(** ** The copies of the extraction loop *)

Lemma float_neq (x y : float) :
  PrimFloat.eqb x y = false -> PrimFloat.eqb x x = true -> x <> y.
Proof. intros Hxy Hxx Heq. rewrite <- Heq in Hxy. congruence. Qed.

(** Three of the copies are the same text: the loop of
    [get_line_segments_from_dxf] here and in support_DXF_to_clean_DXF.py, and
    the loop of [convert_dxf_to_lines_only]. *)
Lemma faithful_copies_agree (m : modelspace) :
  SupportDxfToClean.line_segments_of m = GeometryProcessing.line_segments_of m
  /\ SupportDxfToMachine.all_line_segments_of m = GeometryProcessing.line_segments_of m.
Proof. split; reflexivity. Qed.

(** The loop of [convert_dxf_to_lines_only_machine_format] is the same text in
    geometry_processing.py and in unified_pyslm_pipeline.py. *)
Lemma converter_copies_agree (m : modelspace) :
  UnifiedPipeline.all_line_segments_of m = GeometryProcessing.all_line_segments_of m.
Proof. reflexivity. Qed.

(** The other functions unified_pyslm_pipeline.py keeps a copy of are the same
    text as in geometry_processing.py. *)
Lemma unified_pipeline_copies_agree `{!Ezdxf, !PyFloat} :
  UnifiedPipeline.add_hatch_lines = GeometryProcessing.add_hatch_lines
  /\ UnifiedPipeline.export_layer_to_dxf = GeometryProcessing.export_layer_to_dxf
  /\ UnifiedPipeline.generate_manufacturing_parameters_file
     = GeometryProcessing.generate_manufacturing_parameters_file.
Proof. repeat split; reflexivity. Qed.

(** C1, at the closed triangle (0,0) (1,0) (1,1): the loop of
    [get_line_segments_from_dxf] and of [convert_dxf_to_lines_only] close it
    with the segment from (1,1) to (0,0); the loop of both copies of
    [convert_dxf_to_lines_only_machine_format] closes it with the segment from
    (1,0) to (0,0), taking the y of the first point for the start. *)
Theorem closing_segment_differs_between_copies :
  GeometryProcessing.line_segments_of Examples.triangle
  = [ [[NpF 0; NpF 0]; [NpF 1; NpF 0]];
      [[NpF 1; NpF 0]; [NpF 1; NpF 1]];
      [[NpF 1; NpF 1]; [NpF 0; NpF 0]] ]
  /\ SupportDxfToMachine.all_line_segments_of Examples.triangle
     = [ [[NpF 0; NpF 0]; [NpF 1; NpF 0]];
         [[NpF 1; NpF 0]; [NpF 1; NpF 1]];
         [[NpF 1; NpF 1]; [NpF 0; NpF 0]] ]
  /\ GeometryProcessing.all_line_segments_of Examples.triangle
     = [ [[NpF 0; NpF 0]; [NpF 1; NpF 0]];
         [[NpF 1; NpF 0]; [NpF 1; NpF 1]];
         [[NpF 1; NpF 0]; [NpF 0; NpF 0]] ]
  /\ UnifiedPipeline.all_line_segments_of Examples.triangle
     = [ [[NpF 0; NpF 0]; [NpF 1; NpF 0]];
         [[NpF 1; NpF 0]; [NpF 1; NpF 1]];
         [[NpF 1; NpF 0]; [NpF 0; NpF 0]] ]
  /\ GeometryProcessing.all_line_segments_of Examples.triangle
     <> GeometryProcessing.line_segments_of Examples.triangle.
Proof.
  assert (Hget : GeometryProcessing.line_segments_of Examples.triangle
                 = [ [[NpF 0; NpF 0]; [NpF 1; NpF 0]];
                     [[NpF 1; NpF 0]; [NpF 1; NpF 1]];
                     [[NpF 1; NpF 1]; [NpF 0; NpF 0]] ])
    by (vm_compute; reflexivity).
  assert (Hconv : GeometryProcessing.all_line_segments_of Examples.triangle
                  = [ [[NpF 0; NpF 0]; [NpF 1; NpF 0]];
                      [[NpF 1; NpF 0]; [NpF 1; NpF 1]];
                      [[NpF 1; NpF 0]; [NpF 0; NpF 0]] ])
    by (vm_compute; reflexivity).
  repeat split; try assumption.
  rewrite Hget, Hconv. intros Heq.
  assert (Hy : (0 : float) = 1%float) by congruence.
  revert Hy. apply float_neq; reflexivity.
Qed.

(** ** The simplified DXF *)

Section simplified_dxf.
Context `{!Ezdxf, !PyFloat}.

Lemma simplified_msp_spec (segments : list xyxy) :
  forall m : modelspace,
    GeometryProcessing.simplified_msp (map seg_of segments) m
    = (Ok tt, m ++ map rounded_line segments).
Proof.
  unfold GeometryProcessing.simplified_msp.
  induction segments as [|[[x1 y1] [x2 y2]] rest IH]; intros m.
  - simpl. unfold ret. by rewrite app_nil_r.
  - cbn [map for_each]. erewrite bind_Ok by reflexivity.
    rewrite IH. unfold add_line. by rewrite <- app_assoc.
Qed.

(** C5: for every list of segments, [create_simplified_dxf_for_laser] builds a
    modelspace holding exactly one LINE entity per segment, in input order,
    with each of the four coordinates passed through [round(_, 6)] (the
    [round] of the coordinate's own runtime type), and nothing else; in an
    existing folder it saves that document, here and in
    support_DXF_to_clean_DXF.py. *)
Theorem simplified_dxf_is_one_line_per_segment (segments : list xyxy) :
  GeometryProcessing.simplified_msp (map seg_of segments) (msp (ezdxf_new "AC1009"))
  = (Ok tt, map rounded_line segments)
  /\ length (map rounded_line segments) = length segments
  /\ Forall (fun e => dxftype e = "LINE") (map rounded_line segments)
  /\ (forall (output_dxf_path : path) (w : world),
        is_Some (fs w !! parent output_dxf_path) ->
        GeometryProcessing.create_simplified_dxf_for_laser (map seg_of segments) output_dxf_path w
        = (Ok tt, put_file output_dxf_path
                    (ezdxf_dump (Document "AC1009" (map rounded_line segments))) w)
        /\ SupportDxfToClean.create_simplified_dxf_for_laser (map seg_of segments) output_dxf_path w
           = (Ok tt, put_file output_dxf_path
                       (ezdxf_dump (Document "AC1009" (map rounded_line segments))) w)).
Proof.
  split; [|split; [|split]].
  - apply simplified_msp_spec.
  - apply length_map.
  - apply Forall_map, Forall_forall. by intros s _.
  - intros output_dxf_path w Hdir.
    assert (Hsave : saveas (Document "AC1009" (map rounded_line segments)) output_dxf_path w
                    = (Ok tt, put_file output_dxf_path
                                (ezdxf_dump (Document "AC1009" (map rounded_line segments))) w)).
    { unfold saveas. erewrite bind_Ok by exact (open_w_spec _ _ Hdir).
      rewrite (f_write_spec _ "") by apply lookup_file_put_file.
      by rewrite put_file_put_file. }
    split.
    + unfold GeometryProcessing.create_simplified_dxf_for_laser.
      erewrite bind_Ok by (unfold with_state; rewrite simplified_msp_spec; reflexivity).
      cbv beta iota zeta. apply try_Ok. exact Hsave.
    + unfold SupportDxfToClean.create_simplified_dxf_for_laser.
      erewrite bind_Ok
        by (unfold with_state;
            change (SupportDxfToClean.simplified_msp (map seg_of segments))
              with (GeometryProcessing.simplified_msp (map seg_of segments));
            rewrite simplified_msp_spec; reflexivity).
      cbv beta iota zeta. apply try_Ok. exact Hsave.
Qed.
End simplified_dxf.

Lemma simplified_dxf_is_one_line_per_segment_witness :
  is_Some (fs Examples.disk !! "empty")
  /\ @GeometryProcessing.simplified_msp Examples.split_round
       (map seg_of [ ((PyF 7.8872335, PyF 0), (PyF 1.5, PyF (-2.25)));
                     ((NpF 7.8872335, NpF 0), (NpF 1.5, NpF (-2.25))) ])
       (msp (ezdxf_new "AC1009"))
     = (Ok tt, [ LINE (vec3 7.887233 0 0) (vec3 1.5 (-2.25) 0);
                 LINE (vec3 7.887234 0 0) (vec3 1.5 (-2.25) 0) ])
  /\ @GeometryProcessing.create_simplified_dxf_for_laser Examples.ezdxf Examples.split_round
       (map seg_of [ ((PyF 7.8872335, PyF 0), (PyF 1.5, PyF (-2.25)));
                     ((NpF 7.8872335, NpF 0), (NpF 1.5, NpF (-2.25))) ])
       (Path "empty" "clean_layer0.dxf") Examples.disk
     = (Ok tt, put_file (Path "empty" "clean_layer0.dxf") "dxf with 2 entities" Examples.disk).
Proof.
  assert (Hdir : is_Some (fs Examples.disk !! "empty")) by (eexists; vm_compute; reflexivity).
  destruct (@simplified_dxf_is_one_line_per_segment Examples.ezdxf Examples.split_round
              [ ((PyF 7.8872335, PyF 0), (PyF 1.5, PyF (-2.25)));
                ((NpF 7.8872335, NpF 0), (NpF 1.5, NpF (-2.25))) ])
    as (Hbuilt & _ & _ & Hsaved).
  split; [exact Hdir|]. split; [exact Hbuilt|].
  exact (proj1 (Hsaved (Path "empty" "clean_layer0.dxf") Examples.disk Hdir)).
Defined.

(** The same from extraction to cleaning: the LWPOLYLINE and the LINE of
    [Examples.near_tie] start at the same x, which reaches [round] as a
    [numpy.float64] from the one and as a [float] from the other; the two
    clean LINEs start at different x. *)
Example cleaning_rounds_by_runtime_type :
  GeometryProcessing.line_segments_of Examples.near_tie
  = [ [[NpF 7.8872335; NpF 0]; [NpF 1; NpF 0]];
      [[PyF 7.8872335; PyF 0]; [PyF 1; PyF 0]] ]
  /\ @GeometryProcessing.simplified_msp Examples.split_round
       (GeometryProcessing.line_segments_of Examples.near_tie) []
     = (Ok tt, [ LINE (vec3 7.887234 0 0) (vec3 1 0 0);
                 LINE (vec3 7.887233 0 0) (vec3 1 0 0) ]).
Proof. split; vm_compute; reflexivity. Qed.

(** ** Exporting a layer *)

Lemma range_by_2_SS (n : nat) :
  range_by_2 (S (S n)) = 0%nat :: map (fun i => S (S i)) (range_by_2 n).
Proof.
  unfold range_by_2.
  replace (Nat.div (S (S n) + 1) 2) with (S (Nat.div (n + 1) 2)).
  - rewrite <- cons_seq, <- seq_shift. cbn [map]. rewrite !map_map. f_equal.
    apply map_ext. intros k. lia.
  - replace (S (S n) + 1)%nat with (n + 1 + 1 * 2)%nat by lia.
    rewrite Nat.div_add by lia. lia.
Qed.

Lemma list_pair_ind {A} (P : list A -> Prop) :
  P [] -> (forall a, P [a]) -> (forall a b l, P l -> P (a :: b :: l)) -> forall l, P l.
Proof.
  intros Hnil Hone Hstep.
  assert (H : forall l, P l /\ forall a, P (a :: l)).
  { induction l as [|b l [IH1 IH2]]; [by split|]. split; [apply IH2|]. intros a. by apply Hstep. }
  intros l. apply H.
Qed.

(** The loop over one hatch geometry: an even number of rows gives one LINE per
    pair of rows; an odd number raises at the last, single row, after the
    LINEs of the pairs before it. *)
Lemma add_hatch_lines_spec (c : coords) :
  forall m : modelspace,
    GeometryProcessing.add_hatch_lines c m
    = (if Nat.even (length c) then Ok tt else Raise unpack_error, m ++ hatch_lines c).
Proof.
  unfold GeometryProcessing.add_hatch_lines.
  induction c as [|a|a b rest IH] using list_pair_ind; intros m.
  - simpl. unfold ret. by rewrite app_nil_r.
  - simpl. by rewrite app_nil_r.
  - change (length (a :: b :: rest)) with (S (S (length rest))).
    rewrite range_by_2_SS. cbn [for_each]. erewrite bind_Ok by reflexivity.
    rewrite for_each_map.
    erewrite for_each_ext; [rewrite IH|].
    + cbn [Nat.even hatch_lines]. unfold add_line. by rewrite <- app_assoc.
    + intros i. unfold slice. by replace (S (S i) + 2 - S (S i))%nat with (i + 2 - i)%nat by lia.
Qed.

Lemma hatch_lines_length (c : coords) : length (hatch_lines c) = Nat.div (length c) 2.
Proof.
  induction c as [|a|a b rest IH] using list_pair_ind; [done | done |].
  change (length (a :: b :: rest)) with (S (S (length rest))).
  cbn [hatch_lines length]. rewrite IH.
  replace (S (S (length rest))) with (length rest + 1 * 2)%nat by lia.
  rewrite Nat.div_add by lia. lia.
Qed.

Lemma hatch_loop_spec (hatches : list coords) :
  forall m : modelspace,
    for_each hatches (fun geom => let coords := geom in GeometryProcessing.add_hatch_lines coords) m
    = if forallb (fun c => Nat.even (length c)) hatches
      then (Ok tt, m ++ flat_map hatch_lines hatches)
      else (Raise unpack_error, (for_each hatches GeometryProcessing.add_hatch_lines m).2).
Proof.
  induction hatches as [|c rest IH]; intros m.
  - simpl. unfold ret. by rewrite app_nil_r.
  - cbn [for_each forallb flat_map]. unfold bind. rewrite add_hatch_lines_spec.
    destruct (Nat.even (length c)); simpl.
    + rewrite IH. destruct (forallb _ rest); [by rewrite <- app_assoc | done].
    + done.
Qed.

Lemma contour_loop_spec (contours : list coords) :
  forall m : modelspace,
    for_each contours (fun geom => let pts := geom in modify (add_lwpolyline pts true)) m
    = (Ok tt, m ++ map contour_polyline contours).
Proof.
  induction contours as [|c rest IH]; intros m.
  - simpl. unfold ret. by rewrite app_nil_r.
  - cbn [for_each map]. erewrite bind_Ok by reflexivity. rewrite IH.
    unfold add_lwpolyline, contour_polyline. by rewrite <- app_assoc.
Qed.

Lemma circle_loop_spec (points : list coords) :
  forall m : modelspace,
    for_each points (fun geom => for_each geom (fun p => modify (add_circle p 0.02))) m
    = (Ok tt, m ++ flat_map point_circles points).
Proof.
  assert (Hinner : forall (c : coords) m,
             for_each c (fun p => modify (add_circle p 0.02)) m = (Ok tt, m ++ point_circles c)).
  { induction c as [|p c IH]; intros m.
    - simpl. unfold ret. by rewrite app_nil_r.
    - cbn [for_each]. erewrite bind_Ok by reflexivity. rewrite IH.
      unfold add_circle, point_circles. cbn [map]. by rewrite <- app_assoc. }
  induction points as [|c rest IH]; intros m.
  - simpl. unfold ret. by rewrite app_nil_r.
  - cbn [for_each flat_map]. erewrite bind_Ok by apply Hinner. rewrite IH. by rewrite <- app_assoc.
Qed.

Section export_layer.
Context `{!Ezdxf}.

Lemma export_layer_msp_spec (layer : Layer) :
  (GeometryProcessing.export_layer_msp layer []).1
  = if forallb (fun c => Nat.even (length c)) (getHatchGeometry layer)
    then Ok tt else Raise unpack_error.
Proof.
  unfold GeometryProcessing.export_layer_msp.
  erewrite bind_Ok by apply contour_loop_spec.
  unfold bind at 1. rewrite hatch_loop_spec.
  destruct (forallb _ (getHatchGeometry layer)); [|done].
  by rewrite circle_loop_spec.
Qed.

Lemma export_layer_msp_entities (layer : Layer) :
  forallb (fun c => Nat.even (length c)) (getHatchGeometry layer) = true ->
  GeometryProcessing.export_layer_msp layer [] = (Ok tt, layer_entities layer).
Proof.
  intros Heven. unfold GeometryProcessing.export_layer_msp.
  erewrite bind_Ok by apply contour_loop_spec.
  unfold bind at 1. rewrite hatch_loop_spec, Heven, circle_loop_spec.
  unfold layer_entities. by rewrite <- app_assoc.
Qed.

(** C9: the hatch loop of [export_layer_to_dxf], in geometry_processing.py
    and in unified_pyslm_pipeline.py, takes the rows of a hatch geometry two
    at a time.  With an even number of rows the unpack never fails and the
    geometry gives exactly [len(coords) / 2] LINE entities; with an odd
    number the unpack of the last, single row raises [ValueError].  So a
    layer whose hatch geometries are all even is saved with its contours,
    hatch lines and point circles, and a layer with an odd hatch geometry
    makes the function raise before anything is saved. *)
Theorem hatch_rows_are_unpacked_in_pairs :
  (forall add_hatch_lines : coords -> St modelspace unit,
      In add_hatch_lines [GeometryProcessing.add_hatch_lines; UnifiedPipeline.add_hatch_lines] ->
      (forall (c : coords) (m : modelspace),
          Nat.even (length c) = true ->
          add_hatch_lines c m = (Ok tt, m ++ hatch_lines c)
          /\ length (hatch_lines c) = Nat.div (length c) 2)
      /\ (forall (c : coords) (m : modelspace),
            Nat.even (length c) = false ->
            (add_hatch_lines c m).1 = Raise unpack_error))
  /\ (forall export_layer_to_dxf : Layer -> path -> IO unit,
        In export_layer_to_dxf
           [GeometryProcessing.export_layer_to_dxf; UnifiedPipeline.export_layer_to_dxf] ->
        (forall (layer : Layer) (p : path) (w : world),
            forallb (fun c => Nat.even (length c)) (getHatchGeometry layer) = true ->
            export_layer_to_dxf layer p w
            = saveas (Document "R2010" (layer_entities layer)) p w)
        /\ (forall (layer : Layer) (p : path) (w : world),
              forallb (fun c => Nat.even (length c)) (getHatchGeometry layer) = false ->
              export_layer_to_dxf layer p w = (Raise unpack_error, w))).
Proof.
  split.
  - intros add Hin.
    assert (Hcopy : add = GeometryProcessing.add_hatch_lines)
      by (destruct Hin as [<-|[<-|[]]]; reflexivity).
    subst add. split.
    + intros c m Heven. rewrite add_hatch_lines_spec, Heven.
      split; [done | apply hatch_lines_length].
    + intros c m Hodd. by rewrite add_hatch_lines_spec, Hodd.
  - intros export Hin.
    assert (Hcopy : export = GeometryProcessing.export_layer_to_dxf)
      by (destruct Hin as [<-|[<-|[]]]; reflexivity).
    subst export. split.
    + intros layer p w Heven. unfold GeometryProcessing.export_layer_to_dxf.
      rewrite (bind_Ok _ _ w w (tt, layer_entities layer)); [reflexivity|].
      unfold with_state. by rewrite export_layer_msp_entities.
    + intros layer p w Hodd. unfold GeometryProcessing.export_layer_to_dxf.
      apply bind_Raise. unfold with_state.
      pose proof (export_layer_msp_spec layer) as Hrun. rewrite Hodd in Hrun.
      destruct (GeometryProcessing.export_layer_msp layer (msp (ezdxf_new "R2010"))) as [r m] eqn:Hm.
      change (msp (ezdxf_new "R2010")) with ([] : modelspace) in Hm.
      rewrite Hm in Hrun. simpl in Hrun. by subst r.
Qed.
End export_layer.

Lemma hatch_rows_are_unpacked_in_pairs_witness :
  (Nat.even (length [(0, 0); (1, 0); (1, 1); (0, 1)]%float) = true
   /\ GeometryProcessing.add_hatch_lines [(0, 0); (1, 0); (1, 1); (0, 1)]%float []
      = (Ok tt, [LINE (vec3 0 0 0) (vec3 1 0 0); LINE (vec3 1 1 0) (vec3 0 1 0)])
   /\ UnifiedPipeline.add_hatch_lines [(0, 0); (1, 0); (1, 1); (0, 1)]%float []
      = (Ok tt, [LINE (vec3 0 0 0) (vec3 1 0 0); LINE (vec3 1 1 0) (vec3 0 1 0)]))
  /\ (Nat.even (length [(0, 0); (1, 0); (1, 1)]%float) = false
      /\ (GeometryProcessing.add_hatch_lines [(0, 0); (1, 0); (1, 1)]%float []).1
         = Raise unpack_error
      /\ (UnifiedPipeline.add_hatch_lines [(0, 0); (1, 0); (1, 1)]%float []).1
         = Raise unpack_error)
  /\ (forallb (fun c => Nat.even (length c))
        (getHatchGeometry (mkLayer 30 [HatchGeometry [(0, 0); (1, 0); (1, 1)]%float])) = false
      /\ @GeometryProcessing.export_layer_to_dxf Examples.ezdxf
           (mkLayer 30 [HatchGeometry [(0, 0); (1, 0); (1, 1)]%float])
           (Path "empty" "part_layer0.dxf") Examples.disk
         = (Raise unpack_error, Examples.disk)
      /\ @UnifiedPipeline.export_layer_to_dxf Examples.ezdxf
           (mkLayer 30 [HatchGeometry [(0, 0); (1, 0); (1, 1)]%float])
           (Path "empty" "part_layer0.dxf") Examples.disk
         = (Raise unpack_error, Examples.disk)).
Proof.
  destruct (@hatch_rows_are_unpacked_in_pairs Examples.ezdxf) as (Hadd & Hexport).
  destruct (Hadd GeometryProcessing.add_hatch_lines ltac:(by left)) as (Heven & Hodd).
  destruct (Hadd UnifiedPipeline.add_hatch_lines ltac:(by right; left)) as (Heven' & Hodd').
  destruct (Hexport (@GeometryProcessing.export_layer_to_dxf Examples.ezdxf) ltac:(by left))
    as (_ & Hraise).
  destruct (Hexport (@UnifiedPipeline.export_layer_to_dxf Examples.ezdxf) ltac:(by right; left))
    as (_ & Hraise').
  split; [|split].
  - split; [reflexivity|]. split.
    + exact (proj1 (Heven [(0, 0); (1, 0); (1, 1); (0, 1)]%float [] eq_refl)).
    + exact (proj1 (Heven' [(0, 0); (1, 0); (1, 1); (0, 1)]%float [] eq_refl)).
  - split; [reflexivity|]. split.
    + exact (Hodd [(0, 0); (1, 0); (1, 1)]%float [] eq_refl).
    + exact (Hodd' [(0, 0); (1, 0); (1, 1)]%float [] eq_refl).
  - split; [reflexivity|]. split.
    + exact (Hraise (mkLayer 30 [HatchGeometry [(0, 0); (1, 0); (1, 1)]%float])
               (Path "empty" "part_layer0.dxf") Examples.disk eq_refl).
    + exact (Hraise' (mkLayer 30 [HatchGeometry [(0, 0); (1, 0); (1, 1)]%float])
               (Path "empty" "part_layer0.dxf") Examples.disk eq_refl).
Defined.

(** ** The parameter file *)

Lemma layer_files_count (entries : gmap string string) :
  length (filter (fun f : string => is_layer_file f) (map_to_list entries).*1)
  = layer_file_count entries.
Proof.
  unfold layer_file_count.
  induction entries as [|i x m Hi IH] using map_ind.
  - by rewrite map_filter_empty, map_to_list_empty, map_size_empty.
  - rewrite map_to_list_insert by done. rewrite fmap_cons, filter_cons. cbn [fst].
    rewrite map_filter_insert. cbn [fst].
    destruct (decide (is_layer_file i)) as [Hyes|Hno].
    + rewrite map_size_insert_None; [cbn [length]; by rewrite IH|].
      apply map_lookup_filter_None. by left.
    + rewrite delete_id by done. exact IH.
Qed.

Lemma sorted_length (names : list string) : length (sorted names) = length names.
Proof. unfold sorted. apply Permutation_length, merge_sort_Permutation. Qed.

Lemma layer_files_nil (entries : gmap string string) :
  sorted (filter (fun f : string => is_layer_file f) (map_to_list entries).*1) = []
  <-> layer_file_count entries = 0%nat.
Proof.
  rewrite <- layer_files_count, <- (sorted_length (filter _ _)).
  split; [by intros -> | apply nil_length_inv].
Qed.

Section parameter_file.
Context `{!PyFloat}.

Lemma write_table_spec (f : path) (table : dict) (c : string) (w : world) :
  lookup_file f w = Some c ->
  for_each table (fun kv =>
    let '(key, value) := kv in
    f_write f ("[" +:+ key +:+ "]" +:+ nl) ;;
    f_write f (py_str value +:+ nl)) w
  = (Ok tt, put_file f (c +:+ parameters_text table) w).
Proof.
  intros Hc. apply (write_each f _ (fun kv => parameter_entry kv.1 kv.2)); [|done].
  intros [key value] w'. rewrite f_write_f_write. cbn [fst snd]. f_equal.
  unfold parameter_entry. by rewrite !string_app_assoc.
Qed.

(** C7: [generate_manufacturing_parameters_file], in geometry_processing.py
    and in unified_pyslm_pipeline.py, writes, into
    [<part_name>_auto_machine_parameters.txt] of the output folder, its 22
    keys in their fixed order, each as a line [[KEY]] followed by a line with
    the value; the value of NUMBER OF LAYERS is the number of entries of the
    input folder whose lowercased name ends with [.dxf] or [.txt]; when the
    input folder is missing or holds no such entry, it prints one message and
    returns with the disk as it was. *)
Theorem manufacturing_parameters_file_is_written
    (input_dxf_folder output_folder part_name : string) (layer_thickness : float) (w : world) :
  length parameter_keys = 22%nat
  /\ forall generate_manufacturing_parameters_file : string -> string -> string -> float -> IO unit,
       In generate_manufacturing_parameters_file
          [ GeometryProcessing.generate_manufacturing_parameters_file;
            UnifiedPipeline.generate_manufacturing_parameters_file ] ->
       match fs w !! input_dxf_folder with
       | None =>
           exists message,
             generate_manufacturing_parameters_file
               input_dxf_folder output_folder part_name layer_thickness w
             = (Ok tt, World (fs w) (stdout w ++ [message]) (errlog w))
       | Some entries =>
           if decide (layer_file_count entries = 0%nat) then
             exists message,
               generate_manufacturing_parameters_file
                 input_dxf_folder output_folder part_name layer_thickness w
               = (Ok tt, World (fs w) (stdout w ++ [message]) (errlog w))
           else
             exists w',
               generate_manufacturing_parameters_file
                 input_dxf_folder output_folder part_name layer_thickness w
               = (Ok tt, w')
               /\ lookup_file
                    (joinpath output_folder (part_name +:+ "_auto_machine_parameters.txt")) w'
                  = Some (parameters_text
                            (zip parameter_keys
                               (manufacturing_values part_name (layer_file_count entries)
                                  layer_thickness)))
       end.
Proof.
  split; [reflexivity|].
  intros generate Hin.
  assert (Hcopy : generate = GeometryProcessing.generate_manufacturing_parameters_file)
    by (destruct Hin as [<-|[<-|[]]]; reflexivity).
  subst generate.
  unfold GeometryProcessing.generate_manufacturing_parameters_file.
  destruct (fs w !! input_dxf_folder) as [entries|] eqn:Hfolder.
  - erewrite bind_Ok by (unfold folder_exists, gets; rewrite Hfolder; reflexivity).
    rewrite bool_decide_eq_true_2 by eauto. cbn [negb].
    erewrite bind_Ok by (unfold listdir; rewrite Hfolder; reflexivity).
    cbv zeta.
    pose proof (layer_files_nil entries) as Hnil. pose proof (layer_files_count entries) as Hlen.
    unfold is_layer_file in Hnil, Hlen.
    case_decide as Hcount.
    + apply Hnil in Hcount.
      rewrite bool_decide_eq_true_2 by exact Hcount. unfold print, modify. eauto.
    + rewrite bool_decide_eq_false_2 by (by rewrite Hnil).
      rewrite sorted_length, Hlen.
      destruct (mkdir_p_spec output_folder w) as (w0 & Hmk & Hdir & _).
      erewrite bind_Ok by exact Hmk.
      set (output_file_path := joinpath output_folder (part_name +:+ "_auto_machine_parameters.txt")).
      eexists. split.
      * apply try_Ok. erewrite bind_Ok by exact (open_w_spec output_file_path _ Hdir).
        erewrite bind_Ok by (apply (write_table_spec output_file_path _ ""); apply lookup_file_put_file).
        unfold print, modify. reflexivity.
      * rewrite put_file_put_file. exact (lookup_file_put_file _ _ _).
  - erewrite bind_Ok by (unfold folder_exists, gets; rewrite Hfolder; reflexivity).
    rewrite bool_decide_eq_false_2 by (intros [? ?]; done). cbn [negb].
    unfold print, modify. eauto.
Qed.
End parameter_file.

Example manufacturing_parameters_file_example :
  let run := @GeometryProcessing.generate_manufacturing_parameters_file Examples.pyfloat
               "raw" "out" "fin" 0.03 Examples.disk in
  run.1 = Ok tt
  /\ lookup_file (Path "out" "fin_auto_machine_parameters.txt") run.2
     = Some (lines [ "[PART NAME]"; "fin"; "[MINX]"; "-7.9"; "[MAXX]"; "7.9"; "[MINY]"; "-7.9";
                     "[MAXY]"; "7.9"; "[NUMBER OF LAYERS]"; "4"; "[LAYER THICKNESS]"; "0.03";
                     "[HATCH POWER 1]"; "40"; "[HATCH SPEED 1]"; "170"; "[VBPP1]"; "1";
                     "[MAGNIFICATION 1]"; "1.0"; "[HATCH POWER 2]"; "42"; "[HATCH SPEED 2]"; "1202";
                     "[VBPP2]"; "2"; "[MAGNIFICATION 2]"; "1.0"; "[HATCH POWER 3]"; "43";
                     "[HATCH SPEED 3]"; "1203"; "[VBPP3]"; "3"; "[MAGNIFICATION 3]"; "1.0";
                     "[NUMBER OF PASSES]"; "1"; "[CONTOUR POWER]"; "11"; "[CONTOUR SPEED]"; "1001" ])
  /\ (@GeometryProcessing.generate_manufacturing_parameters_file Examples.pyfloat
        "empty" "out" "fin" 0.03 Examples.disk).2
     = World (fs Examples.disk)
         ["No DXF or TXT files found in 'empty'. Cannot generate parameters file."] []
  /\ (@GeometryProcessing.generate_manufacturing_parameters_file Examples.pyfloat
        "nowhere" "out" "fin" 0.03 Examples.disk).2
     = World (fs Examples.disk)
         ["Error: Input DXF folder not found at 'nowhere'. Cannot generate parameters file."] [].
Proof. vm_compute. repeat split. Qed.

(** ** The automatic parameter file *)

Lemma dict_get_dict_set_ne (d : dict) (k k' : string) (v : pyvalue) :
  k <> k' -> dict_get (dict_set d k v) k' = dict_get d k'.
Proof.
  intros Hne. unfold dict_get. induction d as [|[k0 v0] rest IH]; simpl.
  - by rewrite bool_decide_eq_false_2.
  - case_decide as Hk0; simpl.
    + subst k0. by rewrite !bool_decide_eq_false_2.
    + destruct (bool_decide (k0 = k')); [done | exact IH].
Qed.

Lemma dict_get_settings (settings d : dict) (k : string) :
  k ∉ settings.*1 ->
  dict_get (for_in settings (fun kv final_parameters => dict_set final_parameters kv.1 kv.2) d) k
  = dict_get d k.
Proof.
  unfold for_in. revert d. induction settings as [|[k0 v0] rest IH]; intros d Hk; [done|].
  simpl. rewrite IH.
  - apply dict_get_dict_set_ne. intros ->. apply Hk. simpl. left.
  - intros Hin. apply Hk. simpl. by right.
Qed.

(** Without an override, the four bounding-box entries are the constants. *)
Lemma bounding_box_is_constant (part_name : string) (n : nat) (layer_thickness : float)
    (machine_settings : option dict) :
  Forall (fun k => k ∉ overridden_keys machine_settings) bounding_box_keys ->
  let table := ManufactureParameters.final_parameters_of part_name n layer_thickness machine_settings in
  dict_get table "MINX" = Some (PFloat (-7.9))
  /\ dict_get table "MAXX" = Some (PFloat 7.9)
  /\ dict_get table "MINY" = Some (PFloat (-7.9))
  /\ dict_get table "MAXY" = Some (PFloat 7.9).
Proof.
  intros Hkeys table. subst table. unfold ManufactureParameters.final_parameters_of.
  unfold bounding_box_keys in Hkeys.
  apply Forall_cons in Hkeys as [H1 Hkeys]. apply Forall_cons in Hkeys as [H2 Hkeys].
  apply Forall_cons in Hkeys as [H3 Hkeys]. apply Forall_cons in Hkeys as [H4 _].
  destruct machine_settings as [settings|]; simpl in H1, H2, H3, H4.
  - cbv zeta. rewrite !dict_get_settings by done. repeat split; reflexivity.
  - repeat split; reflexivity.
Qed.

Section auto_parameters.
Context `{!Ezdxf, !PyFloat}.

(** The loop over the layer files reads them and keeps nothing. *)
Lemma analysis_loop_is_idle (input_dxf_folder : string) (dxf_files : list string) (w : world) :
  for_each dxf_files (fun filename =>
    let file_path := joinpath input_dxf_folder filename in
    let* segments := ManufactureParameters.get_dxf_line_segments file_path in
    ret tt) w
  = (Ok tt, w).
Proof.
  induction dxf_files as [|filename rest IH]; [done|].
  cbn [for_each]. erewrite bind_Ok; [exact IH|]. cbv zeta.
  destruct (get_dxf_line_segments_returns (joinpath input_dxf_folder filename) w) as (segments & Hrun & _).
  erewrite bind_Ok by exact Hrun. reflexivity.
Qed.

(** What one run writes, from the layer count, the part name, the layer
    thickness and the machine settings alone. *)
Lemma generate_auto_parameters_file_runs (input_dxf_folder : string) (output_file_path : path)
    (layer_thickness : float) (part_name : option string) (machine_settings : option dict)
    (w : world) (entries : gmap string string) :
  input_dxf_folder <> "" ->
  fs w !! input_dxf_folder = Some entries ->
  layer_file_count entries <> 0%nat ->
  can_open output_file_path w ->
  exists w',
    ManufactureParameters.generate_auto_parameters_file
      input_dxf_folder output_file_path layer_thickness part_name machine_settings w = (Ok tt, w')
    /\ lookup_file output_file_path w'
       = Some (parameters_text
                 (ManufactureParameters.final_parameters_of
                    (effective_part_name part_name input_dxf_folder)
                    (layer_file_count entries) layer_thickness machine_settings)).
Proof.
  intros Hinput Hfolder Hcount Hopen.
  unfold ManufactureParameters.generate_auto_parameters_file.
  erewrite bind_Ok by (unfold os_path_exists, gets; reflexivity).
  rewrite (bool_decide_eq_false_2 (input_dxf_folder = "")) by done.
  rewrite (bool_decide_eq_true_2 (is_Some (fs w !! input_dxf_folder))) by eauto.
  cbn [negb andb].
  erewrite bind_Ok by (unfold listdir; rewrite Hfolder; reflexivity).
  cbv zeta.
  pose proof (layer_files_nil entries) as Hnil. pose proof (layer_files_count entries) as Hlen.
  unfold is_layer_file in Hnil, Hlen.
  rewrite bool_decide_eq_false_2 by (by rewrite Hnil).
  rewrite sorted_length, Hlen.
  erewrite bind_Ok by reflexivity.
  erewrite bind_Ok by apply analysis_loop_is_idle.
  change (PrimFloat.eqb infinity infinity) with true. cbv iota.
  erewrite bind_Ok by (erewrite bind_Ok by reflexivity; reflexivity).
  erewrite bind_Ok by (unfold os_path_exists, gets; reflexivity).
  cbn [fs stdout errlog]. set (w1 := World (fs w) _ (errlog w)).
  assert (Hdir : exists w2, (if negb (bool_decide (parent output_file_path = ""))
                                && negb (negb (bool_decide (parent output_file_path = ""))
                                         && bool_decide (is_Some (fs w1 !! parent output_file_path)))
                             then mkdir_p (parent output_file_path) else ret tt) w1 = (Ok tt, w2)
                            /\ is_Some (fs w2 !! parent output_file_path)).
  { destruct (bool_decide (is_Some (fs w1 !! parent output_file_path))) eqn:Hthere.
    - apply bool_decide_eq_true in Hthere.
      destruct (bool_decide (parent output_file_path = "")); cbn [negb andb]; eauto.
    - destruct Hopen as [Hname|Hthere']; [|by apply bool_decide_eq_false in Hthere].
      rewrite bool_decide_eq_false_2 by done. cbn [negb andb].
      destruct (mkdir_p_spec (parent output_file_path) w1) as (w2 & Hmk & Hdir & _). eauto. }
  destruct Hdir as (w2 & Hmk & Hdir).
  erewrite bind_Ok by exact Hmk.
  eexists. split.
  - apply try_Ok. erewrite bind_Ok by exact (open_w_spec output_file_path _ Hdir).
    erewrite bind_Ok by (apply (write_table_spec output_file_path _ ""); apply lookup_file_put_file).
    unfold print, modify. reflexivity.
  - rewrite put_file_put_file. exact (lookup_file_put_file _ _ _).
Qed.
End auto_parameters.

(** C8, amended: the parameter file [generate_auto_parameters_file] writes is
    fixed by the part name, the layer thickness, the machine settings and the
    number of layer files of the input folder.  Two runs over folders that
    [os.path.exists] finds, with equally many layer files, whatever drawings
    they hold, write the same text; and MINX, MAXX, MINY, MAXY are -7.9, 7.9,
    -7.9, 7.9 whenever the machine settings do not assign these keys.  For
    the empty folder name, which [os.path.exists] never finds, the run prints
    its message and leaves the disk as it was. *)
Theorem auto_parameters_ignore_geometry `{!Ezdxf, !PyFloat}
    (folder1 folder2 : string) (output_file_path : path) (layer_thickness : float)
    (part_name : option string) (machine_settings : option dict)
    (w1 w2 : world) (entries1 entries2 : gmap string string) :
  folder1 <> "" ->
  folder2 <> "" ->
  fs w1 !! folder1 = Some entries1 ->
  fs w2 !! folder2 = Some entries2 ->
  layer_file_count entries1 = layer_file_count entries2 ->
  layer_file_count entries1 <> 0%nat ->
  effective_part_name part_name folder1 = effective_part_name part_name folder2 ->
  can_open output_file_path w1 ->
  can_open output_file_path w2 ->
  let table :=
    ManufactureParameters.final_parameters_of (effective_part_name part_name folder1)
      (layer_file_count entries1) layer_thickness machine_settings in
  (exists w1' w2',
      ManufactureParameters.generate_auto_parameters_file
        folder1 output_file_path layer_thickness part_name machine_settings w1 = (Ok tt, w1')
      /\ ManufactureParameters.generate_auto_parameters_file
           folder2 output_file_path layer_thickness part_name machine_settings w2 = (Ok tt, w2')
      /\ lookup_file output_file_path w1' = Some (parameters_text table)
      /\ lookup_file output_file_path w2' = Some (parameters_text table))
  /\ (Forall (fun k => k ∉ overridden_keys machine_settings) bounding_box_keys ->
      dict_get table "MINX" = Some (PFloat (-7.9))
      /\ dict_get table "MAXX" = Some (PFloat 7.9)
      /\ dict_get table "MINY" = Some (PFloat (-7.9))
      /\ dict_get table "MAXY" = Some (PFloat 7.9))
  /\ ManufactureParameters.generate_auto_parameters_file
       "" output_file_path layer_thickness part_name machine_settings w1
     = (Ok tt,
        World (fs w1) (stdout w1 ++ ["Error: Input DXF folder not found at ''"]) (errlog w1)).
Proof.
  intros Hname1 Hname2 Hfolder1 Hfolder2 Hsame Hcount Hname Hopen1 Hopen2 table.
  split; [|split].
  - destruct (generate_auto_parameters_file_runs folder1 output_file_path layer_thickness
                part_name machine_settings w1 entries1 Hname1 Hfolder1 Hcount Hopen1)
      as (w1' & Hrun1 & Hfile1).
    destruct (generate_auto_parameters_file_runs folder2 output_file_path layer_thickness
                part_name machine_settings w2 entries2 Hname2 Hfolder2) as (w2' & Hrun2 & Hfile2);
      [congruence | done |].
    exists w1', w2'. rewrite <- Hname, <- Hsame in Hfile2. done.
  - apply bounding_box_is_constant.
  - reflexivity.
Qed.

Lemma auto_parameters_ignore_geometry_witness :
  exists w1' w2',
    @ManufactureParameters.generate_auto_parameters_file Examples.ezdxf Examples.pyfloat
      "raw" (Path "out" "auto_machine_parameters.txt") 0.03 (Some "fin")
      (Some [("HATCH POWER 1", PInt 45)]) Examples.disk = (Ok tt, w1')
    /\ @ManufactureParameters.generate_auto_parameters_file Examples.ezdxf Examples.pyfloat
         "layers" (Path "out" "auto_machine_parameters.txt") 0.03 (Some "fin")
         (Some [("HATCH POWER 1", PInt 45)]) Examples.other_disk = (Ok tt, w2')
    /\ lookup_file (Path "out" "auto_machine_parameters.txt") w1'
       = lookup_file (Path "out" "auto_machine_parameters.txt") w2'.
Proof.
  assert (H1 : fs Examples.disk !! "raw"
               = Some ({[ "tri.dxf" := "triangle"; "mix.DXF" := "mixed"; "bad.dxf" := "junk";
                          "notes.md" := "n"; "l.txt" := "locked" ]} : gmap string string))
    by (vm_compute; reflexivity).
  assert (H2 : fs Examples.other_disk !! "layers"
               = Some ({[ "a.dxf" := "mixed"; "b.dxf" := "mixed"; "c.TXT" := "triangle";
                          "d.txt" := "junk"; "readme" := "r" ]} : gmap string string))
    by (vm_compute; reflexivity).
  destruct (@auto_parameters_ignore_geometry Examples.ezdxf Examples.pyfloat
              "raw" "layers" (Path "out" "auto_machine_parameters.txt") 0.03 (Some "fin")
              (Some [("HATCH POWER 1", PInt 45)]) Examples.disk Examples.other_disk _ _
              ltac:(discriminate) ltac:(discriminate) H1 H2)
    as [(w1' & w2' & Hrun1 & Hrun2 & Hfile1 & Hfile2) _].
  - vm_compute. reflexivity.
  - vm_compute. lia.
  - reflexivity.
  - left. simpl. discriminate.
  - left. simpl. discriminate.
  - exists w1', w2'. repeat split; [exact Hrun1 | exact Hrun2 | congruence].
Defined.

(** C8 as first stated fails: a [machine_settings] that assigns MINX decides
    the MINX line of the file. *)
Lemma minx_follows_machine_settings :
  dict_get (ManufactureParameters.final_parameters_of "fin" 4 0.03 (Some [("MINX", PInt 0)])) "MINX"
  = Some (PInt 0)
  /\ dict_get (ManufactureParameters.final_parameters_of "fin" 4 0.03 (Some [("MINX", PInt 0)])) "MINX"
     <> Some (PFloat (-7.9))
  /\ lookup_file (Path "out" "auto_machine_parameters.txt")
       (@ManufactureParameters.generate_auto_parameters_file Examples.ezdxf Examples.pyfloat
          "raw" (Path "out" "auto_machine_parameters.txt") 0.03 (Some "fin")
          (Some [("MINX", PInt 0)]) Examples.disk).2
     = Some (lines [ "[PART NAME]"; "fin"; "[MINX]"; "0"; "[MAXX]"; "7.9"; "[MINY]"; "-7.9";
                     "[MAXY]"; "7.9"; "[NUMBER OF LAYERS]"; "4"; "[LAYER THICKNESS]"; "0.03";
                     "[HATCH POWER 1]"; "40"; "[HATCH SPEED 1]"; "170"; "[VBPP1]"; "1";
                     "[MAGNIFICATION 1]"; "1.0"; "[HATCH POWER 2]"; "42"; "[HATCH SPEED 2]"; "1202";
                     "[VBPP2]"; "2"; "[MAGNIFICATION 2]"; "1.0"; "[HATCH POWER 3]"; "43";
                     "[HATCH SPEED 3]"; "1203"; "[VBPP3]"; "3"; "[MAGNIFICATION 3]"; "1.0";
                     "[NUMBER OF PASSES]"; "1"; "[CONTOUR POWER]"; "11"; "[CONTOUR SPEED]"; "1001" ]).
Proof. split; [|split]; [vm_compute; reflexivity | vm_compute; discriminate | vm_compute; reflexivity]. Qed.

(** ** Slicing into raw layer files *)

Lemma SFcompare_antisym (x y : spec_float) :
  SFcompare y x = CompOpp <$> SFcompare x y.
Proof.
  destruct x as [sx|sx| |sx mx ex], y as [sy|sy| |sy my ey]; simpl;
    repeat match goal with s : bool |- _ => destruct s end; try reflexivity;
    f_equal; rewrite (Z.compare_antisym ex ey); destruct (ex ?= ey)%Z; simpl; try reflexivity;
    pose proof (Pos.compare_cont_antisym mx my Eq) as Hm; simpl in Hm; rewrite <- Hm;
    by destruct (Pos.compare_cont Eq mx my).
Qed.

(** [a <= b] rules out [b < a], for every pair of floats. *)
Lemma float_leb_not_ltb (a b : float) : PrimFloat.leb a b = true -> PrimFloat.ltb b a = false.
Proof.
  rewrite leb_spec, ltb_spec. unfold SFleb, SFltb.
  rewrite (SFcompare_antisym (Prim2SF a) (Prim2SF b)).
  by destruct (SFcompare (Prim2SF a) (Prim2SF b)) as [[]|].
Qed.

Section slicing.
Context `{!Ezdxf, !Slicer}.

Lemma saveas_touches (doc : document) (f p : path) (w : world) :
  p <> f -> lookup_file p (saveas doc f w).2 = lookup_file p w.
Proof.
  intros Hne. unfold saveas.
  destruct (fs w !! parent f) as [entries|] eqn:Hdir.
  - erewrite bind_Ok by (apply open_w_spec; eauto).
    rewrite (f_write_spec f ""), put_file_put_file by apply lookup_file_put_file.
    by apply lookup_file_put_file_ne.
  - erewrite bind_Raise; [done|]. unfold open_w. by rewrite Hdir.
Qed.

Lemma export_layer_touches (layer : Layer) (f p : path) (w : world) :
  p <> f -> lookup_file p (GeometryProcessing.export_layer_to_dxf layer f w).2 = lookup_file p w.
Proof.
  intros Hne. unfold GeometryProcessing.export_layer_to_dxf, bind at 1, with_state.
  destruct (GeometryProcessing.export_layer_msp layer (msp (ezdxf_new "R2010"))) as [[[]|e] m]; [|done].
  by apply saveas_touches.
Qed.

Variables (part_to_slice : Part) (supports_to_slice : list Mesh).
Variables (output_dxf_bruto_folder model_name : string).

Abbreviation one_layer :=
  (GeometryProcessing.slice_one_layer part_to_slice supports_to_slice
     output_dxf_bruto_folder model_name).

(** One turn of the loop: the counter goes up by one whenever the turn
    completes, and the only file it can write is the one named after the
    counter, and only for a layer with geometry. *)
Lemma slice_one_layer_spec (zPos : float) (vars : GeometryProcessing.slicing_vars) (w : world) :
  (forall vars', (one_layer zPos vars w).1 = Ok vars' ->
     GeometryProcessing.h vars' = turn_hatcher (GeometryProcessing.h vars)
     /\ GeometryProcessing.layer_idx vars' = (GeometryProcessing.layer_idx vars + 1)%nat)
  /\ (forall p, lookup_file p (one_layer zPos vars w).2 <> lookup_file p w ->
        p = GeometryProcessing.layer_file output_dxf_bruto_folder model_name
              (GeometryProcessing.layer_idx vars)
        /\ exists geometry,
             GeometryProcessing.current_layer_geometry part_to_slice supports_to_slice
               (turn_hatcher (GeometryProcessing.h vars)) zPos = Ok geometry
             /\ geometry <> []).
Proof.
  unfold GeometryProcessing.slice_one_layer.
  destruct (int_trunc (zPos * 1000)) as [z|e];
    [erewrite bind_Ok by reflexivity | erewrite bind_Raise by reflexivity; by split].
  cbv zeta. fold (turn_hatcher (GeometryProcessing.h vars)).
  destruct (GeometryProcessing.current_layer_geometry part_to_slice supports_to_slice
              (turn_hatcher (GeometryProcessing.h vars)) zPos) as [geometry|e];
    [erewrite bind_Ok by reflexivity | erewrite bind_Raise by reflexivity; by split].
  destruct (bool_decide (geometry = [])) eqn:Hempty; cbn [negb].
  - erewrite bind_Ok by reflexivity. unfold ret. simpl.
    split; [by intros vars' [= <-] | by intros p Hp].
  - apply bool_decide_eq_false in Hempty.
    set (f := GeometryProcessing.layer_file output_dxf_bruto_folder model_name
                (GeometryProcessing.layer_idx vars)).
    pose proof (export_layer_touches (mkLayer z geometry) f) as Htouch.
    destruct (GeometryProcessing.export_layer_to_dxf (mkLayer z geometry) f w) as [[[]|e] w1] eqn:Hexport.
    + erewrite bind_Ok by (erewrite bind_Ok by exact Hexport; reflexivity).
      unfold ret. simpl in *.
      split; [by intros vars' [= <-]|].
      intros p Hp. split; [|eauto].
      destruct (decide (p = f)) as [->|Hne]; [done|].
      specialize (Htouch p w Hne). rewrite Hexport in Htouch. simpl in Htouch. congruence.
    + erewrite bind_Raise by (erewrite bind_Raise by exact Hexport; reflexivity).
      simpl in *. split; [done|].
      intros p Hp. split; [|eauto].
      destruct (decide (p = f)) as [->|Hne]; [done|].
      specialize (Htouch p w Hne). rewrite Hexport in Htouch. simpl in Htouch. congruence.
Qed.

(** The loop over the z positions. *)
Lemma slicing_loop_spec (z_positions : list float) :
  forall (vars : GeometryProcessing.slicing_vars) (w : world),
    (forall vars', (for_fold z_positions one_layer vars w).1 = Ok vars' ->
       GeometryProcessing.layer_idx vars'
       = (GeometryProcessing.layer_idx vars + length z_positions)%nat)
    /\ (forall p, lookup_file p (for_fold z_positions one_layer vars w).2 <> lookup_file p w ->
          exists i zPos geometry,
            z_positions !! i = Some zPos
            /\ p = GeometryProcessing.layer_file output_dxf_bruto_folder model_name
                     (GeometryProcessing.layer_idx vars + i)
            /\ GeometryProcessing.current_layer_geometry part_to_slice supports_to_slice
                 (hatcher_at (GeometryProcessing.h vars) i) zPos = Ok geometry
            /\ geometry <> []).
Proof.
  induction z_positions as [|zPos rest IH]; intros vars w.
  - simpl. split; [intros vars' [= <-]; lia | done].
  - cbn [for_fold]. unfold bind.
    destruct (slice_one_layer_spec zPos vars w) as [Hvars Hfile].
    destruct (one_layer zPos vars w) as [[vars1|e] w1]; simpl in Hvars, Hfile.
    + destruct (Hvars vars1 eq_refl) as [Hh Hidx].
      destruct (IH vars1 w1) as [IHvars IHfile]. split.
      * intros vars' Hrun. rewrite (IHvars vars' Hrun), Hidx. simpl. lia.
      * intros p Hp.
        destruct (decide (lookup_file p w1 = lookup_file p w)) as [Hsame|Hchanged].
        -- rewrite <- Hsame in Hp. destruct (IHfile p Hp) as (i & z & g & Hz & -> & Hg & Hne).
           exists (S i), z, g. rewrite Hh, Hidx in *. repeat split; try done.
           f_equal. lia.
        -- destruct (Hfile p Hchanged) as [-> (g & Hg & Hne)].
           exists 0%nat, zPos, g. rewrite Nat.add_0_r. repeat split; done.
    + split; [done|]. simpl. intros p Hp.
      destruct (Hfile p Hp) as [-> (g & Hg & Hne)].
      exists 0%nat, zPos, g. rewrite Nat.add_0_r. repeat split; done.
Qed.

(** The function, cut at its decisions. *)
Lemma slice_and_export_raw_dxfs_cases (w : world) :
  let min_z := (GeometryProcessing.overall_z_range part_to_slice supports_to_slice).1 in
  let max_z := (GeometryProcessing.overall_z_range part_to_slice supports_to_slice).2 in
  let w0 := World (fs w) ((stdout w ++ [nl +:+ "--- Slicing to Raw DXFs ---"])
                          ++ ["Slicing and processing layers for '" +:+ model_name +:+ "' (Raw DXF)..."])
                  (errlog w) in
  let run := GeometryProcessing.slice_and_export_raw_dxfs part_to_slice supports_to_slice
               output_dxf_bruto_folder model_name w in
  let loop num_layers :=
    for_fold (GeometryProcessing.z_positions_for min_z max_z num_layers) one_layer
      (GeometryProcessing.mkVars GeometryProcessing.initial_hatcher 0 []) w0 in
  match int_ceil ((max_z - min_z) / Parameters.LAYER_THICKNESS) with
  | Raise e => run = (Raise e, w0)
  | Ok n =>
      if (n =? 0)%Z && PrimFloat.ltb min_z max_z then
        fs run.2 = fs (loop 1%Z).2
      else if PrimFloat.leb max_z min_z then
        run = (Ok tt, World (fs w) (stdout w0 ++ [zero_height_warning model_name]) (errlog w))
      else fs run.2 = fs (loop n).2
  end.
Proof.
  cbv zeta. unfold GeometryProcessing.slice_and_export_raw_dxfs.
  destruct (GeometryProcessing.overall_z_range part_to_slice supports_to_slice) as [min_z max_z].
  cbn [fst snd]. erewrite bind_Ok by reflexivity. erewrite bind_Ok by reflexivity.
  cbn [fs stdout errlog].
  set (w0 := World (fs w) _ (errlog w)).
  destruct (int_ceil ((max_z - min_z) / Parameters.LAYER_THICKNESS)) as [n|e];
    [erewrite bind_Ok by reflexivity | by erewrite bind_Raise by reflexivity].
  assert (Hloop : forall num_layers,
    fs ((let* vars := for_fold (GeometryProcessing.z_positions_for min_z max_z num_layers) one_layer
                        (GeometryProcessing.mkVars GeometryProcessing.initial_hatcher 0 []) in
         print (nl +:+ "Plotting a sample of combined layers (raw DXFs)...") ;;
         if negb (bool_decide (GeometryProcessing.all_layers_combined vars = []))
         then ret tt else print "No raw layers generated to plot.") w0).2
    = fs (for_fold (GeometryProcessing.z_positions_for min_z max_z num_layers) one_layer
            (GeometryProcessing.mkVars GeometryProcessing.initial_hatcher 0 []) w0).2).
  { intros num_layers. unfold bind at 1.
    destruct (for_fold _ one_layer _ w0) as [[vars|e] w1]; [|done].
    erewrite bind_Ok by reflexivity.
    by destruct (negb (bool_decide (GeometryProcessing.all_layers_combined vars = []))). }
  destruct ((n =? 0)%Z && PrimFloat.ltb min_z max_z).
  - erewrite bind_Ok by reflexivity. apply Hloop.
  - destruct (PrimFloat.leb max_z min_z).
    + erewrite bind_Ok by (erewrite bind_Ok by reflexivity; reflexivity). reflexivity.
    + erewrite bind_Ok by reflexivity. apply Hloop.
Qed.
End slicing.

Lemma lookup_file_same_fs (p : path) (w w' : world) : fs w' = fs w -> lookup_file p w' = lookup_file p w.
Proof. unfold lookup_file. by intros ->. Qed.

(** C10: when the overall maximum z is not above the overall minimum z,
    [slice_and_export_raw_dxfs] writes no file, and (the layer count being
    computed) prints the warning and returns.  In every run, a file of the
    disk changes only if it is the layer file numbered [i] of a z position
    number [i] whose layer geometry is not empty; the loop's counter goes up by
    one at every z position, so the numbers of the files written can have
    gaps, as for the part that is hollow at its second z position. *)
Theorem raw_layers_are_written_for_geometry_only `{!Ezdxf, !Slicer}
    (part_to_slice : Part) (supports_to_slice : list Mesh)
    (output_dxf_bruto_folder model_name : string) (w : world) :
  let min_z_overall := (GeometryProcessing.overall_z_range part_to_slice supports_to_slice).1 in
  let max_z_overall := (GeometryProcessing.overall_z_range part_to_slice supports_to_slice).2 in
  let run := GeometryProcessing.slice_and_export_raw_dxfs part_to_slice supports_to_slice
               output_dxf_bruto_folder model_name w in
  (PrimFloat.leb max_z_overall min_z_overall = true ->
     fs run.2 = fs w
     /\ forall num_layers,
          int_ceil ((max_z_overall - min_z_overall) / Parameters.LAYER_THICKNESS) = Ok num_layers ->
          run = (Ok tt, World (fs w)
                          (stdout w ++ slicing_banner model_name ++ [zero_height_warning model_name])
                          (errlog w)))
  /\ (forall p : path,
        lookup_file p run.2 <> lookup_file p w ->
        exists num_layers i zPos geometry,
          GeometryProcessing.z_positions_for min_z_overall max_z_overall num_layers !! i = Some zPos
          /\ p = GeometryProcessing.layer_file output_dxf_bruto_folder model_name i
          /\ GeometryProcessing.current_layer_geometry part_to_slice supports_to_slice
               (hatcher_at GeometryProcessing.initial_hatcher i) zPos = Ok geometry
          /\ geometry <> [])
  /\ (forall (z_positions : list float) (vars vars' : GeometryProcessing.slicing_vars) (w0 w1 : world),
        for_fold z_positions
          (GeometryProcessing.slice_one_layer part_to_slice supports_to_slice
             output_dxf_bruto_folder model_name) vars w0 = (Ok vars', w1) ->
        GeometryProcessing.layer_idx vars'
        = (GeometryProcessing.layer_idx vars + length z_positions)%nat)
  /\ (let w' := (@GeometryProcessing.slice_and_export_raw_dxfs Examples.ezdxf (Examples.slicer 0.06)
                   tt [] "dxf_bruto" "fin" Examples.raw_disk).2 in
      is_Some (lookup_file (Path "dxf_bruto" "fin_layer0.dxf") w')
      /\ lookup_file (Path "dxf_bruto" "fin_layer1.dxf") w' = None
      /\ is_Some (lookup_file (Path "dxf_bruto" "fin_layer2.dxf") w')).
Proof.
  cbv zeta.
  pose proof (slice_and_export_raw_dxfs_cases part_to_slice supports_to_slice
                output_dxf_bruto_folder model_name w) as Hcases. cbv zeta in Hcases.
  set (min_z := (GeometryProcessing.overall_z_range part_to_slice supports_to_slice).1) in *.
  set (max_z := (GeometryProcessing.overall_z_range part_to_slice supports_to_slice).2) in *.
  set (run := GeometryProcessing.slice_and_export_raw_dxfs part_to_slice supports_to_slice
                output_dxf_bruto_folder model_name w) in *.
  set (w0 := World (fs w) _ (errlog w)) in Hcases.
  split; [|split; [|split]].
  - intros Hflat.
    destruct (int_ceil ((max_z - min_z) / Parameters.LAYER_THICKNESS)) as [n|e].
    + rewrite (float_leb_not_ltb _ _ Hflat), andb_false_r, Hflat in Hcases.
      split; [by rewrite Hcases|].
      intros num_layers _. rewrite Hcases. f_equal. f_equal.
      unfold w0, slicing_banner. cbn [stdout]. by rewrite <- !app_assoc.
    + split; [by rewrite Hcases | done].
  - intros p Hp.
    assert (Hloop : forall n,
      fs run.2 = fs (for_fold (GeometryProcessing.z_positions_for min_z max_z n)
                       (GeometryProcessing.slice_one_layer part_to_slice supports_to_slice
                          output_dxf_bruto_folder model_name)
                       (GeometryProcessing.mkVars GeometryProcessing.initial_hatcher 0 []) w0).2 ->
      exists num_layers i zPos geometry,
        GeometryProcessing.z_positions_for min_z max_z num_layers !! i = Some zPos
        /\ p = GeometryProcessing.layer_file output_dxf_bruto_folder model_name i
        /\ GeometryProcessing.current_layer_geometry part_to_slice supports_to_slice
             (hatcher_at GeometryProcessing.initial_hatcher i) zPos = Ok geometry
        /\ geometry <> []).
    { intros n Hfs. rewrite (lookup_file_same_fs p _ _ Hfs) in Hp.
      destruct (slicing_loop_spec part_to_slice supports_to_slice output_dxf_bruto_folder model_name
                  (GeometryProcessing.z_positions_for min_z max_z n)
                  (GeometryProcessing.mkVars GeometryProcessing.initial_hatcher 0 []) w0)
        as [_ Hfile].
      destruct (Hfile p Hp) as (i & zPos & geometry & Hz & Hname & Hg & Hne).
      exists n, i, zPos, geometry. done. }
    destruct (int_ceil ((max_z - min_z) / Parameters.LAYER_THICKNESS)) as [n|e].
    + destruct ((n =? 0)%Z && PrimFloat.ltb min_z max_z); [by apply (Hloop 1%Z)|].
      destruct (PrimFloat.leb max_z min_z); [|by apply (Hloop n)].
      rewrite Hcases in Hp. done.
    + rewrite Hcases in Hp. done.
  - intros z_positions vars vars' w1 w2 Hrun.
    destruct (slicing_loop_spec part_to_slice supports_to_slice output_dxf_bruto_folder model_name
                z_positions vars w1) as [Hidx _].
    apply Hidx. by rewrite Hrun.
  - vm_compute. repeat split; eauto.
Qed.

Lemma raw_layers_are_written_for_geometry_only_witness :
  let run := @GeometryProcessing.slice_and_export_raw_dxfs Examples.ezdxf (Examples.slicer 0)
               tt [] "dxf_bruto" "fin" Examples.raw_disk in
  PrimFloat.leb 0 0 = true
  /\ fs run.2 = fs Examples.raw_disk
  /\ run = (Ok tt, World (fs Examples.raw_disk)
                     (slicing_banner "fin" ++ [zero_height_warning "fin"]) []).
Proof.
  cbv zeta.
  destruct (@raw_layers_are_written_for_geometry_only Examples.ezdxf (Examples.slicer 0)
              tt [] "dxf_bruto" "fin" Examples.raw_disk) as [Hflat _].
  assert (Hle : PrimFloat.leb 0 0 = true) by reflexivity.
  destruct (Hflat Hle) as [Hfs Hrun].
  split; [exact Hle|]. split; [exact Hfs|].
  exact (Hrun 0%Z eq_refl).
Defined.
(** ** From the clean DXF back to segments *)

Lemma query_rounded_lines `{!PyFloat} (name : string) (segments : list xyxy) :
  query name (map rounded_line segments)
  = if decide (name = "LINE") then map rounded_line segments else [].
Proof.
  unfold query. induction segments as [|s rest IH]; [by case_decide|].
  cbn [map]. rewrite filter_cons, IH. cbn [dxftype rounded_line].
  repeat case_decide; congruence.
Qed.

Lemma rounded_lines_segments `{!PyFloat} (segments : list xyxy) :
  flat_map entity_segments (map rounded_line segments) = map seg_of (map rounded segments).
Proof. induction segments as [|s rest IH]; [done|]. simpl. by rewrite IH. Qed.

(** X1: [create_simplified_dxf_for_laser] and the extraction loops read each
    other back: the modelspace it builds from a list of segments is read by
    [get_line_segments_from_dxf], and by the loop of every copy of the
    machine-format converter, as the same segments in the same order, each
    coordinate through [round(_, 6)] (the [round] of the coordinate's own
    runtime type) and handed back as a [float]. *)
Theorem clean_document_reads_back_rounded `{!PyFloat} (segments : list xyxy) :
  exists m : modelspace,
    GeometryProcessing.simplified_msp (map seg_of segments) [] = (Ok tt, m)
    /\ GeometryProcessing.line_segments_of m = map seg_of (map rounded segments)
    /\ GeometryProcessing.all_line_segments_of m = map seg_of (map rounded segments)
    /\ UnifiedPipeline.all_line_segments_of m = map seg_of (map rounded segments)
    /\ SupportDxfToMachine.all_line_segments_of m = map seg_of (map rounded segments)
    /\ StlToMachineTxt.all_line_segments_of m = map seg_of (map rounded segments).
Proof.
  exists (map rounded_line segments).
  assert (Hfaithful : GeometryProcessing.line_segments_of (map rounded_line segments)
                      = map seg_of (map rounded segments)).
  { rewrite line_segments_of_closed_form. unfold expected_segments.
    rewrite !query_rounded_lines. repeat case_decide; try congruence.
    simpl. apply rounded_lines_segments. }
  assert (Hconverter : GeometryProcessing.all_line_segments_of (map rounded_line segments)
                       = map seg_of (map rounded segments)).
  { rewrite all_line_segments_of_closed_form.
    rewrite !query_rounded_lines. repeat case_decide; try congruence.
    simpl. apply rounded_lines_segments. }
  split; [apply (simplified_msp_spec segments [])|].
  repeat split; assumption.
Qed.
(** ** From the raw DXF of a layer back to segments *)

Lemma query_app_list (name : string) (m1 m2 : modelspace) :
  query name (m1 ++ m2) = query name m1 ++ query name m2.
Proof. unfold query. apply filter_app. Qed.

Lemma query_contours (name : string) (contours : list coords) :
  query name (map contour_polyline contours)
  = if decide (name = "LWPOLYLINE") then map contour_polyline contours else [].
Proof.
  unfold query. induction contours as [|c rest IH]; [by case_decide|].
  cbn [map]. rewrite filter_cons, IH. cbn [dxftype contour_polyline].
  repeat case_decide; congruence.
Qed.

Lemma query_hatch_lines (name : string) (hatches : list coords) :
  query name (flat_map hatch_lines hatches)
  = if decide (name = "LINE") then flat_map hatch_lines hatches else [].
Proof.
  unfold query. induction hatches as [|c rest IH]; [by case_decide|].
  cbn [flat_map]. rewrite filter_app, IH.
  assert (Hc : filter (fun e => dxftype e = name) (hatch_lines c)
               = if decide (name = "LINE") then hatch_lines c else []).
  { induction c as [|a|a b c' IHc] using list_pair_ind; [by case_decide | by case_decide |].
    cbn [hatch_lines]. rewrite filter_cons, IHc. cbn [dxftype].
    repeat case_decide; congruence. }
  rewrite Hc. by case_decide.
Qed.

Lemma query_point_circles (name : string) (points : list coords) :
  query name (flat_map point_circles points)
  = if decide (name = "CIRCLE") then flat_map point_circles points else [].
Proof.
  unfold query. induction points as [|c rest IH]; [by case_decide|].
  cbn [flat_map]. rewrite filter_app, IH.
  assert (Hc : filter (fun e => dxftype e = name) (point_circles c)
               = if decide (name = "CIRCLE") then point_circles c else []).
  { unfold point_circles. induction c as [|p c' IHc]; [by case_decide|].
    cbn [map]. rewrite filter_cons, IHc. cbn [dxftype].
    repeat case_decide; congruence. }
  rewrite Hc. by case_decide.
Qed.

Lemma contour_polylines_segments (contours : list coords) :
  flat_map entity_segments (map contour_polyline contours) = flat_map contour_segments contours.
Proof.
  induction contours as [|c rest IH]; [done|].
  cbn [map flat_map]. rewrite IH. f_equal.
  unfold contour_polyline, contour_segments. cbn [entity_segments].
  rewrite map_map. reflexivity.
Qed.

Lemma hatch_lines_segments (hatches : list coords) :
  flat_map entity_segments (flat_map hatch_lines hatches) = flat_map hatch_segments hatches.
Proof.
  induction hatches as [|c rest IH]; [done|].
  cbn [flat_map]. rewrite flat_map_app, IH. f_equal.
  induction c as [|a|a b c' IHc] using list_pair_ind; [done | done |].
  cbn [hatch_lines hatch_segments flat_map]. rewrite IHc. reflexivity.
Qed.

(** X2: what [export_layer_to_dxf] draws for a layer whose hatch
    geometries have an even number of rows is read back by
    [get_line_segments_from_dxf] as the edges of every contour (consecutive
    rows, closed when there are more than two) followed by the hatch lines
    (rows 0-1, 2-3, ...); the point circles leave no segment. *)
Theorem exported_layer_reads_back (layer : Layer) :
  forallb (fun c => Nat.even (length c)) (getHatchGeometry layer) = true ->
  exists m : modelspace,
    GeometryProcessing.export_layer_msp layer [] = (Ok tt, m)
    /\ GeometryProcessing.line_segments_of m
       = flat_map contour_segments (getContourGeometry layer)
         ++ flat_map hatch_segments (getHatchGeometry layer).
Proof.
  intros Heven. exists (layer_entities layer).
  split; [by apply export_layer_msp_entities|].
  rewrite line_segments_of_closed_form. unfold expected_segments, layer_entities.
  rewrite !query_app_list, !query_contours, !query_hatch_lines, !query_point_circles.
  repeat case_decide; try congruence.
  rewrite !app_nil_r. cbn [app flat_map].
  by rewrite contour_polylines_segments, hatch_lines_segments.
Qed.

Lemma exported_layer_reads_back_witness :
  forallb (fun c => Nat.even (length c))
    (getHatchGeometry (mkLayer 0 [ContourGeometry [(0, 0); (1, 0); (1, 1)]%float;
                                  HatchGeometry [(0, 0); (1, 1)]%float;
                                  PointsGeometry [(5, 5)]%float])) = true
  /\ exists m : modelspace,
       GeometryProcessing.export_layer_msp
         (mkLayer 0 [ContourGeometry [(0, 0); (1, 0); (1, 1)]%float;
                     HatchGeometry [(0, 0); (1, 1)]%float;
                     PointsGeometry [(5, 5)]%float]) [] = (Ok tt, m)
       /\ GeometryProcessing.line_segments_of m
          = flat_map contour_segments
              (getContourGeometry (mkLayer 0 [ContourGeometry [(0, 0); (1, 0); (1, 1)]%float;
                                              HatchGeometry [(0, 0); (1, 1)]%float;
                                              PointsGeometry [(5, 5)]%float]))
            ++ flat_map hatch_segments
                 (getHatchGeometry (mkLayer 0 [ContourGeometry [(0, 0); (1, 0); (1, 1)]%float;
                                               HatchGeometry [(0, 0); (1, 1)]%float;
                                               PointsGeometry [(5, 5)]%float])).
Proof.
  split; [reflexivity|].
  apply (exported_layer_reads_back
           (mkLayer 0 [ContourGeometry [(0, 0); (1, 0); (1, 1)]%float;
                       HatchGeometry [(0, 0); (1, 1)]%float;
                       PointsGeometry [(5, 5)]%float])).
  reflexivity.
Defined.
(** ** The other copies of the extraction *)

Lemma old_polyline_loop {A} `{Inhabited A} (f : A -> point) (ps : list A) (is_closed : bool)
    (acc : list segment) :
  (let acc' :=
     if (2 <=? length ps)%nat then
       for_range (length ps - 1)
         (fun i acc => acc ++ [[f (ps !!! i); f (ps !!! (i + 1)%nat)]]) acc
     else acc in
   if is_closed && (2 <? length ps)%nat then acc' ++ [[f (item_last ps); f (ps !!! 0%nat)]]
   else acc')
  = acc ++ polyline_segments (map f ps) is_closed.
Proof.
  rewrite <- (polyline_loop f ps is_closed acc). cbv zeta.
  destruct (2 <=? length ps)%nat eqn:Hlen; [done|].
  apply Nat.leb_gt in Hlen.
  replace (2 <? length ps)%nat with false by (symmetry; apply Nat.ltb_ge; lia).
  by rewrite andb_false_r.
Qed.

Lemma old_line_segments_of_closed_form (m : modelspace) :
  SupportDxfToCleanOld.line_segments_of m = expected_segments m.
Proof.
  unfold SupportDxfToCleanOld.line_segments_of, expected_segments.
  rewrite (for_in_append (appended_for "LINE")) with (xs := query "LINE" m).
  2:{ intros [| |start end_| |[]] acc; by_entity_kind. }
  rewrite (for_in_append (appended_for "POLYLINE")) with (xs := query "POLYLINE" m).
  2:{ intros [|vertices is_closed| | |[]] acc; by_entity_kind.
      rewrite located_loop.
      rewrite (old_polyline_loop (fun p : point => [p !!! 0%nat; p !!! 1%nat])).
      by rewrite renormalise_points by apply located_two. }
  rewrite (for_in_append (appended_for "LWPOLYLINE")) with (xs := query "LWPOLYLINE" m).
  2:{ intros [points is_closed| | | |[]] acc; by_entity_kind.
      apply (old_polyline_loop lw_xy). }
  rewrite !flat_map_appended_for. simpl. by rewrite <- app_assoc.
Qed.

(** X3: the extraction of support_DXF_to_clean_DXF_old.py returns, for a
    file that ezdxf reads, the same segments as the extraction of
    support_DXF_to_clean_DXF.py; for a file that ezdxf cannot read the old
    one raises the error to its caller, where the new one logs one message
    and returns the empty list. *)
Theorem old_extraction_agrees_but_raises `{!Ezdxf} :
  (forall m : modelspace,
      SupportDxfToCleanOld.line_segments_of m = SupportDxfToClean.line_segments_of m)
  /\ (forall (dxf_path : path) (w : world) (doc : document),
        (readfile dxf_path w).1 = Ok doc ->
        SupportDxfToCleanOld.get_line_segments_from_dxf dxf_path w
        = (Ok (SupportDxfToClean.line_segments_of (msp doc)), w)
        /\ SupportDxfToClean.get_line_segments_from_dxf dxf_path w
           = (Ok (SupportDxfToClean.line_segments_of (msp doc)), w))
  /\ (forall (dxf_path : path) (w : world) (e : exn),
        (readfile dxf_path w).1 = Raise e ->
        SupportDxfToCleanOld.get_line_segments_from_dxf dxf_path w = (Raise e, w)
        /\ exists message,
             SupportDxfToClean.get_line_segments_from_dxf dxf_path w
             = (Ok [], World (fs w) (stdout w) (errlog w ++ [message]))).
Proof.
  assert (Hloop : forall m : modelspace,
             SupportDxfToCleanOld.line_segments_of m = SupportDxfToClean.line_segments_of m).
  { intros m. rewrite old_line_segments_of_closed_form.
    symmetry. apply line_segments_of_closed_form. }
  split; [exact Hloop|]. split.
  - intros dxf_path w doc Hread.
    pose proof (readfile_world dxf_path w) as Hw.
    destruct (readfile dxf_path w) as [r w0] eqn:Hrun. simpl in Hread, Hw. subst r w0.
    split.
    + unfold SupportDxfToCleanOld.get_line_segments_from_dxf.
      erewrite bind_Ok by exact Hrun. cbv zeta. unfold ret. by rewrite Hloop.
    + unfold SupportDxfToClean.get_line_segments_from_dxf.
      rewrite (bind_Ok _ _ w w (Some (msp doc))); [reflexivity|].
      apply try_Ok. erewrite bind_Ok by exact Hrun. reflexivity.
  - intros dxf_path w e Hread.
    pose proof (readfile_world dxf_path w) as Hw.
    destruct (readfile dxf_path w) as [r w0] eqn:Hrun. simpl in Hread, Hw. subst r w0.
    split.
    + unfold SupportDxfToCleanOld.get_line_segments_from_dxf.
      by erewrite bind_Raise by exact Hrun.
    + unfold SupportDxfToClean.get_line_segments_from_dxf.
      unfold bind at 1. erewrite try_Raise by (erewrite bind_Raise by exact Hrun; reflexivity).
      destruct (exn_type e); simpl; eauto.
Qed.

Lemma old_extraction_agrees_but_raises_witness :
  ((@readfile Examples.ezdxf (Path "raw" "tri.dxf") Examples.disk).1 = Ok (Document "R2010" Examples.triangle)
   /\ (@SupportDxfToCleanOld.get_line_segments_from_dxf Examples.ezdxf
         (Path "raw" "tri.dxf") Examples.disk
       = (Ok (SupportDxfToClean.line_segments_of (msp (Document "R2010" Examples.triangle))),
          Examples.disk)
       /\ @SupportDxfToClean.get_line_segments_from_dxf Examples.ezdxf
            (Path "raw" "tri.dxf") Examples.disk
          = (Ok (SupportDxfToClean.line_segments_of (msp (Document "R2010" Examples.triangle))),
             Examples.disk)))
  /\ ((@readfile Examples.ezdxf (Path "raw" "bad.dxf") Examples.disk).1 = Raise (Exn DXFStructureError "invalid DXF")
      /\ (@SupportDxfToCleanOld.get_line_segments_from_dxf Examples.ezdxf
            (Path "raw" "bad.dxf") Examples.disk
          = (Raise (Exn DXFStructureError "invalid DXF"), Examples.disk)
          /\ exists message,
               @SupportDxfToClean.get_line_segments_from_dxf Examples.ezdxf
                 (Path "raw" "bad.dxf") Examples.disk
               = (Ok [], World (fs Examples.disk) (stdout Examples.disk)
                           (errlog Examples.disk ++ [message])))).
Proof.
  pose proof (@old_extraction_agrees_but_raises Examples.ezdxf) as (_ & Hok & Hfail).
  split.
  - assert (Hread : (@readfile Examples.ezdxf (Path "raw" "tri.dxf") Examples.disk).1
                    = Ok (Document "R2010" Examples.triangle)) by (vm_compute; reflexivity).
    split; [exact Hread | exact (Hok _ _ _ Hread)].
  - assert (Hread : (@readfile Examples.ezdxf (Path "raw" "bad.dxf") Examples.disk).1
                    = Raise (Exn DXFStructureError "invalid DXF")) by (vm_compute; reflexivity).
    split; [exact Hread | exact (Hfail _ _ _ Hread)].
Defined.
(** ** Where the converter's closing segment can show *)

Lemma flat_map_eq_pointwise {A B} (f g : A -> list B) (l : list A) :
  (forall x, length (f x) = length (g x)) ->
  flat_map f l = flat_map g l -> Forall (fun x => f x = g x) l.
Proof.
  intros Hlen. induction l as [|x l IH]; intros Heq; [constructor|].
  cbn [flat_map] in Heq. apply app_inj_1 in Heq as [Hx Hl]; [|apply Hlen].
  constructor; [exact Hx | by apply IH].
Qed.

Lemma slipped_same_length (e : entity) :
  length (entity_segments_slipped e) = length (entity_segments e).
Proof.
  destruct e as [points is_closed| | | |]; try reflexivity.
  unfold entity_segments_slipped, entity_segments, polyline_segments.
  rewrite !length_app. f_equal.
  rewrite <- (closing_by_index lw_xy). unfold slipped_closing.
  by destruct (is_closed && (2 <? length points)%nat).
Qed.

(** X4: on a modelspace, the loop of
    [convert_dxf_to_lines_only_machine_format] in geometry_processing.py
    returns the segments of [get_line_segments_from_dxf] if and only if every
    closed LWPOLYLINE of more than two points ends at the y it started
    from. *)
Theorem converters_agree_exactly_when_closing_at_same_y (m : modelspace) :
  GeometryProcessing.all_line_segments_of m = GeometryProcessing.line_segments_of m
  <-> closes_at_same_y m.
Proof.
  split; [|apply converter_agrees_when_closing_at_same_y].
  rewrite all_line_segments_of_closed_form, line_segments_of_closed_form.
  unfold expected_segments. intros Heq.
  apply app_inj_2 in Heq as [Heq _]; [|reflexivity].
  apply flat_map_eq_pointwise in Heq; [|apply slipped_same_length].
  intros points Hin Hlen.
  rewrite Forall_forall in Heq.
  specialize (Heq (LWPOLYLINE points true)).
  unfold entity_segments_slipped, entity_segments, polyline_segments in Heq.
  rewrite <- (closing_by_index lw_xy) in Heq. unfold slipped_closing in Heq.
  apply Nat.ltb_lt in Hlen. rewrite Hlen in Heq. cbn [andb] in Heq.
  assert (Hq : LWPOLYLINE points true ∈ query "LWPOLYLINE" m).
  { unfold query. apply list_elem_of_filter. by split. }
  specialize (Heq Hq). apply app_inv_head in Heq. unfold lw_xy in Heq.
  injection Heq as Heq. unfold lw_y. congruence.
Qed.

Lemma converters_agree_exactly_when_closing_at_same_y_witness :
  closes_at_same_y [LWPOLYLINE [lwp 0 0 0 0 0; lwp 1 1 0 0 0; lwp 2 0 0 0 0] true;
                    LINE (vec3 0 0 0) (vec3 1 1 0)]
  /\ GeometryProcessing.all_line_segments_of
       [LWPOLYLINE [lwp 0 0 0 0 0; lwp 1 1 0 0 0; lwp 2 0 0 0 0] true;
        LINE (vec3 0 0 0) (vec3 1 1 0)]
     = GeometryProcessing.line_segments_of
         [LWPOLYLINE [lwp 0 0 0 0 0; lwp 1 1 0 0 0; lwp 2 0 0 0 0] true;
          LINE (vec3 0 0 0) (vec3 1 1 0)]
  /\ ~ closes_at_same_y Examples.triangle.
Proof.
  assert (Hsame : closes_at_same_y
                    [LWPOLYLINE [lwp 0 0 0 0 0; lwp 1 1 0 0 0; lwp 2 0 0 0 0] true;
                     LINE (vec3 0 0 0) (vec3 1 1 0)]).
  { intros points Hin _. apply list_elem_of_In in Hin.
    destruct Hin as [[= <-]|[Hin|[]]]; [reflexivity | discriminate Hin]. }
  split; [exact Hsame|]. split.
  - apply (proj2 (converters_agree_exactly_when_closing_at_same_y _)). exact Hsame.
  - intros Hsame'.
    apply (proj2 (converters_agree_exactly_when_closing_at_same_y _)) in Hsame'.
    vm_compute in Hsame'. discriminate Hsame'.
Defined.

(** ** The converter of STL_to_machine_TXT.py *)

Section stl_to_machine_txt.
Context `{!Ezdxf}.

Lemma stl_to_machine_txt_convert_runs (input_dxf_path output_target_path : path) (w : world) :
  match (readfile input_dxf_path w).1 with
  | Ok doc =>
      exists w0,
        mkdir_p (parent output_target_path) w = (Ok tt, w0)
        /\ StlToMachineTxt.convert_dxf_to_lines_only_machine_format
             input_dxf_path output_target_path w
           = (Ok tt, put_file output_target_path
                       (machine_text (map xyxy_of (StlToMachineTxt.all_line_segments_of (msp doc))))
                       w0)
  | Raise e =>
      exists message,
        StlToMachineTxt.convert_dxf_to_lines_only_machine_format
          input_dxf_path output_target_path w
        = (Ok tt, World (fs w) (stdout w ++ [message]) (errlog w))
  end.
Proof.
  unfold StlToMachineTxt.convert_dxf_to_lines_only_machine_format.
  pose proof (readfile_world input_dxf_path w) as Hw.
  pose proof (readfile_Ok_exists input_dxf_path w) as Hex.
  destruct (readfile input_dxf_path w) as [[doc|e] w1] eqn:Hread; simpl in Hw; subst w1; simpl.
  - destruct (mkdir_p_spec (parent output_target_path) w) as (w0 & Hmk & Hdir & _).
    exists w0. split; [done|].
    erewrite bind_Ok; [|unfold file_exists, gets; by rewrite bool_decide_eq_true_2 by eauto].
    cbn [negb]. erewrite bind_Ok; [|apply try_Ok; erewrite bind_Ok by exact Hread; reflexivity].
    cbv beta iota zeta. erewrite bind_Ok by exact Hmk.
    apply try_Ok. erewrite bind_Ok by exact (open_w_spec _ _ Hdir).
    change (StlToMachineTxt.all_line_segments_of (msp doc))
      with (GeometryProcessing.line_segments_of (msp doc)).
    rewrite <- (map_seg_of_xyxy_of (GeometryProcessing.line_segments_of (msp doc)))
      by apply line_segments_of_shape.
    change (StlToMachineTxt.write_machine_format output_target_path)
      with (GeometryProcessing.write_machine_format output_target_path).
    rewrite (write_machine_format_spec _ _ "") by apply lookup_file_put_file.
    rewrite map_seg_of_xyxy_of by apply line_segments_of_shape.
    by rewrite put_file_put_file.
  - erewrite bind_Ok by (unfold file_exists, gets; reflexivity).
    destruct (bool_decide (is_Some (lookup_file input_dxf_path w))); cbn [negb].
    + erewrite bind_Ok.
      2:{ erewrite try_Raise by (erewrite bind_Raise by exact Hread; reflexivity).
          instantiate (2 := None).
          instantiate (1 := World (fs w) (stdout w ++ [match exn_type e with
            | DXFStructureError => _ | _ => _ end]) (errlog w)).
          destruct (exn_type e); reflexivity. }
      cbv beta iota. eauto.
    + unfold print, modify. eauto.
Qed.

(** X5: the converter of STL_to_machine_TXT.py closes a closed polyline
    from its last point to its first: its loop returns the LWPOLYLINE
    segments, then the POLYLINE segments, then the LINE segments; on a file
    that ezdxf reads it returns normally and the target holds the machine
    format of these segments; on a file that ezdxf cannot read it prints one
    message and writes nothing. *)
Theorem stl_to_machine_txt_converter_closes_polylines :
  (forall m : modelspace, StlToMachineTxt.all_line_segments_of m = expected_segments m)
  /\ (forall (input_dxf_path output_target_path : path) (w : world) (doc : document),
        (readfile input_dxf_path w).1 = Ok doc ->
        exists w',
          StlToMachineTxt.convert_dxf_to_lines_only_machine_format
            input_dxf_path output_target_path w = (Ok tt, w')
          /\ lookup_file output_target_path w'
             = Some (machine_text (map xyxy_of (expected_segments (msp doc)))))
  /\ (forall (input_dxf_path output_target_path : path) (w : world) (e : exn),
        (readfile input_dxf_path w).1 = Raise e ->
        exists message,
          StlToMachineTxt.convert_dxf_to_lines_only_machine_format
            input_dxf_path output_target_path w
          = (Ok tt, World (fs w) (stdout w ++ [message]) (errlog w))).
Proof.
  assert (Hloop : forall m : modelspace,
             StlToMachineTxt.all_line_segments_of m = expected_segments m).
  { intros m. apply line_segments_of_closed_form. }
  split; [exact Hloop|]. split.
  - intros input_dxf_path output_target_path w doc Hread.
    pose proof (stl_to_machine_txt_convert_runs input_dxf_path output_target_path w) as Hrun.
    rewrite Hread in Hrun. destruct Hrun as (w0 & _ & Hrun).
    eexists. split; [exact Hrun|]. rewrite Hloop. apply lookup_file_put_file.
  - intros input_dxf_path output_target_path w e Hread.
    pose proof (stl_to_machine_txt_convert_runs input_dxf_path output_target_path w) as Hrun.
    by rewrite Hread in Hrun.
Qed.
End stl_to_machine_txt.

Lemma stl_to_machine_txt_converter_closes_polylines_witness :
  ((@readfile Examples.ezdxf (Path "raw" "tri.dxf") Examples.disk).1
   = Ok (Document "R2010" Examples.triangle)
   /\ exists w',
        @StlToMachineTxt.convert_dxf_to_lines_only_machine_format Examples.ezdxf
          (Path "raw" "tri.dxf") (Path "out" "machine_tri.dxf") Examples.disk = (Ok tt, w')
        /\ lookup_file (Path "out" "machine_tri.dxf") w'
           = Some (machine_text (map xyxy_of (expected_segments
                                                (msp (Document "R2010" Examples.triangle))))))
  /\ ((@readfile Examples.ezdxf (Path "raw" "bad.dxf") Examples.disk).1
      = Raise (Exn DXFStructureError "invalid DXF")
      /\ exists message,
           @StlToMachineTxt.convert_dxf_to_lines_only_machine_format Examples.ezdxf
             (Path "raw" "bad.dxf") (Path "out" "machine_bad.dxf") Examples.disk
           = (Ok tt, World (fs Examples.disk) (stdout Examples.disk ++ [message])
                       (errlog Examples.disk))).
Proof.
  pose proof (@stl_to_machine_txt_converter_closes_polylines Examples.ezdxf) as (_ & Hok & Hfail).
  split.
  - assert (Hread : (@readfile Examples.ezdxf (Path "raw" "tri.dxf") Examples.disk).1
                    = Ok (Document "R2010" Examples.triangle)) by (vm_compute; reflexivity).
    split; [exact Hread | exact (Hok _ _ _ _ Hread)].
  - assert (Hread : (@readfile Examples.ezdxf (Path "raw" "bad.dxf") Examples.disk).1
                    = Raise (Exn DXFStructureError "invalid DXF")) by (vm_compute; reflexivity).
    split; [exact Hread | exact (Hfail _ _ _ _ Hread)].
Defined.
(** ** The extraction of manufacture_parameters.py *)

Lemma modify_each {S A} (g : A -> S -> S) (xs : list A) (body : A -> St S unit) :
  (forall x s, body x s = (Ok tt, g x s)) ->
  forall s, for_each xs body s = (Ok tt, fold_left (fun s x => g x s) xs s).
Proof.
  intros Hbody. induction xs as [|x xs IH]; intros s; [done|].
  cbn [for_each fold_left]. erewrite bind_Ok by apply Hbody. apply IH.
Qed.

Lemma fold_left_append {A B} (g : A -> list B) (xs : list A) (acc : list B) :
  fold_left (fun s x => s ++ g x) xs acc = acc ++ flat_map g xs.
Proof.
  revert acc. induction xs as [|x xs IH]; intros acc; simpl.
  - by rewrite app_nil_r.
  - by rewrite IH, <- app_assoc.
Qed.

(** A loop whose turns append and which stops at the first turn that raises. *)
Lemma append_until_raise {A B} (ok : A -> bool) (g : A -> list B) (xs : list A)
    (body : A -> St (list B) unit) :
  (forall x s, ok x = true -> body x s = (Ok tt, s ++ g x)) ->
  (forall x s, ok x = false -> exists e, body x s = (Raise e, s)) ->
  forall s, (for_each xs body s).2 = s ++ flat_map g (prefix_while ok xs).
Proof.
  intros Hok Hbad. induction xs as [|x xs IH]; intros s.
  - simpl. by rewrite app_nil_r.
  - cbn [for_each prefix_while]. destruct (ok x) eqn:Hx.
    + erewrite bind_Ok by (by apply Hok). rewrite IH. cbn [flat_map]. by rewrite <- app_assoc.
    + destruct (Hbad x s Hx) as [e He]. erewrite bind_Raise by exact He.
      simpl. by rewrite app_nil_r.
Qed.

Lemma located_fold (vertices : list vertex) :
  forall acc : list point,
    for_fold vertices (fun vertex current_polyline_points =>
      match vertex with
      | VertexAt location => ret (current_polyline_points ++ [[vx location; vy location]])
      | VertexPlain _ => raise (Exn AttributeError "object has no attribute 'dxf'")
      | VertexNoLocation => raise (Exn AttributeError "object has no attribute 'location'")
      end) acc
    = fun segments : list segment =>
        (if forallb (fun v => match v with VertexAt _ => true | _ => false end) vertices
         then Ok (acc ++ located vertices)
         else Raise (Exn AttributeError
                       (match find (fun v => match v with VertexAt _ => false | _ => true end) vertices with
                        | Some VertexNoLocation => "object has no attribute 'location'"
                        | _ => "object has no attribute 'dxf'"
                        end)),
         segments).
Proof.
  induction vertices as [|[v| |loc] vs IH]; intros acc; try reflexivity.
  - simpl. unfold ret. by rewrite app_nil_r.
  - cbn [for_fold forallb find located omap]. unfold bind, ret. rewrite IH.
    cbn [andb]. destruct (forallb _ vs); [|reflexivity].
    unfold vec_xy. by rewrite <- app_assoc.
Qed.

Lemma collect_segments_spec (m : modelspace) :
  (ManufactureParameters.collect_segments m []).2
  = flat_map entity_segments (query "LINE" m)
    ++ flat_map entity_segments (query "LWPOLYLINE" m)
    ++ flat_map entity_segments (prefix_while all_located (query "POLYLINE" m)).
Proof.
  unfold ManufactureParameters.collect_segments.
  erewrite bind_Ok.
  2:{ apply (modify_each (fun e s => s ++ appended_for "LINE" e)).
      intros [| |start end_| |[]] s; unfold ret, modify; by_entity_kind. }
  rewrite (fold_left_append (appended_for "LINE")), flat_map_appended_for. cbn [app].
  erewrite bind_Ok.
  2:{ apply (modify_each (fun e s => s ++ appended_for "LWPOLYLINE" e)).
      intros [points is_closed| | | |[]] s; unfold ret; by_entity_kind.
      unfold bind, modify.
      pose proof (old_polyline_loop lw_xy points is_closed s) as Hloop. cbv zeta in Hloop.
      rewrite <- Hloop.
      destruct (2 <=? length points)%nat eqn:Hlen.
      - by destruct (is_closed && (2 <? length points)%nat).
      - apply Nat.leb_gt in Hlen.
        replace (length points - 1)%nat with 0%nat by lia.
        by destruct (is_closed && (2 <? length points)%nat). }
  rewrite (fold_left_append (appended_for "LWPOLYLINE")), flat_map_appended_for.
  rewrite (append_until_raise all_located
             (fun e => if decide (dxftype e = "POLYLINE") then entity_segments e else [])).
  - rewrite <- app_assoc. do 2 f_equal.
    assert (Hin : Forall (fun e => dxftype e = "POLYLINE") (query "POLYLINE" m)).
    { unfold query. apply Forall_forall. intros e He. by apply list_elem_of_filter in He as [? _]. }
    induction Hin as [|e l He _ IH]; [done|].
    cbn [prefix_while]. destruct (all_located e); [|done].
    cbn [flat_map]. by rewrite IH, decide_True.
  - intros [|vertices is_closed| | |[]] s Hok; case_decide; try discriminate;
      try (exfalso; simpl in *; congruence); rewrite ?app_nil_r; try reflexivity.
    cbn [all_located] in Hok. unfold bind. rewrite located_fold, Hok. cbn [app].
    pose proof (polyline_loop (fun p : point => [p !!! 0%nat; p !!! 1%nat])
                  (located vertices) is_closed s) as Hloop.
    rewrite renormalise_points in Hloop by apply located_two.
    cbn [entity_segments]. rewrite <- Hloop.
    destruct (2 <=? length (located vertices))%nat; [|reflexivity].
    unfold modify. by destruct (is_closed && (2 <? length (located vertices))%nat).
  - intros [|vertices is_closed| | |[]] s Hbad; try discriminate.
    cbn [all_located] in Hbad. unfold bind. rewrite located_fold, Hbad. eauto.
Qed.

Lemma prefix_while_all {A} (ok : A -> bool) (l : list A) :
  forallb ok l = true -> prefix_while ok l = l.
Proof.
  induction l as [|x l IH]; [done|]. cbn [forallb prefix_while].
  intros [Hx Hl]%andb_true_iff. by rewrite Hx, IH.
Qed.

Lemma forallb_query (ok : entity -> bool) (name : string) (m : modelspace) :
  forallb ok m = true -> forallb ok (query name m) = true.
Proof.
  unfold query. induction m as [|e m IH]; [done|]. cbn [forallb].
  intros [He Hm]%andb_true_iff. rewrite filter_cons. case_decide; [|by apply IH].
  cbn [forallb]. by rewrite He, IH.
Qed.

(** X6: [get_dxf_line_segments] of manufacture_parameters.py never
    raises and leaves the disk as it was. For a file that ezdxf reads it
    returns the LINE segments first, then the LWPOLYLINE segments, then the
    segments of the POLYLINEs that come before the first POLYLINE with a
    vertex without location; when every vertex has a location this is a
    permutation of what [get_line_segments_from_dxf] returns. For a file
    that ezdxf cannot read it returns the empty list. *)
Theorem auto_parameters_extraction_is_reordered_and_partial `{!Ezdxf}
    (dxf_path : path) (w : world) :
  match (readfile dxf_path w).1 with
  | Ok doc =>
      exists segments,
        ManufactureParameters.get_dxf_line_segments dxf_path w = (Ok segments, w)
        /\ segments
           = flat_map entity_segments (query "LINE" (msp doc))
             ++ flat_map entity_segments (query "LWPOLYLINE" (msp doc))
             ++ flat_map entity_segments (prefix_while all_located (query "POLYLINE" (msp doc)))
        /\ (forallb all_located (msp doc) = true ->
            segments ≡ₚ GeometryProcessing.line_segments_of (msp doc))
  | Raise _ => ManufactureParameters.get_dxf_line_segments dxf_path w = (Ok [], w)
  end.
Proof.
  unfold ManufactureParameters.get_dxf_line_segments.
  pose proof (readfile_world dxf_path w) as Hw.
  destruct (readfile dxf_path w) as [[doc|e] w1] eqn:Hread; simpl in Hw; subst w1; simpl.
  - eexists. split; [|split; [reflexivity|]].
    + rewrite (bind_Ok _ _ w w (Some (msp doc)))
        by (apply try_Ok; erewrite bind_Ok by exact Hread; reflexivity).
      unfold ret. do 2 f_equal. rewrite <- collect_segments_spec.
      unfold try_except.
      by destruct (ManufactureParameters.collect_segments (msp doc) []) as [[[]|e] s].
    + intros Hall.
      rewrite line_segments_of_closed_form. unfold expected_segments.
      rewrite prefix_while_all by (by apply forallb_query).
      rewrite (Permutation_app_comm (flat_map entity_segments (query "LINE" (msp doc)))).
      rewrite <- !app_assoc. do 2 f_equal.
  - rewrite (bind_Ok _ _ w w None); [reflexivity|].
    erewrite try_Raise by (erewrite bind_Raise by exact Hread; reflexivity). reflexivity.
Qed.

Lemma auto_parameters_extraction_is_reordered_and_partial_witness :
  forallb all_located Examples.triangle = true
  /\ exists segments,
       @ManufactureParameters.get_dxf_line_segments Examples.ezdxf (Path "raw" "tri.dxf") Examples.disk
       = (Ok segments, Examples.disk)
       /\ segments
          = flat_map entity_segments (query "LINE" Examples.triangle)
            ++ flat_map entity_segments (query "LWPOLYLINE" Examples.triangle)
            ++ flat_map entity_segments (prefix_while all_located (query "POLYLINE" Examples.triangle))
       /\ segments ≡ₚ GeometryProcessing.line_segments_of Examples.triangle.
Proof.
  split; [reflexivity|].
  pose proof (@auto_parameters_extraction_is_reordered_and_partial Examples.ezdxf
                (Path "raw" "tri.dxf") Examples.disk) as Hrun.
  assert (Hread : (@readfile Examples.ezdxf (Path "raw" "tri.dxf") Examples.disk).1
                  = Ok (Document "R2010" Examples.triangle)) by (vm_compute; reflexivity).
  rewrite Hread in Hrun. destruct Hrun as (segments & Hrun & Heq & Hperm).
  exists segments. split; [exact Hrun|]. split; [exact Heq|]. apply Hperm. reflexivity.
Defined.

Example auto_parameters_extraction_example :
  @ManufactureParameters.get_dxf_line_segments Examples.ezdxf (Path "raw" "mix.DXF") Examples.disk
  = (Ok [ [[PyF 5; PyF 5]; [PyF 6; PyF 6]];
          [[NpF 0; NpF 0]; [NpF 1; NpF 0]];
          [[NpF 1; NpF 0]; [NpF 1; NpF 1]];
          [[NpF 1; NpF 1]; [NpF 0; NpF 0]] ], Examples.disk)
  /\ @GeometryProcessing.get_line_segments_from_dxf Examples.ezdxf (Path "raw" "mix.DXF") Examples.disk
     = (Ok [ [[NpF 0; NpF 0]; [NpF 1; NpF 0]];
             [[NpF 1; NpF 0]; [NpF 1; NpF 1]];
             [[NpF 1; NpF 1]; [NpF 0; NpF 0]];
             [[PyF 2; PyF 2]; [PyF 3; PyF 2]];
             [[PyF 5; PyF 5]; [PyF 6; PyF 6]] ], Examples.disk).
Proof. vm_compute. split; reflexivity. Qed.
(** ** What [machine_settings] can change in the parameter table *)

Lemma filter_ext_elem {A} (P Q : A -> Prop) `{!forall x, Decision (P x)} `{!forall x, Decision (Q x)}
    (l : list A) :
  (forall x, x ∈ l -> P x <-> Q x) -> filter P l = filter Q l.
Proof.
  induction l as [|x l IH]; intros Hext; [done|].
  rewrite !filter_cons.
  rewrite IH by (intros y Hy; apply Hext; by right).
  destruct (decide (P x)) as [HP|HP], (decide (Q x)) as [HQ|HQ]; try reflexivity.
  - exfalso. apply HQ, Hext; [by left | done].
  - exfalso. apply HP, Hext; [by left | done].
Qed.

Lemma dict_set_keys (d : dict) (k : string) (v : pyvalue) :
  (dict_set d k v).*1 = if decide (k ∈ d.*1) then d.*1 else d.*1 ++ [k].
Proof.
  induction d as [|[k0 v0] rest IH]; [done|].
  cbn [dict_set]. destruct (decide (k0 = k)) as [->|Hne].
  - cbn [fmap list_fmap fst]. rewrite decide_True by (by left). reflexivity.
  - cbn [fmap list_fmap fst]. fold (fmap (M := list) (@fst string pyvalue)).
    change (list_fmap _ _ fst (dict_set rest k v)) with ((dict_set rest k v).*1).
    change (list_fmap _ _ fst rest) with (rest.*1).
    rewrite IH. destruct (decide (k ∈ rest.*1)) as [Hin|Hnin].
    + rewrite decide_True by (by right). reflexivity.
    + rewrite decide_False; [reflexivity|].
      intros [Heq|Hin]%elem_of_cons; congruence.
Qed.

Lemma dict_get_dict_set_eq (d : dict) (k : string) (v : pyvalue) :
  dict_get (dict_set d k v) k = Some v.
Proof.
  unfold dict_get. induction d as [|[k0 v0] rest IH]; simpl.
  - by rewrite bool_decide_eq_true_2.
  - case_decide as Hk0; simpl.
    + by rewrite bool_decide_eq_true_2.
    + rewrite bool_decide_eq_false_2 by done. exact IH.
Qed.

Lemma settings_keys (settings d : dict) :
  NoDup settings.*1 ->
  (for_in settings (fun kv final_parameters => dict_set final_parameters kv.1 kv.2) d).*1
  = d.*1 ++ filter (fun k => k ∉ d.*1) settings.*1.
Proof.
  unfold for_in. revert d. induction settings as [|[k v] rest IH]; intros d Hnodup.
  - simpl. by rewrite app_nil_r.
  - apply NoDup_cons in Hnodup as [Hk Hrest].
    cbn [fold_left fst snd]. rewrite IH by done. rewrite dict_set_keys.
    change (((k, v) :: rest).*1) with (k :: rest.*1). rewrite filter_cons.
    destruct (decide (k ∈ d.*1)) as [Hin|Hnin].
    + rewrite decide_False by (intros Hn; by apply Hn). reflexivity.
    + rewrite decide_True by done. rewrite <- app_assoc. cbn [app]. do 2 f_equal.
      apply filter_ext_elem. intros k' Hk'. rewrite elem_of_app, list_elem_of_singleton.
      split.
      * intros Hn Hin. apply Hn. by left.
      * intros Hn [Hin| ->]; [by apply Hn | by apply Hk].
Qed.

Lemma settings_value (settings d : dict) (k : string) (v : pyvalue) :
  NoDup settings.*1 -> (k, v) ∈ settings ->
  dict_get (for_in settings (fun kv final_parameters => dict_set final_parameters kv.1 kv.2) d) k
  = Some v.
Proof.
  revert d. induction settings as [|[k0 v0] rest IH]; intros d Hnodup Hin.
  - by apply elem_of_nil in Hin.
  - apply NoDup_cons in Hnodup as [Hk0 Hrest].
    apply elem_of_cons in Hin as [[= -> ->]|Hin].
    + change (for_in ((k0, v0) :: rest) ?body d) with (for_in rest body (dict_set d k0 v0)).
      rewrite dict_get_settings by done. apply dict_get_dict_set_eq.
    + change (for_in ((k0, v0) :: rest) ?body d) with (for_in rest body (dict_set d k0 v0)).
      by apply IH.
Qed.

(** X7: the parameter table of [generate_auto_parameters_file] has the
    22 keys in their fixed order; machine settings with distinct keys keep
    that order and append their new keys after it, in the order given; every
    key of the settings has the value of the settings, and every other key
    has its default value. *)
Theorem machine_settings_keep_the_key_order (part_name : string) (number_of_layers : nat)
    (layer_thickness : float) (settings : dict) :
  NoDup settings.*1 ->
  let defaults :=
    ManufactureParameters.final_parameters_of part_name number_of_layers layer_thickness None in
  let table :=
    ManufactureParameters.final_parameters_of part_name number_of_layers layer_thickness
      (Some settings) in
  defaults.*1 = parameter_keys
  /\ table.*1 = parameter_keys ++ filter (fun k => k ∉ parameter_keys) settings.*1
  /\ (forall k v, (k, v) ∈ settings -> dict_get table k = Some v)
  /\ (forall k, k ∉ settings.*1 -> dict_get table k = dict_get defaults k).
Proof.
  intros Hnodup defaults table. subst defaults table.
  unfold ManufactureParameters.final_parameters_of. cbv zeta.
  split; [reflexivity|]. split; [|split].
  - rewrite settings_keys by done. reflexivity.
  - intros k v Hin. by apply settings_value.
  - intros k Hk. by apply dict_get_settings.
Qed.

Lemma machine_settings_keep_the_key_order_witness :
  NoDup [("CONTOUR SPEED", PInt 900); ("SPOT SIZE", PFloat 0.06); ("MINX", PInt 0)].*1
  /\ (ManufactureParameters.final_parameters_of "fin" 4 0.03
        (Some [("CONTOUR SPEED", PInt 900); ("SPOT SIZE", PFloat 0.06); ("MINX", PInt 0)])).*1
     = parameter_keys ++ ["SPOT SIZE"]
  /\ dict_get (ManufactureParameters.final_parameters_of "fin" 4 0.03
                 (Some [("CONTOUR SPEED", PInt 900); ("SPOT SIZE", PFloat 0.06); ("MINX", PInt 0)]))
       "CONTOUR SPEED" = Some (PInt 900)
  /\ dict_get (ManufactureParameters.final_parameters_of "fin" 4 0.03
                 (Some [("CONTOUR SPEED", PInt 900); ("SPOT SIZE", PFloat 0.06); ("MINX", PInt 0)]))
       "MAXX" = Some (PFloat 7.9).
Proof.
  assert (Hnodup : NoDup [("CONTOUR SPEED", PInt 900); ("SPOT SIZE", PFloat 0.06);
                          ("MINX", PInt 0)].*1).
  { apply (bool_decide_unpack _). vm_compute. exact I. }
  destruct (machine_settings_keep_the_key_order "fin" 4 0.03
              [("CONTOUR SPEED", PInt 900); ("SPOT SIZE", PFloat 0.06); ("MINX", PInt 0)] Hnodup)
    as (_ & Hkeys & Hset & Hkept).
  split; [exact Hnodup|]. split; [|split].
  - rewrite Hkeys. vm_compute. reflexivity.
  - apply Hset. apply list_elem_of_In. simpl. auto.
  - rewrite Hkept; [reflexivity|].
    apply (bool_decide_unpack _). vm_compute. exact I.
Defined.
(** ** Loops over the files of a folder *)

Lemma for_each_for_fold {S A} (xs : list A) (body : A -> St S unit) (s : S) :
  for_each xs body s = for_fold xs (fun x _ => body x) tt s.
Proof.
  revert s. induction xs as [|x xs IH]; intros s; [done|].
  cbn [for_each for_fold]. unfold bind.
  destruct (body x s) as [[[]|e] s']; [apply IH | done].
Qed.

Lemma last_cons_filter {A} (P : A -> Prop) `{!forall x, Decision (P x)} (a : A) (l : list A) :
  last (filter P (a :: l))
  = match last (filter P l) with
    | Some y => Some y
    | None => if decide (P a) then Some a else None
    end.
Proof.
  rewrite filter_cons. destruct (decide (P a)); [|by destruct (last (filter P l))].
  destruct (filter P l) as [|b l']; [done|]. rewrite last_cons.
  by destruct (last (b :: l')).
Qed.

Section batch_loop.
Context {A B : Type} (body : A -> B -> IO B).
Context (Inv : world -> Prop).
Context (target : A -> path) (content : A -> option string).

(** After the loop every file holds what the last turn that wrote it left. *)
Lemma batch_loop_spec (Hturn : turn_writes body Inv target content) (xs : list A) :
  forall b w, Inv w ->
    exists b' w',
      for_fold xs body b w = (Ok b', w') /\ Inv w'
      /\ holds_last_writes target content xs w w'.
Proof.
  unfold holds_last_writes.
  induction xs as [|a rest IH]; intros b w Hinv.
  - exists b, w. repeat split; done.
  - destruct (Hturn a b w Hinv) as (b1 & w1 & Hrun1 & Hinv1 & Hfiles1).
    destruct (IH b1 w1 Hinv1) as (b' & w' & Hrun & Hinv' & Hfiles).
    exists b', w'. split; [|split; [done|]].
    + cbn [for_fold]. by erewrite bind_Ok by exact Hrun1.
    + intros p. rewrite Hfiles, last_cons_filter.
      destruct (last (filter (written_by target content p) rest)) as [y|]; [done|].
      rewrite Hfiles1.
      destruct (decide (written_by target content p a)) as [[Ht Hc]|Hn].
      * subst p. rewrite decide_True by done. destruct Hc as [c Hc]. by rewrite Hc.
      * destruct (decide (p = target a)) as [->|Hne]; [|done].
        destruct (content a) as [c|] eqn:Hc; [|done].
        exfalso. apply Hn. split; [done | rewrite Hc; eauto].
Qed.

(** A file that changed was written by some turn. *)
Lemma batch_loop_frame (xs : list A) (p : path) (w w' : world) :
  holds_last_writes target content xs w w' ->
  lookup_file p w' <> lookup_file p w ->
  exists x, x ∈ xs /\ target x = p /\ is_Some (content x).
Proof.
  intros Hfiles Hchanged. rewrite Hfiles in Hchanged.
  destruct (last (filter (written_by target content p) xs)) as [x|] eqn:Hlast; [|done].
  apply last_Some in Hlast as [l' Hl'].
  assert (Hin : x ∈ filter (written_by target content p) xs).
  { rewrite Hl'. apply elem_of_app. right. by left. }
  apply list_elem_of_filter in Hin as [[Ht Hc] Hin]. eauto.
Qed.

(** A turn no other turn shares its file with leaves its text there. *)
Lemma batch_loop_content (xs : list A) (x : A) (c : string) (w w' : world) :
  holds_last_writes target content xs w w' ->
  x ∈ xs -> content x = Some c ->
  (forall y, y ∈ xs -> target y = target x -> is_Some (content y) -> content y = Some c) ->
  lookup_file (target x) w' = Some c.
Proof.
  intros Hfiles Hin Hc Hunique. rewrite Hfiles.
  destruct (last (filter (written_by target content (target x)) xs)) as [y|] eqn:Hlast.
  - apply last_Some in Hlast as [l' Hl'].
    assert (Hy : y ∈ filter (written_by target content (target x)) xs).
    { rewrite Hl'. apply elem_of_app. right. by left. }
    apply list_elem_of_filter in Hy as [[Ht Hsome] Hy]. by apply Hunique.
  - apply last_None in Hlast.
    assert (Hx : x ∈ filter (written_by target content (target x)) xs).
    { apply list_elem_of_filter. split; [split; [done | eauto] | done]. }
    rewrite Hlast in Hx. by apply elem_of_nil in Hx.
Qed.

End batch_loop.

(** ** Folders *)

Lemma listed_dxf_files (entries : gmap string string) (f : string) :
  f ∈ sorted (filter (fun f => endswith (lower f) ".dxf") (map_to_list entries).*1)
  <-> is_Some (entries !! f) /\ is_dxf_name f = true.
Proof.
  unfold sorted. rewrite merge_sort_Permutation, list_elem_of_filter, list_elem_of_fmap.
  unfold is_dxf_name. split.
  - intros [Hdxf ([f' text] & -> & Hin)]. apply elem_of_map_to_list in Hin.
    split; [eauto | by apply Is_true_true].
  - intros [[text Htext] Hdxf]. split; [by apply Is_true_true|].
    exists (f, text). split; [done | by apply elem_of_map_to_list].
Qed.

Lemma unsorted_dxf_files (entries : gmap string string) (f : string) :
  f ∈ filter (fun f => endswith (lower f) ".dxf") (map_to_list entries).*1
  <-> is_Some (entries !! f) /\ is_dxf_name f = true.
Proof.
  rewrite list_elem_of_filter, list_elem_of_fmap.
  unfold is_dxf_name. split.
  - intros [Hdxf ([f' text] & -> & Hin)]. apply elem_of_map_to_list in Hin.
    split; [eauto | by apply Is_true_true].
  - intros [[text Htext] Hdxf]. split; [by apply Is_true_true|].
    exists (f, text). split; [done | by apply elem_of_map_to_list].
Qed.

Lemma no_dxf_files (entries : gmap string string) :
  sorted (filter (fun f => endswith (lower f) ".dxf") (map_to_list entries).*1) = []
  <-> forall f, is_Some (entries !! f) -> is_dxf_name f = false.
Proof.
  split.
  - intros Hnil f Hf. destruct (is_dxf_name f) eqn:Hdxf; [|done].
    assert (Hin : f ∈ sorted (filter (fun f => endswith (lower f) ".dxf")
                                (map_to_list entries).*1))
      by (by apply listed_dxf_files).
    rewrite Hnil in Hin. by apply elem_of_nil in Hin.
  - intros Hnone.
    destruct (sorted (filter (fun f => endswith (lower f) ".dxf") (map_to_list entries).*1))
      as [|f l] eqn:Hl; [done|].
    assert (Hin : f ∈ sorted (filter (fun f => endswith (lower f) ".dxf")
                                (map_to_list entries).*1))
      by (rewrite Hl; by left).
    apply listed_dxf_files in Hin as [Hf Hdxf]. rewrite (Hnone f Hf) in Hdxf. done.
Qed.

Lemma mkdir_p_lookup (d : string) (w : world) (p : path) :
  lookup_file p (mkdir_p d w).2 = lookup_file p w.
Proof.
  destruct (mkdir_p_spec d w) as (w0 & Hmk & _ & _ & _ & Hsome & Hnone). rewrite Hmk. simpl.
  destruct (lookup_file p w) as [c|] eqn:Hp; [rewrite Hsome; eauto | by apply Hnone].
Qed.

Lemma mkdir_p_fs (d d' : string) (w : world) :
  is_Some (fs w !! d') -> fs (mkdir_p d w).2 !! d' = fs w !! d'.
Proof.
  intros [entries Hd']. unfold mkdir_p, modify. simpl.
  destruct (fs w !! d) eqn:Hd; [done|]. simpl.
  rewrite lookup_insert_ne; [done|]. intros ->. congruence.
Qed.

Lemma put_file_fs_ne (f : path) (c : string) (w : world) (d : string) :
  d <> parent f -> fs (put_file f c w) !! d = fs w !! d.
Proof. intros Hne. unfold put_file. simpl. by rewrite lookup_insert_ne. Qed.

Lemma put_file_fs_some (f : path) (c : string) (w : world) (d : string) :
  is_Some (fs w !! d) -> is_Some (fs (put_file f c w) !! d).
Proof.
  intros Hd. unfold put_file. simpl.
  destruct (decide (parent f = d)) as [<-|Hne]; [rewrite lookup_insert_eq; eauto|].
  by rewrite lookup_insert_ne.
Qed.

Lemma lookup_file_put_file_cases (f p : path) (c : string) (w : world) :
  lookup_file p (put_file f c w) = if decide (p = f) then Some c else lookup_file p w.
Proof.
  case_decide as Hp; [subst; apply lookup_file_put_file|].
  apply lookup_file_put_file_ne. congruence.
Qed.

Lemma lookup_file_in_folder (d f : string) (entries : gmap string string) (w : world) :
  fs w !! d = Some entries -> lookup_file (joinpath d f) w = entries !! f.
Proof. intros Hd. unfold lookup_file, joinpath. simpl. by rewrite Hd. Qed.
(** ** The batch conversion to the machine format *)

Section batch_convert.
Context `{!Ezdxf, !PathLib}.

Lemma readfile_in_folder (d f : string) (entries : gmap string string) (w : world) :
  fs w !! d = Some entries ->
  (readfile (joinpath d f) w).1
  = match entries !! f with
    | Some text => ezdxf_load text
    | None => Raise (Exn FileNotFoundError (path_str (joinpath d f)))
    end.
Proof.
  intros Hd. unfold readfile, bind, read_text, lift.
  rewrite (lookup_file_in_folder d f entries) by done.
  by destruct (entries !! f).
Qed.

Lemma convert_turn (clean machine : string) (entries : gmap string string) :
  clean <> machine ->
  turn_writes
    (fun filename (_ : unit) =>
       GeometryProcessing.convert_dxf_to_lines_only_machine_format
         (joinpath clean filename) (GeometryProcessing.machine_file machine filename))
    (fun w => fs w !! clean = Some entries)
    (GeometryProcessing.machine_file machine)
    (fun filename => entries !! filename ≫= machine_text_of).
Proof.
  intros Hne filename [] w Hinv.
  pose proof (convert_runs (joinpath clean filename)
                (GeometryProcessing.machine_file machine filename) w) as Hrun.
  rewrite (readfile_in_folder clean filename entries) in Hrun by done.
  unfold machine_text_of.
  destruct (entries !! filename) as [text|] eqn:Htext; cbn [mbind option_bind].
  - destruct (ezdxf_load text) as [doc|e] eqn:Hload.
    + destruct Hrun as (w0 & Hmk & Hrun). eexists tt, _. split; [exact Hrun|].
      assert (Hw0 : w0 = (mkdir_p (parent (GeometryProcessing.machine_file machine filename)) w).2)
        by (by rewrite Hmk).
      split.
      * rewrite put_file_fs_ne by (simpl; congruence).
        rewrite Hw0, mkdir_p_fs by eauto. done.
      * intros p. rewrite lookup_file_put_file_cases, Hw0, mkdir_p_lookup. done.
    + destruct Hrun as (message & Hrun). eexists tt, _. split; [exact Hrun|].
      split; [done|]. intros p. by case_decide.
  - destruct Hrun as (message & Hrun). eexists tt, _. split; [exact Hrun|].
    split; [done|]. intros p. by case_decide.
Qed.

(** X8: [convert_clean_dxfs_to_machine_format], on a clean folder that
    exists and is not the machine folder, returns normally and leaves the
    clean folder as it was; a file it changes is [machine_<stem>.dxf] of a
    [.dxf] entry that ezdxf reads; and for such an entry, when no other
    [.dxf] entry has the same machine file, that file holds the machine
    format of the segments the converter's loop extracts from the entry. *)
Theorem clean_files_become_machine_files (output_dxf_clean_folder output_txt_machine_folder : string)
    (w : world) (entries : gmap string string) :
  fs w !! output_dxf_clean_folder = Some entries ->
  output_dxf_clean_folder <> output_txt_machine_folder ->
  exists w',
    GeometryProcessing.convert_clean_dxfs_to_machine_format
      output_dxf_clean_folder output_txt_machine_folder w = (Ok tt, w')
    /\ fs w' !! output_dxf_clean_folder = Some entries
    /\ (forall p, lookup_file p w' <> lookup_file p w ->
          exists f text doc,
            entries !! f = Some text /\ is_dxf_name f = true /\ ezdxf_load text = Ok doc
            /\ p = GeometryProcessing.machine_file output_txt_machine_folder f)
    /\ (forall f text doc,
          entries !! f = Some text -> is_dxf_name f = true -> ezdxf_load text = Ok doc ->
          (forall f', is_Some (entries !! f') -> is_dxf_name f' = true ->
                      GeometryProcessing.machine_file output_txt_machine_folder f'
                      = GeometryProcessing.machine_file output_txt_machine_folder f ->
                      f' = f) ->
          lookup_file (GeometryProcessing.machine_file output_txt_machine_folder f) w'
          = Some (machine_text
                    (map xyxy_of (GeometryProcessing.all_line_segments_of (msp doc))))).
Proof.
  intros Hfolder Hne.
  unfold GeometryProcessing.convert_clean_dxfs_to_machine_format.
  erewrite bind_Ok by reflexivity.
  erewrite bind_Ok by (unfold listdir; cbn [fs]; rewrite Hfolder; reflexivity).
  cbv zeta.
  set (files := sorted (filter (fun f => endswith (lower f) ".dxf") (map_to_list entries).*1)).
  set (w1 := World (fs w) _ (errlog w)).
  destruct (bool_decide (files = [])) eqn:Hempty.
  - apply bool_decide_eq_true in Hempty.
    eexists. split; [reflexivity|]. cbn [fs]. split; [done|]. split; [done|].
    intros f text doc Htext Hdxf _ _. exfalso.
    assert (Hin : f ∈ files) by (apply listed_dxf_files; eauto).
    rewrite Hempty in Hin. by apply elem_of_nil in Hin.
  - erewrite bind_Ok by reflexivity.
    set (w2 := World (fs w1) _ (errlog w1)).
    destruct (batch_loop_spec _ _ _ _ (convert_turn _ _ entries Hne) files tt w2 Hfolder)
      as ([] & w3 & Hloop & Hinv & Hfiles).
    erewrite bind_Ok by (rewrite for_each_for_fold; exact Hloop).
    eexists. split; [reflexivity|]. cbn [fs]. split; [done|]. split.
    + intros p Hchanged.
      destruct (batch_loop_frame _ _ files p w2 w3 Hfiles Hchanged) as (f & Hin & Htarget & Hsome).
      apply listed_dxf_files in Hin as [[text Htext] Hdxf].
      rewrite Htext in Hsome. cbn [mbind option_bind] in Hsome. unfold machine_text_of in Hsome.
      destruct (ezdxf_load text) as [doc|e] eqn:Hload; [|by destruct Hsome].
      exists f, text, doc. done.
    + intros f text doc Htext Hdxf Hload Hunique.
      apply (batch_loop_content _ _ files f _ w2 w3 Hfiles).
      * apply listed_dxf_files. eauto.
      * rewrite Htext. cbn [mbind option_bind]. unfold machine_text_of. by rewrite Hload.
      * intros f' Hin' Htarget' _.
        apply listed_dxf_files in Hin' as [Hf' Hdxf'].
        rewrite (Hunique f' Hf' Hdxf' Htarget').
        rewrite Htext. cbn [mbind option_bind]. unfold machine_text_of. by rewrite Hload.
Qed.

(** X9: [convert_clean_dxfs_to_machine_format] on a clean folder that
    is missing raises the FileNotFoundError of [os.listdir] after its banner;
    on a clean folder without [.dxf] entry it prints the banner and one
    message, and returns with the disk as it was. *)
Theorem nothing_to_convert (output_dxf_clean_folder output_txt_machine_folder : string)
    (w : world) :
  let banner := nl +:+ "--- Converting Clean DXFs to Machine Format (.dxf simplified) ---" in
  match fs w !! output_dxf_clean_folder with
  | None =>
      exists e,
        GeometryProcessing.convert_clean_dxfs_to_machine_format
          output_dxf_clean_folder output_txt_machine_folder w
        = (Raise e, World (fs w) (stdout w ++ [banner]) (errlog w))
        /\ exn_type e = FileNotFoundError
  | Some entries =>
      (forall f, is_Some (entries !! f) -> is_dxf_name f = false) ->
      GeometryProcessing.convert_clean_dxfs_to_machine_format
        output_dxf_clean_folder output_txt_machine_folder w
      = (Ok tt,
         World (fs w)
           (stdout w ++ [banner;
                         "No 'clean' DXF files found in '" +:+ output_dxf_clean_folder
                         +:+ "'. Skipping conversion to machine format."])
           (errlog w))
  end.
Proof.
  intros banner. unfold GeometryProcessing.convert_clean_dxfs_to_machine_format.
  destruct (fs w !! output_dxf_clean_folder) as [entries|] eqn:Hfolder.
  - intros Hnone. apply no_dxf_files in Hnone.
    erewrite bind_Ok by reflexivity.
    erewrite bind_Ok by (unfold listdir; cbn [fs]; rewrite Hfolder; reflexivity).
    cbv zeta. rewrite Hnone. rewrite bool_decide_eq_true_2 by done.
    unfold print, modify. cbn [fs stdout errlog]. by rewrite <- app_assoc.
  - eexists. split.
    + erewrite bind_Ok by reflexivity.
      erewrite bind_Raise by (unfold listdir; cbn [fs]; rewrite Hfolder; reflexivity).
      reflexivity.
    + reflexivity.
Qed.

End batch_convert.

Lemma raw_entries_listed (f : string) :
  is_Some (({[ "tri.dxf" := "triangle"; "mix.DXF" := "mixed"; "bad.dxf" := "junk";
               "notes.md" := "n"; "l.txt" := "locked" ]} : gmap string string) !! f) ->
  f ∈ ["tri.dxf"; "mix.DXF"; "bad.dxf"; "notes.md"; "l.txt"].
Proof.
  intros [text Hf].
  rewrite !lookup_insert_Some, lookup_singleton_Some in Hf.
  apply list_elem_of_In. simpl. intuition.
Qed.

Lemma clean_files_become_machine_files_witness :
  fs Examples.disk !! "raw"
  = Some {[ "tri.dxf" := "triangle"; "mix.DXF" := "mixed"; "bad.dxf" := "junk";
            "notes.md" := "n"; "l.txt" := "locked" ]}
  /\ "raw" <> "out"
  /\ exists w',
       @GeometryProcessing.convert_clean_dxfs_to_machine_format Examples.ezdxf Examples.pathlib
         "raw" "out" Examples.disk = (Ok tt, w')
       /\ lookup_file (Path "out" "machine_tri.dxf") w'
          = Some (machine_text
                    (map xyxy_of (GeometryProcessing.all_line_segments_of Examples.triangle))).
Proof.
  assert (Hfolder : fs Examples.disk !! "raw"
                    = Some {[ "tri.dxf" := "triangle"; "mix.DXF" := "mixed"; "bad.dxf" := "junk";
                              "notes.md" := "n"; "l.txt" := "locked" ]})
    by (vm_compute; reflexivity).
  assert (Hne : "raw" <> "out") by discriminate.
  split; [exact Hfolder|]. split; [exact Hne|].
  destruct (@clean_files_become_machine_files Examples.ezdxf Examples.pathlib
              "raw" "out" Examples.disk _ Hfolder Hne) as (w' & Hrun & _ & _ & Hcontent).
  exists w'. split; [exact Hrun|].
  apply (Hcontent "tri.dxf" "triangle" (Document "R2010" Examples.triangle)).
  - vm_compute. reflexivity.
  - vm_compute. reflexivity.
  - vm_compute. reflexivity.
  - intros f' Hf' _ Hsame. apply raw_entries_listed in Hf'.
    apply list_elem_of_In in Hf'. simpl in Hf'.
    destruct Hf' as [<-|[<-|[<-|[<-|[<-|[]]]]]]; try reflexivity;
      vm_compute in Hsame; discriminate Hsame.
Defined.

Lemma nothing_to_convert_witness :
  (fs Examples.disk !! "nowhere" = None
   /\ exists e,
        @GeometryProcessing.convert_clean_dxfs_to_machine_format Examples.ezdxf Examples.pathlib
          "nowhere" "out" Examples.disk
        = (Raise e, World (fs Examples.disk)
                      [nl +:+ "--- Converting Clean DXFs to Machine Format (.dxf simplified) ---"]
                      [])
        /\ exn_type e = FileNotFoundError)
  /\ (fs Examples.disk !! "empty" = Some ∅
      /\ @GeometryProcessing.convert_clean_dxfs_to_machine_format Examples.ezdxf Examples.pathlib
           "empty" "out" Examples.disk
         = (Ok tt,
            World (fs Examples.disk)
              [nl +:+ "--- Converting Clean DXFs to Machine Format (.dxf simplified) ---";
               "No 'clean' DXF files found in 'empty'. Skipping conversion to machine format."]
              [])).
Proof.
  split.
  - assert (Hfolder : fs Examples.disk !! "nowhere" = None) by (vm_compute; reflexivity).
    split; [exact Hfolder|].
    pose proof (@nothing_to_convert Examples.ezdxf Examples.pathlib "nowhere" "out" Examples.disk)
      as Hrun.
    cbv zeta in Hrun. rewrite Hfolder in Hrun. exact Hrun.
  - assert (Hfolder : fs Examples.disk !! "empty" = Some ∅) by (vm_compute; reflexivity).
    split; [exact Hfolder|].
    pose proof (@nothing_to_convert Examples.ezdxf Examples.pathlib "empty" "out" Examples.disk)
      as Hrun.
    cbv zeta in Hrun. rewrite Hfolder in Hrun. apply Hrun.
    intros f [text Hf]. by rewrite lookup_empty in Hf.
Defined.
(** ** Names and their endings *)

Lemma string_length_app (a b : string) :
  String.length (a +:+ b) = (String.length a + String.length b)%nat.
Proof. induction a as [|c a IH]; [done|]. cbn. by rewrite <- IH. Qed.

Lemma lower_app (a b : string) : lower (a +:+ b) = lower a +:+ lower b.
Proof.
  induction a as [|c a IH]; [done|].
  change (String c a +:+ b) with (String c (a +:+ b)). cbn [lower]. by rewrite IH.
Qed.

Lemma lower_length (a : string) : String.length (lower a) = String.length a.
Proof. induction a as [|c a IH]; [done|]. cbn. by rewrite IH. Qed.

Lemma substring_skip (a b : string) (n : nat) :
  substring (String.length a) n (a +:+ b) = substring 0 n b.
Proof. induction a as [|c a IH]; [done|]. exact IH. Qed.

Lemma substring_all (b : string) : substring 0 (String.length b) b = b.
Proof. induction b as [|c b IH]; [done|]. cbn. by rewrite IH. Qed.

Lemma endswith_app (a b : string) : endswith (a +:+ b) b = true.
Proof.
  unfold endswith. rewrite string_length_app.
  replace (String.length a + String.length b - String.length b)%nat with (String.length a) by lia.
  rewrite substring_skip, substring_all, String.eqb_refl.
  rewrite andb_true_r. apply Nat.leb_le. lia.
Qed.

Lemma substring_split (s : string) (n : nat) :
  (n <= String.length s)%nat ->
  s = substring 0 n s +:+ substring n (String.length s - n) s.
Proof.
  revert n. induction s as [|c s IH]; intros n Hn.
  - by destruct n.
  - destruct n as [|n].
    + cbn [substring]. change (String.length (String c s) - 0)%nat with (S (String.length s)).
      cbn [substring]. by rewrite substring_all.
    + cbn in Hn. cbn [substring String.length Nat.sub].
      change (String c (substring 0 n s) +:+ ?t) with (String c (substring 0 n s +:+ t)).
      f_equal. apply IH. lia.
Qed.

Lemma endswith_split (s suffix : string) :
  endswith s suffix = true -> exists prefix, s = prefix +:+ suffix.
Proof.
  unfold endswith. intros [Hlen Heq]%andb_true_iff.
  apply Nat.leb_le in Hlen. apply String.eqb_eq in Heq.
  exists (substring 0 (String.length s - String.length suffix) s).
  pose proof (substring_split s (String.length s - String.length suffix)) as Hsplit.
  replace (String.length s - (String.length s - String.length suffix))%nat
    with (String.length suffix) in Hsplit by lia.
  rewrite Heq in Hsplit. apply Hsplit. lia.
Qed.

(** The last character of a name. *)
Lemma last_char_snoc (b : string) (c : ascii) :
  last (list_ascii_of_string (b +:+ String c "")) = Some c.
Proof.
  induction b as [|y b IHb]; [done|].
  change (String y b +:+ String c "") with (String y (b +:+ String c "")).
  cbn [list_ascii_of_string]. by rewrite last_cons, IHb.
Qed.

Lemma last_char_app (a b : string) (c : ascii) :
  last (list_ascii_of_string (a +:+ b +:+ String c "")) = Some c.
Proof. rewrite <- string_app_assoc. apply last_char_snoc. Qed.

Lemma lower_last (s : string) :
  last (list_ascii_of_string (lower s)) = lower_char <$> last (list_ascii_of_string s).
Proof.
  induction s as [|c s IH]; [done|].
  cbn [lower list_ascii_of_string]. rewrite !last_cons, IH.
  by destruct (last (list_ascii_of_string s)).
Qed.

(** A name that ends with [.dxf], whatever the case, is not a name that ends
    with [.stl]. *)
Lemma dxf_name_is_no_stl_name (prefix f stl_stem : string) :
  is_dxf_name f = true -> prefix +:+ f <> stl_stem +:+ ".stl".
Proof.
  unfold is_dxf_name. intros [pre Hpre]%endswith_split Heq.
  assert (Hlast : last (list_ascii_of_string (lower (prefix +:+ f))) = Some "f"%char).
  { rewrite lower_app, Hpre.
    change ".dxf" with (".dx" +:+ String "f" "").
    rewrite <- string_app_assoc. apply (last_char_app (lower prefix +:+ pre) ".dx"). }
  rewrite Heq, lower_app in Hlast.
  change (lower ".stl") with ("" +:+ ".st" +:+ String "l" "") in Hlast.
  rewrite <- string_app_assoc in Hlast.
  change ((lower stl_stem +:+ "") +:+ ".st" +:+ String "l" "")
    with ((lower stl_stem +:+ "") +:+ (".st" +:+ String "l" "")) in Hlast.
  rewrite (last_char_app (lower stl_stem +:+ "") ".st") in Hlast. discriminate Hlast.
Qed.

Lemma parameters_file_is_a_layer_file (part_name : string) :
  is_layer_file (part_name +:+ "_auto_machine_parameters.txt") = true.
Proof.
  unfold is_layer_file, endswith_any. cbn [existsb].
  rewrite lower_app.
  change (lower "_auto_machine_parameters.txt") with ("_auto_machine_parameters" +:+ ".txt").
  rewrite <- string_app_assoc, endswith_app. apply orb_true_r.
Qed.
(** ** Cleaning the raw DXFs *)

Section cleaning.
Context `{!Ezdxf, !PyFloat, !Trimesh}.

Lemma saveas_spec (doc : document) (p : path) (w : world) :
  is_Some (fs w !! parent p) -> saveas doc p w = (Ok tt, put_file p (ezdxf_dump doc) w).
Proof.
  intros Hdir. unfold saveas. erewrite bind_Ok by exact (open_w_spec _ _ Hdir).
  rewrite (f_write_spec _ "") by apply lookup_file_put_file.
  by rewrite put_file_put_file.
Qed.

Lemma saveas_missing (doc : document) (p : path) (w : world) :
  fs w !! parent p = None -> saveas doc p w = (Raise (Exn FileNotFoundError (path_str p)), w).
Proof. intros Hdir. unfold saveas. apply bind_Raise. unfold open_w. by rewrite Hdir. Qed.

Lemma create_simplified_runs (segments : list segment) (p : path) (w : world) :
  Forall well_shaped segments ->
  is_Some (fs w !! parent p) ->
  GeometryProcessing.create_simplified_dxf_for_laser segments p w
  = (Ok tt, put_file p (ezdxf_dump (Document "AC1009" (map rounded_line (map xyxy_of segments)))) w).
Proof.
  intros Hshape Hdir. unfold GeometryProcessing.create_simplified_dxf_for_laser.
  rewrite <- (map_seg_of_xyxy_of segments) at 1 by done.
  erewrite bind_Ok by (unfold with_state; rewrite simplified_msp_spec; reflexivity).
  cbv beta iota zeta. apply try_Ok. by apply saveas_spec.
Qed.

Lemma extrude_layer_runs (dxf_file : string) (line_segments_2d : list segment) (z_offset : float)
    (w : world) :
  exists meshes w',
    GeometryProcessing.extrude_layer dxf_file line_segments_2d z_offset w = (Ok meshes, w')
    /\ fs w' = fs w /\ stdout w' = stdout w.
Proof.
  unfold GeometryProcessing.extrude_layer. generalize (@nil Solid). revert w.
  induction line_segments_2d as [|segment_2d rest IH]; intros w acc.
  - exists acc, w. done.
  - cbn [for_fold].
    destruct (length segment_2d <? 2)%nat.
    + erewrite bind_Ok by reflexivity. apply IH.
    + destruct (GeometryProcessing.extrude_segment segment_2d z_offset acc) as [[[]|e] acc'].
      * erewrite bind_Ok by reflexivity. apply IH.
      * erewrite bind_Ok by reflexivity.
        destruct (IH (World (fs w) (stdout w) (errlog w ++ ["Error extruding line segment in "
                     +:+ dxf_file +:+ " for STL: " +:+ exn_text e])) acc')
          as (meshes & w' & Hrun & Hfs & Hout).
        exists meshes, w'. done.
Qed.

Lemma clean_turn (raw clean : string) (entries : gmap string string) (Keeps : world -> Prop) :
  raw <> clean ->
  (forall w1 w2 : world,
      (forall d, is_Some (fs w1 !! d) -> is_Some (fs w2 !! d)) -> Keeps w1 -> Keeps w2) ->
  turn_writes
    (GeometryProcessing.clean_one_layer raw clean)
    (fun w => fs w !! raw = Some entries /\ is_Some (fs w !! clean) /\ Keeps w)
    (fun dxf_file => joinpath clean ("clean_" +:+ dxf_file))
    (fun dxf_file => entries !! dxf_file ≫= clean_text_of).
Proof.
  intros Hne Hkeeps dxf_file [all_meshes z_offset] w (Hraw & Hclean & Hkept).
  unfold GeometryProcessing.clean_one_layer.
  destruct (get_line_segments_from_dxf_returns (joinpath raw dxf_file) w)
    as (segments & w1 & Hget & Hfs1 & _ & Hsegments).
  rewrite (readfile_in_folder raw dxf_file entries) in Hsegments by done.
  erewrite bind_Ok by exact Hget.
  assert (Hcontent :
            entries !! dxf_file ≫= clean_text_of
            = if bool_decide (segments = []) then None
              else Some (ezdxf_dump (Document "AC1009" (map rounded_line (map xyxy_of segments))))).
  { unfold clean_text_of. destruct (entries !! dxf_file) as [text|]; cbn [mbind option_bind].
    - destruct (ezdxf_load text) as [doc|e].
      + destruct Hsegments as [-> _]. reflexivity.
      + destruct Hsegments as [-> _]. reflexivity.
    - destruct Hsegments as [-> _]. reflexivity. }
  assert (Hshape : Forall well_shaped segments).
  { destruct (entries !! dxf_file) as [text|]; [destruct (ezdxf_load text)|];
      destruct Hsegments as [-> _]; try constructor.
    apply line_segments_of_shape. }
  rewrite Hcontent.
  destruct (bool_decide (segments = [])) eqn:Hempty.
  - unfold bind, print, modify, ret. eexists _, _. split; [reflexivity|]. cbn [fs]. rewrite Hfs1.
    split; [split; [done|split; [done|]]|].
    + apply (Hkeeps w); [|done]. intros d Hd. exact Hd.
    + intros p. unfold lookup_file. cbn [fs]. by case_decide.
  - assert (Hclean1 : is_Some (fs w1 !! parent (joinpath clean ("clean_" +:+ dxf_file))))
      by (by rewrite Hfs1).
    erewrite bind_Ok by (by apply create_simplified_runs).
    set (w2 := put_file _ _ w1).
    destruct (extrude_layer_runs dxf_file segments z_offset w2) as (meshes & w3 & Hrun & Hfs3 & _).
    erewrite bind_Ok by exact Hrun.
    eexists _, _. split; [reflexivity|].
    split; [split; [|split]|].
    + rewrite Hfs3. subst w2. rewrite put_file_fs_ne by (simpl; congruence). by rewrite Hfs1.
    + rewrite Hfs3. subst w2. apply put_file_fs_some. by rewrite Hfs1.
    + apply (Hkeeps w); [|done]. intros d Hd. rewrite Hfs3. subst w2.
      apply put_file_fs_some. by rewrite Hfs1.
    + intros p. unfold lookup_file at 1. rewrite Hfs3.
      change (fs w2 !! parent p ≫= (fun entries => entries !! name p)) with (lookup_file p w2).
      subst w2. rewrite lookup_file_put_file_cases.
      case_decide; [done|]. unfold lookup_file. by rewrite Hfs1.
Qed.

End cleaning.

(** ** The cleaning step as a whole *)

Lemma string_app_inj_l (a b c : string) : a +:+ b = a +:+ c -> b = c.
Proof.
  induction a as [|x a IH]; [done|].
  change (String x a +:+ ?t) with (String x (a +:+ t)). intros [= Heq]. by apply IH.
Qed.

Lemma batch_loop_exact {A} (target : A -> path) (content : A -> option string)
    (xs : list A) (x : A) (w w' : world) :
  holds_last_writes target content xs w w' ->
  x ∈ xs ->
  (forall y, y ∈ xs -> target y = target x -> y = x) ->
  lookup_file (target x) w'
  = match content x with Some c => Some c | None => lookup_file (target x) w end.
Proof.
  intros Hfiles Hin Hinj. rewrite Hfiles.
  destruct (last (filter (written_by target content (target x)) xs)) as [y|] eqn:Hlast.
  - apply last_Some in Hlast as [l' Hl'].
    assert (Hy : y ∈ filter (written_by target content (target x)) xs).
    { rewrite Hl'. apply elem_of_app. right. by left. }
    apply list_elem_of_filter in Hy as [[Ht [c Hc]] Hy].
    rewrite (Hinj y Hy Ht) in Hc |- *. by rewrite Hc.
  - apply last_None in Hlast.
    destruct (content x) as [c|] eqn:Hc; [|done].
    assert (Hx : x ∈ filter (written_by target content (target x)) xs).
    { apply list_elem_of_filter. split; [split; [done | rewrite Hc; eauto] | done]. }
    rewrite Hlast in Hx. by apply elem_of_nil in Hx.
Qed.

Section cleaning_step.
Context `{!Ezdxf, !PyFloat, !Trimesh}.

Lemma export_combined_touches (meshes : list Solid) (stl p : path) (w : world) :
  p <> stl ->
  lookup_file p (GeometryProcessing.export_combined meshes stl w).2 = lookup_file p w.
Proof.
  intros Hne. unfold GeometryProcessing.export_combined.
  destruct (fs w !! parent stl) as [entries|] eqn:Hdir.
  - erewrite bind_Ok by (apply open_w_spec; eauto).
    unfold bind, lift. destruct (concatenate_export meshes) as [bytes|e].
    + rewrite (f_write_spec stl "") by apply lookup_file_put_file.
      rewrite put_file_put_file. simpl. apply lookup_file_put_file_ne. congruence.
    + simpl. apply lookup_file_put_file_ne. congruence.
  - erewrite bind_Raise; [done|]. unfold open_w. by rewrite Hdir.
Qed.

Lemma export_combined_runs (meshes : list Solid) (stl : path) (w : world) (bytes : string) :
  is_Some (fs w !! parent stl) -> concatenate_export meshes = Ok bytes ->
  GeometryProcessing.export_combined meshes stl w = (Ok tt, put_file stl bytes w).
Proof.
  intros Hdir Hbytes. unfold GeometryProcessing.export_combined.
  erewrite bind_Ok by (by apply open_w_spec).
  unfold bind, lift. rewrite Hbytes.
  rewrite (f_write_spec stl "") by apply lookup_file_put_file.
  by rewrite put_file_put_file.
Qed.

(** X10: [clean_raw_dxfs_and_generate_stl], on a raw folder and a clean
    folder that exist and differ: for every [.dxf] entry of the raw folder,
    [clean_<name>] of the clean folder holds the clean DXF of the entry's
    segments (one LINE per segment, each coordinate through [round(_, 6)] of
    its runtime type: [numpy.float64] for the points of an LWPOLYLINE,
    [float] for those of a LINE), and is left as it was when ezdxf cannot
    read the entry or nothing is extracted; apart from the STL file, no
    other file changes;
    and the run returns normally when the root folder exists and trimesh
    exports every list of solids. *)
Theorem raw_files_become_clean_files
    (output_dxf_bruto_folder output_dxf_clean_folder output_root_folder : string)
    (model_name current_datetime_str : string) (w : world) (entries : gmap string string) :
  fs w !! output_dxf_bruto_folder = Some entries ->
  is_Some (fs w !! output_dxf_clean_folder) ->
  output_dxf_bruto_folder <> output_dxf_clean_folder ->
  let output_stl_path :=
    joinpath output_root_folder
      (model_name +:+ "_combined_cleaned_" +:+ current_datetime_str +:+ ".stl") in
  exists r w',
    GeometryProcessing.clean_raw_dxfs_and_generate_stl
      output_dxf_bruto_folder output_dxf_clean_folder output_root_folder
      model_name current_datetime_str w = (r, w')
    /\ (forall f text,
          entries !! f = Some text -> is_dxf_name f = true ->
          lookup_file (joinpath output_dxf_clean_folder ("clean_" +:+ f)) w'
          = match clean_text_of text with
            | Some c => Some c
            | None => lookup_file (joinpath output_dxf_clean_folder ("clean_" +:+ f)) w
            end)
    /\ (forall p,
          p <> output_stl_path -> lookup_file p w' <> lookup_file p w ->
          exists f text c,
            entries !! f = Some text /\ is_dxf_name f = true /\ clean_text_of text = Some c
            /\ p = joinpath output_dxf_clean_folder ("clean_" +:+ f))
    /\ (is_Some (fs w !! output_root_folder) ->
        (forall meshes, exists bytes, concatenate_export meshes = Ok bytes) ->
        r = Ok tt).
Proof.
  intros Hraw Hclean Hne output_stl_path.
  set (Inv := fun w' : world =>
                fs w' !! output_dxf_bruto_folder = Some entries
                /\ is_Some (fs w' !! output_dxf_clean_folder)
                /\ (is_Some (fs w !! output_root_folder)
                    -> is_Some (fs w' !! output_root_folder))).
  set (target := fun dxf_file => joinpath output_dxf_clean_folder ("clean_" +:+ dxf_file)).
  set (content := fun dxf_file : string => entries !! dxf_file ≫= clean_text_of).
  assert (Hnames : forall f, is_dxf_name f = true -> target f <> output_stl_path).
  { intros f Hdxf [= _ Heq]. revert Heq.
    rewrite <- !string_app_assoc. by apply dxf_name_is_no_stl_name. }
  assert (Hroot_kept : forall w1 w2 : world,
             (forall d, is_Some (fs w1 !! d) -> is_Some (fs w2 !! d)) ->
             (is_Some (fs w !! output_root_folder) -> is_Some (fs w1 !! output_root_folder)) ->
             is_Some (fs w !! output_root_folder) -> is_Some (fs w2 !! output_root_folder))
    by (intros w1' w2' Hgrow Hw1 Hroot; by apply Hgrow, Hw1).
  unfold GeometryProcessing.clean_raw_dxfs_and_generate_stl.
  erewrite bind_Ok by reflexivity.
  erewrite bind_Ok by (unfold listdir; cbn [fs]; rewrite Hraw; reflexivity).
  cbv zeta.
  set (files := sorted (filter (fun f => endswith (lower f) ".dxf") (map_to_list entries).*1)).
  set (w1 := World (fs w) _ (errlog w)).
  destruct (bool_decide (files = [])) eqn:Hempty.
  - apply bool_decide_eq_true in Hempty.
    eexists _, _. split; [reflexivity|]. split; [|split; [|done]].
    + intros f text Htext Hdxf. exfalso.
      assert (Hin : f ∈ files) by (apply listed_dxf_files; eauto).
      rewrite Hempty in Hin. by apply elem_of_nil in Hin.
    + intros p _ Hchanged. by destruct Hchanged.
  - erewrite bind_Ok by reflexivity.
    set (w2 := World (fs w1) _ (errlog w1)).
    destruct (batch_loop_spec _ Inv target content
                (clean_turn output_dxf_bruto_folder output_dxf_clean_folder entries
                   (fun w' => is_Some (fs w !! output_root_folder)
                              -> is_Some (fs w' !! output_root_folder))
                   Hne Hroot_kept)
                files ([], 0%float) w2 (conj Hraw (conj Hclean (fun H => H))))
      as ([all_meshes z_offset] & w3 & Hloop & (_ & _ & Hroots) & Hfiles).
    erewrite bind_Ok by exact Hloop. cbv beta iota.
    (* what the tail of the function leaves *)
    assert (Htail : exists r w',
               ((if bool_decide (all_meshes = [])
                 then print "No 3D solid created from DXF files for STL (possibly due to empty layers)."
                 else
                   GeometryProcessing.export_combined all_meshes output_stl_path ;;
                   print (nl +:+ "3D Model '" +:+ name output_stl_path
                          +:+ "' successfully generated at: " +:+ path_str output_stl_path)) ;;
                print (nl +:+ "DXF cleaning process completed.")) w3 = (r, w')
               /\ (forall p, p <> output_stl_path -> lookup_file p w' = lookup_file p w3)
               /\ (is_Some (fs w3 !! output_root_folder) ->
                   (forall meshes, exists bytes, concatenate_export meshes = Ok bytes) ->
                   r = Ok tt)).
    { destruct (bool_decide (all_meshes = [])).
      - eexists _, _. split; [reflexivity|]. split; [done|done].
      - pose proof (export_combined_touches all_meshes output_stl_path) as Htouch.
        destruct (GeometryProcessing.export_combined all_meshes output_stl_path w3)
          as [[[]|e] w4] eqn:Hexport.
        + eexists _, _. split.
          * erewrite bind_Ok by (erewrite bind_Ok by exact Hexport; reflexivity). reflexivity.
          * split; [|done]. intros p Hp. specialize (Htouch p w3 Hp).
            rewrite Hexport in Htouch. exact Htouch.
        + eexists _, _. split.
          * erewrite bind_Raise by (erewrite bind_Raise by exact Hexport; reflexivity). reflexivity.
          * split.
            -- intros p Hp. specialize (Htouch p w3 Hp). rewrite Hexport in Htouch. exact Htouch.
            -- intros Hroot Htotal. destruct (Htotal all_meshes) as [bytes Hbytes].
               rewrite (export_combined_runs all_meshes output_stl_path w3 bytes) in Hexport
                 by done.
               discriminate Hexport. }
    destruct Htail as (r & w' & Hrun & Hkept & Hok).
    exists r, w'. split; [exact Hrun|]. split; [|split].
    + intros f text Htext Hdxf.
      change (joinpath output_dxf_clean_folder ("clean_" +:+ f)) with (target f).
      rewrite Hkept by (by apply Hnames).
      rewrite (batch_loop_exact target content files f w2 w3 Hfiles).
      * unfold content. rewrite Htext. reflexivity.
      * apply listed_dxf_files. eauto.
      * intros f' _ [= Heq]. by apply string_app_inj_l in Heq.
    + intros p Hp Hchanged. rewrite Hkept in Hchanged by done.
      destruct (batch_loop_frame target content files p w2 w3 Hfiles Hchanged)
        as (f & Hin & Htarget & Hsome).
      apply listed_dxf_files in Hin as [[text Htext] Hdxf].
      unfold content in Hsome. rewrite Htext in Hsome. destruct Hsome as [c Hc].
      exists f, text, c. done.
    + intros Hroot. apply Hok. by apply Hroots.
Qed.

End cleaning_step.

Lemma raw_files_become_clean_files_witness :
  fs Examples.disk !! "raw"
  = Some {[ "tri.dxf" := "triangle"; "mix.DXF" := "mixed"; "bad.dxf" := "junk";
            "notes.md" := "n"; "l.txt" := "locked" ]}
  /\ is_Some (fs Examples.disk !! "empty")
  /\ "raw" <> "empty"
  /\ exists w',
       @GeometryProcessing.clean_raw_dxfs_and_generate_stl
         Examples.ezdxf Examples.pyfloat Examples.trimesh
         "raw" "empty" "empty" "fin" "202611031200" Examples.disk = (Ok tt, w')
       /\ lookup_file (Path "empty" "clean_tri.dxf") w' = Some "dxf with 3 entities"
       /\ lookup_file (Path "empty" "clean_bad.dxf") w' = None.
Proof.
  assert (Hraw : fs Examples.disk !! "raw"
                 = Some {[ "tri.dxf" := "triangle"; "mix.DXF" := "mixed"; "bad.dxf" := "junk";
                           "notes.md" := "n"; "l.txt" := "locked" ]})
    by (vm_compute; reflexivity).
  assert (Hclean : is_Some (fs Examples.disk !! "empty")) by (vm_compute; eauto).
  assert (Hne : "raw" <> "empty") by discriminate.
  split; [exact Hraw|]. split; [exact Hclean|]. split; [exact Hne|].
  destruct (@raw_files_become_clean_files Examples.ezdxf Examples.pyfloat Examples.trimesh
              "raw" "empty" "empty" "fin" "202611031200" Examples.disk _ Hraw Hclean Hne)
    as (r & w' & Hrun & Hcontent & _ & Hok).
  rewrite (Hok Hclean) in Hrun by (intros meshes; eexists; reflexivity).
  exists w'. split; [exact Hrun|]. split.
  - change (Path "empty" "clean_tri.dxf") with (joinpath "empty" ("clean_" +:+ "tri.dxf")).
    rewrite (Hcontent "tri.dxf" "triangle") by (vm_compute; reflexivity).
    vm_compute. reflexivity.
  - change (Path "empty" "clean_bad.dxf") with (joinpath "empty" ("clean_" +:+ "bad.dxf")).
    rewrite (Hcontent "bad.dxf" "junk") by (vm_compute; reflexivity).
    vm_compute. reflexivity.
Defined.
(** ** From the clean DXF to the machine file *)

Lemma xyxy_of_seg_of (segments : list xyxy) : map xyxy_of (map seg_of segments) = segments.
Proof.
  induction segments as [|[[x1 y1] [x2 y2]] rest IH]; [done|].
  cbn [map]. by rewrite IH.
Qed.

Lemma converter_on_rounded_lines `{!PyFloat} (segments : list xyxy) :
  GeometryProcessing.all_line_segments_of (map rounded_line segments)
  = map seg_of (map rounded segments).
Proof.
  rewrite all_line_segments_of_closed_form.
  rewrite !query_rounded_lines. repeat case_decide; try congruence.
  simpl. apply rounded_lines_segments.
Qed.

Section clean_to_machine.
Context `{!Ezdxf, !PyFloat}.

(** X11: cleaning then converting: when the folder of the clean file
    exists and ezdxf reads back the document it saved,
    [create_simplified_dxf_for_laser] followed by
    [convert_dxf_to_lines_only_machine_format] returns normally and the
    machine file holds the machine format of the segments, each coordinate
    through [round(_, 6)] (the [round] of the coordinate's own runtime
    type). *)
Theorem clean_then_machine_format (segments : list xyxy) (clean_path machine_path : path)
    (doc : document) (w : world) :
  is_Some (fs w !! parent clean_path) ->
  ezdxf_load (ezdxf_dump (Document "AC1009" (map rounded_line segments))) = Ok doc ->
  msp doc = map rounded_line segments ->
  exists w',
    (GeometryProcessing.create_simplified_dxf_for_laser (map seg_of segments) clean_path ;;
     GeometryProcessing.convert_dxf_to_lines_only_machine_format clean_path machine_path) w
    = (Ok tt, w')
    /\ lookup_file machine_path w' = Some (machine_text (map rounded segments)).
Proof.
  intros Hdir Hload Hmsp.
  assert (Hshape : Forall well_shaped (map seg_of segments)).
  { apply Forall_map, Forall_forall. intros [[x1 y1] [x2 y2]] _. repeat constructor. }
  erewrite bind_Ok by (by apply create_simplified_runs).
  rewrite xyxy_of_seg_of.
  set (w1 := put_file clean_path _ w).
  pose proof (convert_runs clean_path machine_path w1) as Hrun.
  assert (Hread : (readfile clean_path w1).1 = Ok doc).
  { unfold readfile, bind, read_text, lift. subst w1. by rewrite lookup_file_put_file. }
  rewrite Hread in Hrun. destruct Hrun as (w0 & _ & Hrun).
  eexists. split; [exact Hrun|].
  rewrite lookup_file_put_file, Hmsp, converter_on_rounded_lines, xyxy_of_seg_of. reflexivity.
Qed.

(** X12: [create_simplified_dxf_for_laser] catches a failing save: when
    the folder of the target is missing it prints one message with the error
    and returns normally, the disk as it was. It does not catch a segment
    with fewer than two points: the IndexError leaves the function, and
    nothing is saved. *)
Theorem simplified_dxf_failures :
  (forall (segments : list segment) (output_dxf_path : path) (w : world),
      Forall well_shaped segments ->
      fs w !! parent output_dxf_path = None ->
      exists e,
        exn_type e = FileNotFoundError
        /\ GeometryProcessing.create_simplified_dxf_for_laser segments output_dxf_path w
           = (Ok tt,
              World (fs w)
                (stdout w ++ ["Error saving simplified DXF " +:+ path_str output_dxf_path +:+ ": "
                              +:+ exn_text e])
                (errlog w)))
  /\ (forall (before after : list segment) (short : segment) (output_dxf_path : path) (w : world),
        Forall well_shaped before ->
        (length short < 2)%nat ->
        exists e,
          exn_type e = IndexError
          /\ GeometryProcessing.create_simplified_dxf_for_laser
               (before ++ short :: after) output_dxf_path w
             = (Raise e, w)).
Proof.
  split.
  - intros segments output_dxf_path w Hshape Hdir.
    exists (Exn FileNotFoundError (path_str output_dxf_path)). split; [reflexivity|].
    unfold GeometryProcessing.create_simplified_dxf_for_laser.
    rewrite <- (map_seg_of_xyxy_of segments) at 1 by done.
    erewrite bind_Ok by (unfold with_state; rewrite simplified_msp_spec; reflexivity).
    cbv beta iota zeta. erewrite try_Raise by (by apply saveas_missing).
    reflexivity.
  - intros before after short output_dxf_path w Hshape Hshort.
    exists (Exn IndexError "index out of range"). split; [reflexivity|].
    unfold GeometryProcessing.create_simplified_dxf_for_laser.
    apply bind_Raise. unfold with_state.
    assert (Hrun : (GeometryProcessing.simplified_msp (before ++ short :: after)
                      (msp (ezdxf_new "AC1009"))).1
                   = Raise (Exn IndexError "index out of range")).
    { rewrite <- (map_seg_of_xyxy_of before) by done.
      generalize (msp (ezdxf_new "AC1009")).
      unfold GeometryProcessing.simplified_msp.
      induction (map xyxy_of before) as [|[[x1 y1] [x2 y2]] rest IH]; intros m.
      - cbn [map app for_each]. unfold bind at 1.
        destruct short as [|p [|q short]]; simpl in Hshort; try lia; reflexivity.
      - cbn [map app for_each]. erewrite bind_Ok by reflexivity. apply IH. }
    destruct (GeometryProcessing.simplified_msp (before ++ short :: after)
                (msp (ezdxf_new "AC1009"))) as [r m].
    simpl in Hrun. by subst r.
Qed.

End clean_to_machine.

Lemma clean_then_machine_format_witness :
  is_Some (fs Examples.disk !! parent (Path "empty" "clean_sq.dxf"))
  /\ @ezdxf_load Examples.two_sides_ezdxf
       (@ezdxf_dump Examples.two_sides_ezdxf
          (Document "AC1009"
             (map (@rounded_line Examples.pyfloat) Examples.two_sides_segments)))
     = Ok (Document "AC1009" Examples.two_sides)
  /\ exists w',
       (@GeometryProcessing.create_simplified_dxf_for_laser
          Examples.two_sides_ezdxf Examples.pyfloat
          (map seg_of Examples.two_sides_segments) (Path "empty" "clean_sq.dxf") ;;
        @GeometryProcessing.convert_dxf_to_lines_only_machine_format Examples.two_sides_ezdxf
          (Path "empty" "clean_sq.dxf") (Path "out" "machine_clean_sq.dxf")) Examples.disk
       = (Ok tt, w')
       /\ lookup_file (Path "out" "machine_clean_sq.dxf") w'
          = Some (machine_text
                    (map (@rounded Examples.pyfloat) Examples.two_sides_segments)).
Proof.
  assert (Hdir : is_Some (fs Examples.disk !! parent (Path "empty" "clean_sq.dxf")))
    by (vm_compute; eauto).
  assert (Hload : @ezdxf_load Examples.two_sides_ezdxf
                    (@ezdxf_dump Examples.two_sides_ezdxf
                       (Document "AC1009"
                          (map (@rounded_line Examples.pyfloat)
                             Examples.two_sides_segments)))
                  = Ok (Document "AC1009" Examples.two_sides))
    by (vm_compute; reflexivity).
  split; [exact Hdir|]. split; [exact Hload|].
  apply (@clean_then_machine_format Examples.two_sides_ezdxf Examples.pyfloat
           Examples.two_sides_segments
           (Path "empty" "clean_sq.dxf") (Path "out" "machine_clean_sq.dxf")
           (Document "AC1009" Examples.two_sides) Examples.disk Hdir Hload).
  reflexivity.
Defined.

Lemma simplified_dxf_failures_witness :
  (Forall well_shaped [[[NpF 0; NpF 0]; [NpF 1; NpF 0]]]
   /\ fs Examples.disk !! parent (Path "nowhere" "clean.dxf") = None
   /\ exists e,
        exn_type e = FileNotFoundError
        /\ @GeometryProcessing.create_simplified_dxf_for_laser Examples.ezdxf Examples.pyfloat
             [[[NpF 0; NpF 0]; [NpF 1; NpF 0]]] (Path "nowhere" "clean.dxf") Examples.disk
           = (Ok tt,
              World (fs Examples.disk)
                (stdout Examples.disk
                 ++ ["Error saving simplified DXF "
                     +:+ path_str (Path "nowhere" "clean.dxf") +:+ ": " +:+ exn_text e])
                (errlog Examples.disk)))
  /\ (Forall well_shaped [[[NpF 0; NpF 0]; [NpF 1; NpF 0]]]
      /\ (length [[NpF 2; NpF 2]] < 2)%nat
      /\ exists e,
           exn_type e = IndexError
           /\ @GeometryProcessing.create_simplified_dxf_for_laser Examples.ezdxf Examples.pyfloat
                ([[[NpF 0; NpF 0]; [NpF 1; NpF 0]]] ++ [[NpF 2; NpF 2]] :: []) (Path "empty" "clean.dxf")
                Examples.disk
              = (Raise e, Examples.disk)).
Proof.
  assert (Hshape : Forall well_shaped [[[NpF 0; NpF 0]; [NpF 1; NpF 0]]]) by (repeat constructor).
  destruct (@simplified_dxf_failures Examples.ezdxf Examples.pyfloat) as [Hsave Hshort].
  split.
  - assert (Hdir : fs Examples.disk !! parent (Path "nowhere" "clean.dxf") = None)
      by (vm_compute; reflexivity).
    split; [exact Hshape|]. split; [exact Hdir|].
    exact (Hsave _ _ _ Hshape Hdir).
  - assert (Hlen : (length [[NpF 2; NpF 2]] < 2)%nat) by (simpl; lia).
    split; [exact Hshape|]. split; [exact Hlen|].
    exact (Hshort _ [] _ (Path "empty" "clean.dxf") Examples.disk Hshape Hlen).
Defined.
(** ** The parameter file in the folder it counts *)

Section parameter_file_runs.
Context `{!PyFloat}.

Lemma manufacturing_parameters_runs (input_dxf_folder output_folder part_name : string)
    (layer_thickness : float) (w : world) (entries : gmap string string) :
  fs w !! input_dxf_folder = Some entries ->
  layer_file_count entries <> 0%nat ->
  exists w',
    GeometryProcessing.generate_manufacturing_parameters_file
      input_dxf_folder output_folder part_name layer_thickness w = (Ok tt, w')
    /\ fs w'
       = fs (put_file (joinpath output_folder (part_name +:+ "_auto_machine_parameters.txt"))
               (parameters_text
                  (zip parameter_keys
                     (manufacturing_values part_name (layer_file_count entries) layer_thickness)))
               (mkdir_p output_folder w).2).
Proof.
  intros Hfolder Hcount.
  unfold GeometryProcessing.generate_manufacturing_parameters_file.
  erewrite bind_Ok by (unfold folder_exists, gets; rewrite Hfolder; reflexivity).
  rewrite bool_decide_eq_true_2 by eauto. cbn [negb].
  erewrite bind_Ok by (unfold listdir; rewrite Hfolder; reflexivity).
  cbv zeta.
  pose proof (layer_files_nil entries) as Hnil. pose proof (layer_files_count entries) as Hlen.
  unfold is_layer_file in Hnil, Hlen.
  rewrite bool_decide_eq_false_2 by (by rewrite Hnil).
  rewrite sorted_length, Hlen.
  destruct (mkdir_p_spec output_folder w) as (w0 & Hmk & Hdir & _).
  erewrite bind_Ok by exact Hmk. rewrite Hmk. cbn [snd].
  set (output_file_path := joinpath output_folder (part_name +:+ "_auto_machine_parameters.txt")).
  eexists. split.
  - apply try_Ok. erewrite bind_Ok by exact (open_w_spec output_file_path _ Hdir).
    erewrite bind_Ok by (apply (write_table_spec output_file_path _ ""); apply lookup_file_put_file).
    unfold print, modify. reflexivity.
  - cbn [fs]. rewrite put_file_put_file. reflexivity.
Qed.

Lemma layer_file_count_insert (entries : gmap string string) (f text : string) :
  entries !! f = None -> is_layer_file f = true ->
  layer_file_count (<[f := text]> entries) = S (layer_file_count entries).
Proof.
  intros Hf Hlayer. unfold layer_file_count.
  rewrite map_filter_insert_True by (cbn [fst]; by apply Is_true_true).
  rewrite map_size_insert_None; [done|].
  apply map_lookup_filter_None. by left.
Qed.

(** X13: [generate_manufacturing_parameters_file] with the layer folder
    as its output folder counts its own file on the next run: the first run
    writes NUMBER OF LAYERS as the number of layer files, the second run
    writes one more, and the third run writes the same as the second. *)
Theorem parameters_file_counts_itself (folder part_name : string) (layer_thickness : float)
    (w : world) (entries : gmap string string) :
  fs w !! folder = Some entries ->
  layer_file_count entries <> 0%nat ->
  entries !! (part_name +:+ "_auto_machine_parameters.txt") = None ->
  let output_file_path := joinpath folder (part_name +:+ "_auto_machine_parameters.txt") in
  let text_for number_of_layers :=
    parameters_text
      (zip parameter_keys (manufacturing_values part_name number_of_layers layer_thickness)) in
  exists w1 w2 w3,
    GeometryProcessing.generate_manufacturing_parameters_file
      folder folder part_name layer_thickness w = (Ok tt, w1)
    /\ lookup_file output_file_path w1 = Some (text_for (layer_file_count entries))
    /\ GeometryProcessing.generate_manufacturing_parameters_file
         folder folder part_name layer_thickness w1 = (Ok tt, w2)
    /\ lookup_file output_file_path w2 = Some (text_for (S (layer_file_count entries)))
    /\ GeometryProcessing.generate_manufacturing_parameters_file
         folder folder part_name layer_thickness w2 = (Ok tt, w3)
    /\ lookup_file output_file_path w3 = Some (text_for (S (layer_file_count entries))).
Proof.
  intros Hfolder Hcount Hfresh output_file_path text_for.
  assert (Hmk : forall (w' : world),
             is_Some (fs w' !! folder) -> (mkdir_p folder w').2 = w').
  { intros w' [e He]. unfold mkdir_p, modify. by rewrite He. }
  assert (Hput : forall (w' : world) (entries' : gmap string string) (text : string),
             fs w' !! folder = Some entries' ->
             fs (put_file output_file_path text w') !! folder
             = Some (<[part_name +:+ "_auto_machine_parameters.txt" := text]> entries')).
  { intros w' entries' text He. unfold put_file. cbn [fs set_fs parent output_file_path joinpath].
    by rewrite lookup_insert_eq, He. }
  assert (Hfile : forall (w' w'' : world) (text : string),
             fs w'' = fs (put_file output_file_path text w') ->
             lookup_file output_file_path w'' = Some text).
  { intros w' w'' text Hfs. unfold lookup_file. rewrite Hfs. apply lookup_file_put_file. }
  destruct (manufacturing_parameters_runs folder folder part_name layer_thickness w entries
              Hfolder Hcount) as (w1 & Hrun1 & Hfs1).
  rewrite Hmk in Hfs1 by eauto.
  assert (Hfolder1 : fs w1 !! folder
                     = Some (<[part_name +:+ "_auto_machine_parameters.txt"
                               := text_for (layer_file_count entries)]> entries))
    by (rewrite Hfs1; by apply Hput).
  assert (Hcount1 : layer_file_count
                      (<[part_name +:+ "_auto_machine_parameters.txt"
                         := text_for (layer_file_count entries)]> entries)
                    = S (layer_file_count entries))
    by (apply layer_file_count_insert; [done | apply parameters_file_is_a_layer_file]).
  destruct (manufacturing_parameters_runs folder folder part_name layer_thickness w1 _
              Hfolder1) as (w2 & Hrun2 & Hfs2); [by rewrite Hcount1|].
  rewrite Hmk, Hcount1 in Hfs2 by eauto.
  assert (Hfolder2 : fs w2 !! folder
                     = Some (<[part_name +:+ "_auto_machine_parameters.txt"
                               := text_for (S (layer_file_count entries))]>
                               (<[part_name +:+ "_auto_machine_parameters.txt"
                                  := text_for (layer_file_count entries)]> entries)))
    by (rewrite Hfs2; by apply Hput).
  rewrite insert_insert_eq in Hfolder2.
  assert (Hcount2 : layer_file_count
                      (<[part_name +:+ "_auto_machine_parameters.txt"
                         := text_for (S (layer_file_count entries))]> entries)
                    = S (layer_file_count entries))
    by (apply layer_file_count_insert; [done | apply parameters_file_is_a_layer_file]).
  destruct (manufacturing_parameters_runs folder folder part_name layer_thickness w2 _
              Hfolder2) as (w3 & Hrun3 & Hfs3); [by rewrite Hcount2|].
  rewrite Hmk, Hcount2 in Hfs3 by eauto.
  exists w1, w2, w3. repeat split; try done.
  - by apply (Hfile w).
  - by apply (Hfile w1).
  - by apply (Hfile w2).
Qed.

End parameter_file_runs.

Lemma parameters_file_counts_itself_witness :
  exists w1 w2 w3,
    @GeometryProcessing.generate_manufacturing_parameters_file Examples.pyfloat
      "raw" "raw" "fin" 0.03 Examples.disk = (Ok tt, w1)
    /\ lookup_file (Path "raw" "fin_auto_machine_parameters.txt") w1
       = Some (@parameters_text Examples.pyfloat
                 (zip parameter_keys (manufacturing_values "fin" 4 0.03)))
    /\ @GeometryProcessing.generate_manufacturing_parameters_file Examples.pyfloat
         "raw" "raw" "fin" 0.03 w1 = (Ok tt, w2)
    /\ lookup_file (Path "raw" "fin_auto_machine_parameters.txt") w2
       = Some (@parameters_text Examples.pyfloat
                 (zip parameter_keys (manufacturing_values "fin" 5 0.03)))
    /\ @GeometryProcessing.generate_manufacturing_parameters_file Examples.pyfloat
         "raw" "raw" "fin" 0.03 w2 = (Ok tt, w3)
    /\ lookup_file (Path "raw" "fin_auto_machine_parameters.txt") w3
       = Some (@parameters_text Examples.pyfloat
                 (zip parameter_keys (manufacturing_values "fin" 5 0.03))).
Proof.
  assert (Hfolder : fs Examples.disk !! "raw"
                    = Some {[ "tri.dxf" := "triangle"; "mix.DXF" := "mixed"; "bad.dxf" := "junk";
                              "notes.md" := "n"; "l.txt" := "locked" ]})
    by (vm_compute; reflexivity).
  assert (Hcount : layer_file_count
                     ({[ "tri.dxf" := "triangle"; "mix.DXF" := "mixed"; "bad.dxf" := "junk";
                         "notes.md" := "n"; "l.txt" := "locked" ]} : gmap string string) = 4%nat)
    by (vm_compute; reflexivity).
  pose proof (@parameters_file_counts_itself Examples.pyfloat "raw" "fin" 0.03 Examples.disk _
                Hfolder) as Hruns.
  rewrite Hcount in Hruns. cbv zeta in Hruns.
  apply Hruns; [discriminate | vm_compute; reflexivity].
Defined.
(** ** The batch conversion of support_DXF_to_machine_TXT_or_DXF.py *)

Section lines_only.
Context `{!Ezdxf}.

(** One conversion into a folder that is there. *)
Lemma lines_only_runs (input_dxf_path output_target_path : path) (output_extension : string)
    (w : world) :
  is_Some (fs w !! parent output_target_path) ->
  match (readfile input_dxf_path w).1 with
  | Ok doc =>
      SupportDxfToMachine.convert_dxf_to_lines_only
        input_dxf_path output_target_path output_extension w
      = (Ok tt, put_file output_target_path
                  (machine_text (map xyxy_of (SupportDxfToMachine.all_line_segments_of (msp doc))))
                  w)
  | Raise e =>
      exists message,
        SupportDxfToMachine.convert_dxf_to_lines_only
          input_dxf_path output_target_path output_extension w
        = (Ok tt, World (fs w) (stdout w ++ [message]) (errlog w))
  end.
Proof.
  intros Hdir. unfold SupportDxfToMachine.convert_dxf_to_lines_only.
  pose proof (readfile_world input_dxf_path w) as Hw.
  pose proof (readfile_Ok_exists input_dxf_path w) as Hex.
  destruct (readfile input_dxf_path w) as [[doc|e] w1] eqn:Hread; simpl in Hw; subst w1; simpl.
  - erewrite bind_Ok; [|unfold file_exists, gets; by rewrite bool_decide_eq_true_2 by eauto].
    cbn [negb]. erewrite bind_Ok; [|apply try_Ok; erewrite bind_Ok by exact Hread; reflexivity].
    cbv beta iota zeta.
    erewrite bind_Ok by (unfold folder_exists, gets; reflexivity).
    rewrite (bool_decide_eq_true_2 (is_Some (fs w !! parent output_target_path))) by done.
    rewrite andb_false_r. erewrite bind_Ok by reflexivity.
    apply try_Ok. erewrite bind_Ok by exact (open_w_spec _ _ Hdir).
    change (SupportDxfToMachine.all_line_segments_of (msp doc))
      with (GeometryProcessing.line_segments_of (msp doc)).
    rewrite <- (map_seg_of_xyxy_of (GeometryProcessing.line_segments_of (msp doc)))
      by apply line_segments_of_shape.
    rewrite (write_lines_only_spec _ _ "") by apply lookup_file_put_file.
    rewrite map_seg_of_xyxy_of by apply line_segments_of_shape.
    by rewrite put_file_put_file.
  - erewrite bind_Ok by (unfold file_exists, gets; reflexivity).
    destruct (bool_decide (is_Some (lookup_file input_dxf_path w))); cbn [negb].
    + erewrite bind_Ok.
      2:{ erewrite try_Raise by (erewrite bind_Raise by exact Hread; reflexivity).
          instantiate (2 := None).
          instantiate (1 := World (fs w) (stdout w ++ [match exn_type e with
            | DXFStructureError => _ | _ => _ end]) (errlog w)).
          destruct (exn_type e); reflexivity. }
      cbv beta iota. eauto.
    + unfold print, modify. eauto.
Qed.

Lemma lines_only_turn (input output output_extension : string) (entries : gmap string string) :
  input <> output ->
  turn_writes
    (fun filename (_ : unit) =>
       SupportDxfToMachine.convert_dxf_to_lines_only
         (joinpath input filename)
         (SupportDxfToMachine.cleaned_file output filename output_extension) output_extension)
    (fun w => fs w !! input = Some entries /\ is_Some (fs w !! output))
    (fun filename => SupportDxfToMachine.cleaned_file output filename output_extension)
    (fun filename => entries !! filename ≫= lines_only_text_of).
Proof.
  intros Hne filename [] w [Hinput Houtput].
  pose proof (lines_only_runs (joinpath input filename)
                (SupportDxfToMachine.cleaned_file output filename output_extension)
                output_extension w Houtput) as Hrun.
  rewrite (readfile_in_folder input filename entries) in Hrun by done.
  unfold lines_only_text_of.
  destruct (entries !! filename) as [text|] eqn:Htext; cbn [mbind option_bind].
  - destruct (ezdxf_load text) as [doc|e] eqn:Hload.
    + eexists tt, _. split; [exact Hrun|]. split; [split|].
      * rewrite put_file_fs_ne by (simpl; congruence). done.
      * by apply put_file_fs_some.
      * intros p. by rewrite lookup_file_put_file_cases.
    + destruct Hrun as (message & Hrun). eexists tt, _. split; [exact Hrun|].
      split; [done|]. intros p. by case_decide.
  - destruct Hrun as (message & Hrun). eexists tt, _. split; [exact Hrun|].
    split; [done|]. intros p. by case_decide.
Qed.

(** X14: [process_dxf_folder], on an input folder that exists and an
    output folder of another name, returns normally, leaves the input folder
    as it was and makes the output folder; a file it changes is
    [cleaned_<base><ext>] of a [.dxf] entry that ezdxf reads; and for such an
    entry, when no other [.dxf] entry has the same target, the target holds
    the machine format of the entry's segments, polylines closed from their
    last point to their first. *)
Theorem dxf_folder_becomes_machine_files (input_folder_path output_folder_path : string)
    (output_extension : string) (w : world) (entries : gmap string string) :
  input_folder_path <> "" ->
  fs w !! input_folder_path = Some entries ->
  output_folder_path <> "" ->
  input_folder_path <> output_folder_path ->
  exists w',
    SupportDxfToMachine.process_dxf_folder
      input_folder_path output_folder_path output_extension w = (Ok tt, w')
    /\ fs w' !! input_folder_path = Some entries
    /\ is_Some (fs w' !! output_folder_path)
    /\ (forall p, lookup_file p w' <> lookup_file p w ->
          exists f text doc,
            entries !! f = Some text /\ is_dxf_name f = true /\ ezdxf_load text = Ok doc
            /\ p = SupportDxfToMachine.cleaned_file output_folder_path f output_extension)
    /\ (forall f text doc,
          entries !! f = Some text -> is_dxf_name f = true -> ezdxf_load text = Ok doc ->
          (forall f', is_Some (entries !! f') -> is_dxf_name f' = true ->
                      SupportDxfToMachine.cleaned_file output_folder_path f' output_extension
                      = SupportDxfToMachine.cleaned_file output_folder_path f output_extension ->
                      f' = f) ->
          lookup_file (SupportDxfToMachine.cleaned_file output_folder_path f output_extension) w'
          = Some (machine_text (map xyxy_of (expected_segments (msp doc))))).
Proof.
  intros Hinput_name Hinput Houtput_name Hne.
  unfold SupportDxfToMachine.process_dxf_folder.
  erewrite bind_Ok by (unfold os_path_exists, gets; reflexivity).
  rewrite (bool_decide_eq_false_2 (input_folder_path = "")) by done.
  rewrite (bool_decide_eq_true_2 (is_Some (fs w !! input_folder_path))) by eauto.
  cbn [negb andb].
  erewrite bind_Ok by (unfold os_path_exists, gets; reflexivity).
  rewrite (bool_decide_eq_false_2 (output_folder_path = "")) by done. cbn [negb andb].
  (* the output folder, made when it is not there *)
  assert (Hmade : exists w1,
             (if negb (bool_decide (is_Some (fs w !! output_folder_path)))
              then os_makedirs output_folder_path ;;
                   print ("Pasta de saída criada: '" +:+ output_folder_path +:+ "'")
              else ret tt) w = (Ok tt, w1)
             /\ fs w1 !! input_folder_path = Some entries
             /\ is_Some (fs w1 !! output_folder_path)
             /\ forall p, lookup_file p w1 = lookup_file p w).
  { destruct (bool_decide (is_Some (fs w !! output_folder_path))) eqn:Hthere; cbn [negb].
    - apply bool_decide_eq_true in Hthere. exists w. done.
    - unfold os_makedirs. rewrite (bool_decide_eq_false_2 (output_folder_path = "")) by done.
      destruct (mkdir_p_spec output_folder_path w) as (w0 & Hmk & Hdir & _).
      eexists. split; [erewrite bind_Ok by exact Hmk; reflexivity|].
      assert (Hw0 : w0 = (mkdir_p output_folder_path w).2) by (by rewrite Hmk).
      cbn [fs]. split; [|split; [done|]].
      + rewrite Hw0, mkdir_p_fs by eauto. done.
      + intros p. unfold lookup_file at 1. cbn [fs].
        change (fs w0 !! parent p ≫= (fun entries => entries !! name p)) with (lookup_file p w0).
        rewrite Hw0. apply mkdir_p_lookup. }
  destruct Hmade as (w1 & Hmk & Hinput1 & Houtput1 & Hsame1).
  erewrite bind_Ok by exact Hmk.
  erewrite bind_Ok by (unfold listdir; rewrite Hinput1; reflexivity).
  cbv zeta.
  set (files := filter (fun f => endswith (lower f) ".dxf") (map_to_list entries).*1).
  destruct (bool_decide (files = [])) eqn:Hempty.
  - apply bool_decide_eq_true in Hempty.
    eexists. split; [reflexivity|]. cbn [fs]. split; [done|]. split; [done|]. split.
    + intros p Hchanged. exfalso. apply Hchanged. unfold lookup_file at 1. cbn [fs]. apply Hsame1.
    + intros f text doc Htext Hdxf _ _. exfalso.
      assert (Hin : f ∈ files) by (apply unsorted_dxf_files; eauto).
      rewrite Hempty in Hin. by apply elem_of_nil in Hin.
  - erewrite bind_Ok by reflexivity.
    set (w2 := World (fs w1) _ (errlog w1)).
    destruct (batch_loop_spec _ _ _ _
                (lines_only_turn input_folder_path output_folder_path output_extension entries Hne)
                files tt w2 (conj Hinput1 Houtput1))
      as ([] & w3 & Hloop & [Hinput3 Houtput3] & Hfiles).
    erewrite bind_Ok by (rewrite for_each_for_fold; exact Hloop).
    eexists. split; [reflexivity|]. cbn [fs]. split; [done|]. split; [done|].
    assert (Hsame2 : forall p, lookup_file p w2 = lookup_file p w) by (intros p; apply Hsame1).
    split.
    + intros p Hchanged.
      assert (Hchanged' : lookup_file p w3 <> lookup_file p w2) by (by rewrite Hsame2).
      destruct (batch_loop_frame _ _ files p w2 w3 Hfiles Hchanged') as (f & Hin & Htarget & Hsome).
      apply unsorted_dxf_files in Hin as [[text Htext] Hdxf].
      rewrite Htext in Hsome. cbn [mbind option_bind] in Hsome. unfold lines_only_text_of in Hsome.
      destruct (ezdxf_load text) as [doc|e] eqn:Hload; [|by destruct Hsome].
      exists f, text, doc. done.
    + intros f text doc Htext Hdxf Hload Hunique.
      rewrite <- line_segments_of_closed_form.
      apply (batch_loop_content _ _ files f _ w2 w3 Hfiles).
      * apply unsorted_dxf_files. eauto.
      * rewrite Htext. cbn [mbind option_bind]. unfold lines_only_text_of. by rewrite Hload.
      * intros f' Hin' Htarget' _.
        apply unsorted_dxf_files in Hin' as [Hf' Hdxf'].
        rewrite (Hunique f' Hf' Hdxf' Htarget').
        rewrite Htext. cbn [mbind option_bind]. unfold lines_only_text_of. by rewrite Hload.
Qed.

End lines_only.

Lemma no_unsorted_dxf_files (entries : gmap string string) :
  filter (fun f => endswith (lower f) ".dxf") (map_to_list entries).*1 = []
  <-> forall f, is_Some (entries !! f) -> is_dxf_name f = false.
Proof.
  split.
  - intros Hnil f Hf. destruct (is_dxf_name f) eqn:Hdxf; [|done].
    assert (Hin : f ∈ filter (fun f => endswith (lower f) ".dxf") (map_to_list entries).*1)
      by (by apply unsorted_dxf_files).
    rewrite Hnil in Hin. by apply elem_of_nil in Hin.
  - intros Hnone.
    destruct (filter (fun f => endswith (lower f) ".dxf") (map_to_list entries).*1)
      as [|f l] eqn:Hl; [done|].
    assert (Hin : f ∈ filter (fun f => endswith (lower f) ".dxf") (map_to_list entries).*1)
      by (rewrite Hl; by left).
    apply unsorted_dxf_files in Hin as [Hf Hdxf]. rewrite (Hnone f Hf) in Hdxf. done.
Qed.

(** X15: [process_dxf_folder] with a missing input folder (or the empty
    name) prints one message and returns; with the empty name as output
    folder the FileNotFoundError of [os.makedirs] leaves the function; with
    no [.dxf] entry in the input folder it still creates a missing output
    folder, prints two messages, and writes no file. *)
Theorem dxf_folder_edge_cases `{!Ezdxf} (input_folder_path output_folder_path : string)
    (output_extension : string) (w : world) :
  (input_folder_path = "" \/ fs w !! input_folder_path = None ->
   SupportDxfToMachine.process_dxf_folder
     input_folder_path output_folder_path output_extension w
   = (Ok tt,
      World (fs w)
        (stdout w ++ ["Erro: Pasta de entrada não encontrada em '" +:+ input_folder_path +:+ "'"])
        (errlog w)))
  /\ (input_folder_path <> "" -> is_Some (fs w !! input_folder_path) ->
      output_folder_path = "" ->
      exists e,
        exn_type e = FileNotFoundError
        /\ SupportDxfToMachine.process_dxf_folder
             input_folder_path output_folder_path output_extension w
           = (Raise e, w))
  /\ (forall entries : gmap string string,
        input_folder_path <> "" -> fs w !! input_folder_path = Some entries ->
        output_folder_path <> "" -> fs w !! output_folder_path = None ->
        (forall f, is_Some (entries !! f) -> is_dxf_name f = false) ->
        SupportDxfToMachine.process_dxf_folder
          input_folder_path output_folder_path output_extension w
        = (Ok tt,
           World (<[output_folder_path := ∅]> (fs w))
             (stdout w ++ ["Pasta de saída criada: '" +:+ output_folder_path +:+ "'";
                           "Nenhum arquivo DXF encontrado em '" +:+ input_folder_path +:+ "'."])
             (errlog w))).
Proof.
  unfold SupportDxfToMachine.process_dxf_folder. split; [|split].
  - intros Hmissing.
    erewrite bind_Ok by (unfold os_path_exists, gets; reflexivity).
    assert (Hfound : negb (bool_decide (input_folder_path = ""))
                     && bool_decide (is_Some (fs w !! input_folder_path)) = false).
    { destruct Hmissing as [->|Hnone]; [done|].
      rewrite (bool_decide_eq_false_2 (is_Some _)) by (rewrite Hnone; by intros [? ?]).
      apply andb_false_r. }
    rewrite Hfound. reflexivity.
  - intros Hname Hthere ->.
    exists (Exn FileNotFoundError ""). split; [reflexivity|].
    erewrite bind_Ok by (unfold os_path_exists, gets; reflexivity).
    rewrite (bool_decide_eq_false_2 (input_folder_path = "")) by done.
    rewrite (bool_decide_eq_true_2 (is_Some (fs w !! input_folder_path))) by done.
    cbn [negb andb].
    erewrite bind_Ok by (unfold os_path_exists, gets; reflexivity).
    reflexivity.
  - intros entries Hname Hinput Hout_name Hout Hnone.
    erewrite bind_Ok by (unfold os_path_exists, gets; reflexivity).
    rewrite (bool_decide_eq_false_2 (input_folder_path = "")) by done.
    rewrite (bool_decide_eq_true_2 (is_Some (fs w !! input_folder_path))) by eauto.
    cbn [negb andb].
    erewrite bind_Ok by (unfold os_path_exists, gets; reflexivity).
    rewrite (bool_decide_eq_false_2 (output_folder_path = "")) by done.
    rewrite (bool_decide_eq_false_2 (is_Some (fs w !! output_folder_path)))
      by (rewrite Hout; by intros [? ?]).
    cbn [negb andb].
    erewrite bind_Ok.
    2:{ unfold os_makedirs. rewrite (bool_decide_eq_false_2 (output_folder_path = "")) by done.
        unfold bind, mkdir_p, modify, print. rewrite Hout. reflexivity. }
    erewrite bind_Ok.
    2:{ unfold listdir. cbn [fs set_fs].
        rewrite lookup_insert_ne by (intros Heq; rewrite Heq in Hout; congruence).
        rewrite Hinput. reflexivity. }
    cbv zeta. apply no_unsorted_dxf_files in Hnone. rewrite Hnone.
    rewrite bool_decide_eq_true_2 by done.
    unfold print, modify. cbn [fs stdout errlog set_fs]. by rewrite <- app_assoc.
Qed.

Lemma dxf_folder_becomes_machine_files_witness :
  "raw" <> ""
  /\ fs Examples.disk !! "raw"
     = Some {[ "tri.dxf" := "triangle"; "mix.DXF" := "mixed"; "bad.dxf" := "junk";
               "notes.md" := "n"; "l.txt" := "locked" ]}
  /\ "out" <> "" /\ "raw" <> "out"
  /\ exists w',
       @SupportDxfToMachine.process_dxf_folder Examples.ezdxf "raw" "out" ".txt" Examples.disk
       = (Ok tt, w')
       /\ is_Some (fs w' !! "out")
       /\ lookup_file (Path "out" "cleaned_tri.txt") w'
          = Some (machine_text [ ((NpF 0, NpF 0), (NpF 1, NpF 0));
                                 ((NpF 1, NpF 0), (NpF 1, NpF 1));
                                 ((NpF 1, NpF 1), (NpF 0, NpF 0)) ]).
Proof.
  assert (Hname : "raw" <> "") by discriminate.
  assert (Hfolder : fs Examples.disk !! "raw"
                    = Some {[ "tri.dxf" := "triangle"; "mix.DXF" := "mixed"; "bad.dxf" := "junk";
                              "notes.md" := "n"; "l.txt" := "locked" ]})
    by (vm_compute; reflexivity).
  assert (Hout : "out" <> "") by discriminate.
  assert (Hne : "raw" <> "out") by discriminate.
  split; [exact Hname|]. split; [exact Hfolder|]. split; [exact Hout|]. split; [exact Hne|].
  destruct (@dxf_folder_becomes_machine_files Examples.ezdxf "raw" "out" ".txt" Examples.disk _
              Hname Hfolder Hout Hne) as (w' & Hrun & _ & Hthere & _ & Hcontent).
  exists w'. split; [exact Hrun|]. split; [exact Hthere|].
  apply (Hcontent "tri.dxf" "triangle" (Document "R2010" Examples.triangle)).
  - vm_compute. reflexivity.
  - vm_compute. reflexivity.
  - vm_compute. reflexivity.
  - intros f' Hf' _ Hsame. apply raw_entries_listed in Hf'.
    apply list_elem_of_In in Hf'. simpl in Hf'.
    destruct Hf' as [<-|[<-|[<-|[<-|[<-|[]]]]]]; try reflexivity;
      vm_compute in Hsame; discriminate Hsame.
Defined.

Lemma dxf_folder_edge_cases_witness :
  (("" = "" \/ fs Examples.disk !! "" = None)
   /\ @SupportDxfToMachine.process_dxf_folder Examples.ezdxf "" "out" ".txt" Examples.disk
      = (Ok tt, World (fs Examples.disk) ["Erro: Pasta de entrada não encontrada em ''"] []))
  /\ ("raw" <> "" /\ is_Some (fs Examples.disk !! "raw")
      /\ exists e,
           exn_type e = FileNotFoundError
           /\ @SupportDxfToMachine.process_dxf_folder Examples.ezdxf "raw" "" ".txt" Examples.disk
              = (Raise e, Examples.disk))
  /\ ("empty" <> "" /\ fs Examples.disk !! "empty" = Some ∅
      /\ "out" <> "" /\ fs Examples.disk !! "out" = None
      /\ @SupportDxfToMachine.process_dxf_folder Examples.ezdxf "empty" "out" ".txt" Examples.disk
         = (Ok tt,
            World (<["out" := ∅]> (fs Examples.disk))
              ["Pasta de saída criada: 'out'"; "Nenhum arquivo DXF encontrado em 'empty'."] [])).
Proof.
  split; [|split].
  - destruct (@dxf_folder_edge_cases Examples.ezdxf "" "out" ".txt" Examples.disk)
      as (Hmissing & _ & _).
    split; [by left|]. apply Hmissing. by left.
  - destruct (@dxf_folder_edge_cases Examples.ezdxf "raw" "" ".txt" Examples.disk)
      as (_ & Hraise & _).
    assert (Hthere : is_Some (fs Examples.disk !! "raw")) by (vm_compute; eauto).
    split; [discriminate|]. split; [exact Hthere|].
    apply Hraise; [discriminate | exact Hthere | reflexivity].
  - destruct (@dxf_folder_edge_cases Examples.ezdxf "empty" "out" ".txt" Examples.disk)
      as (_ & _ & Hempty).
    assert (Hin : fs Examples.disk !! "empty" = Some ∅) by (vm_compute; reflexivity).
    assert (Hout : fs Examples.disk !! "out" = None) by (vm_compute; reflexivity).
    split; [discriminate|]. split; [exact Hin|]. split; [discriminate|]. split; [exact Hout|].
    apply (Hempty ∅); [discriminate | exact Hin | discriminate | exact Hout |].
    intros f [text Hf]. by rewrite lookup_empty in Hf.
Defined.
(** ** The cleaning of support_DXF_to_clean_DXF.py *)

Section support_cleaning.
Context `{!Ezdxf, !PyFloat, !Trimesh}.

Lemma support_get_line_segments_returns (dxf_path : path) (w : world) :
  exists segments w',
    SupportDxfToClean.get_line_segments_from_dxf dxf_path w = (Ok segments, w')
    /\ fs w' = fs w /\ stdout w' = stdout w
    /\ match (readfile dxf_path w).1 with
       | Ok doc => segments = GeometryProcessing.line_segments_of (msp doc) /\ w' = w
       | Raise e => segments = [] /\ exists message, errlog w' = errlog w ++ [message]
       end.
Proof.
  unfold SupportDxfToClean.get_line_segments_from_dxf, bind at 1, try_except, bind at 1.
  pose proof (readfile_world dxf_path w) as Hw.
  destruct (readfile dxf_path w) as [[doc|e] w0]; simpl in Hw; subst w0; simpl.
  - eauto 10.
  - destruct (exn_type e); simpl; eauto 10.
Qed.

Lemma support_create_simplified_runs (segments : list segment) (p : path) (w : world) :
  Forall well_shaped segments ->
  is_Some (fs w !! parent p) ->
  SupportDxfToClean.create_simplified_dxf_for_laser segments p w
  = (Ok tt, put_file p (ezdxf_dump (Document "AC1009" (map rounded_line (map xyxy_of segments)))) w).
Proof.
  intros Hshape Hdir. unfold SupportDxfToClean.create_simplified_dxf_for_laser.
  rewrite <- (map_seg_of_xyxy_of segments) at 1 by done.
  erewrite bind_Ok
    by (unfold with_state;
        change (SupportDxfToClean.simplified_msp (map seg_of (map xyxy_of segments)))
          with (GeometryProcessing.simplified_msp (map seg_of (map xyxy_of segments)));
        rewrite simplified_msp_spec; reflexivity).
  cbv beta iota zeta. apply try_Ok. by apply saveas_spec.
Qed.

Lemma support_clean_turn (raw clean : string) (layer_height : float)
    (output_stl_filename : option string) (entries : gmap string string) :
  raw <> clean ->
  SupportDxfToClean.stl_wanted output_stl_filename = false ->
  turn_writes
    (SupportDxfToClean.clean_one_layer raw clean layer_height output_stl_filename)
    (fun w => fs w !! raw = Some entries /\ is_Some (fs w !! clean))
    (fun dxf_file => joinpath clean ("clean_" +:+ dxf_file))
    (fun dxf_file => entries !! dxf_file ≫= clean_text_of).
Proof.
  intros Hne Hwanted dxf_file [all_meshes z_offset] w [Hraw Hclean].
  unfold SupportDxfToClean.clean_one_layer. rewrite Hwanted.
  destruct (support_get_line_segments_returns (joinpath raw dxf_file) w)
    as (segments & w1 & Hget & Hfs1 & _ & Hsegments).
  rewrite (readfile_in_folder raw dxf_file entries) in Hsegments by done.
  erewrite bind_Ok by exact Hget.
  assert (Hcontent :
            entries !! dxf_file ≫= clean_text_of
            = if bool_decide (segments = []) then None
              else Some (ezdxf_dump (Document "AC1009" (map rounded_line (map xyxy_of segments))))).
  { unfold clean_text_of. destruct (entries !! dxf_file) as [text|]; cbn [mbind option_bind].
    - destruct (ezdxf_load text) as [doc|e].
      + destruct Hsegments as [-> _]. reflexivity.
      + destruct Hsegments as [-> _]. reflexivity.
    - destruct Hsegments as [-> _]. reflexivity. }
  assert (Hshape : Forall well_shaped segments).
  { destruct (entries !! dxf_file) as [text|]; [destruct (ezdxf_load text)|];
      destruct Hsegments as [-> _]; try constructor.
    apply line_segments_of_shape. }
  rewrite Hcontent.
  destruct (bool_decide (segments = [])) eqn:Hempty.
  - unfold bind, print, modify, ret. eexists _, _. split; [reflexivity|]. cbn [fs]. rewrite Hfs1.
    split; [done|]. intros p. unfold lookup_file. cbn [fs]. by case_decide.
  - assert (Hclean1 : is_Some (fs w1 !! parent (joinpath clean ("clean_" +:+ dxf_file))))
      by (by rewrite Hfs1).
    erewrite bind_Ok by (by apply support_create_simplified_runs).
    erewrite bind_Ok by reflexivity.
    eexists _, _. split; [reflexivity|].
    split; [split|].
    + rewrite put_file_fs_ne by (simpl; congruence). by rewrite Hfs1.
    + apply put_file_fs_some. by rewrite Hfs1.
    + intros p. rewrite lookup_file_put_file_cases.
      case_decide; [done|]. unfold lookup_file. by rewrite Hfs1.
Qed.

(** X16: [process_dxf_to_clean_dxf_and_optional_stl] without an STL file
    name (or with the empty name), on a raw folder that exists and a clean
    folder of another name: it returns normally whatever trimesh does, leaves
    the raw folder as it was and makes the clean folder; for every [.dxf]
    entry of the raw folder, [clean_<name>] holds the clean DXF of the
    entry's segments (one LINE per segment, each coordinate through
    [round(_, 6)] of its runtime type), and is left as it was when ezdxf
    cannot read the entry or nothing is extracted; no other file changes. *)
Theorem support_cleaning_without_stl (input_dxf_folder output_clean_dxf_folder : string)
    (layer_height : float) (output_stl_filename : option string)
    (w : world) (entries : gmap string string) :
  input_dxf_folder <> "" ->
  fs w !! input_dxf_folder = Some entries ->
  output_clean_dxf_folder <> "" ->
  input_dxf_folder <> output_clean_dxf_folder ->
  output_stl_filename = None \/ output_stl_filename = Some "" ->
  exists w',
    SupportDxfToClean.process_dxf_to_clean_dxf_and_optional_stl
      input_dxf_folder output_clean_dxf_folder layer_height output_stl_filename w = (Ok tt, w')
    /\ fs w' !! input_dxf_folder = Some entries
    /\ is_Some (fs w' !! output_clean_dxf_folder)
    /\ (forall f text,
          entries !! f = Some text -> is_dxf_name f = true ->
          lookup_file (joinpath output_clean_dxf_folder ("clean_" +:+ f)) w'
          = match clean_text_of text with
            | Some c => Some c
            | None => lookup_file (joinpath output_clean_dxf_folder ("clean_" +:+ f)) w
            end)
    /\ (forall p,
          lookup_file p w' <> lookup_file p w ->
          exists f text c,
            entries !! f = Some text /\ is_dxf_name f = true /\ clean_text_of text = Some c
            /\ p = joinpath output_clean_dxf_folder ("clean_" +:+ f)).
Proof.
  intros Hinput_name Hinput Houtput_name Hne Hstl.
  assert (Hwanted : SupportDxfToClean.stl_wanted output_stl_filename = false)
    by (destruct Hstl as [->| ->]; reflexivity).
  unfold SupportDxfToClean.process_dxf_to_clean_dxf_and_optional_stl.
  erewrite bind_Ok by (unfold os_path_exists, gets; reflexivity).
  rewrite (bool_decide_eq_false_2 (input_dxf_folder = "")) by done.
  rewrite (bool_decide_eq_true_2 (is_Some (fs w !! input_dxf_folder))) by eauto.
  cbn [negb andb].
  erewrite bind_Ok by (unfold os_path_exists, gets; reflexivity).
  rewrite (bool_decide_eq_false_2 (output_clean_dxf_folder = "")) by done. cbn [negb andb].
  assert (Hmade : exists w1,
             (if negb (bool_decide (is_Some (fs w !! output_clean_dxf_folder)))
              then os_makedirs output_clean_dxf_folder ;;
                   print ("Pasta de DXF 'limpos' criada: '" +:+ output_clean_dxf_folder +:+ "'")
              else ret tt) w = (Ok tt, w1)
             /\ fs w1 !! input_dxf_folder = Some entries
             /\ is_Some (fs w1 !! output_clean_dxf_folder)
             /\ forall p, lookup_file p w1 = lookup_file p w).
  { destruct (bool_decide (is_Some (fs w !! output_clean_dxf_folder))) eqn:Hthere; cbn [negb].
    - apply bool_decide_eq_true in Hthere. exists w. done.
    - unfold os_makedirs. rewrite (bool_decide_eq_false_2 (output_clean_dxf_folder = "")) by done.
      destruct (mkdir_p_spec output_clean_dxf_folder w) as (w0 & Hmk & Hdir & _).
      eexists. split; [erewrite bind_Ok by exact Hmk; reflexivity|].
      assert (Hw0 : w0 = (mkdir_p output_clean_dxf_folder w).2) by (by rewrite Hmk).
      cbn [fs]. split; [|split; [done|]].
      + rewrite Hw0, mkdir_p_fs by eauto. done.
      + intros p. unfold lookup_file at 1. cbn [fs].
        change (fs w0 !! parent p ≫= (fun entries => entries !! name p)) with (lookup_file p w0).
        rewrite Hw0. apply mkdir_p_lookup. }
  destruct Hmade as (w1 & Hmk & Hinput1 & Houtput1 & Hsame1).
  erewrite bind_Ok by exact Hmk.
  erewrite bind_Ok by (unfold listdir; rewrite Hinput1; reflexivity).
  cbv zeta.
  set (files := sorted (filter (fun f => endswith (lower f) ".dxf") (map_to_list entries).*1)).
  set (target := fun dxf_file => joinpath output_clean_dxf_folder ("clean_" +:+ dxf_file)).
  set (content := fun dxf_file : string => entries !! dxf_file ≫= clean_text_of).
  destruct (bool_decide (files = [])) eqn:Hempty.
  - apply bool_decide_eq_true in Hempty.
    eexists. split; [reflexivity|]. cbn [fs]. split; [done|]. split; [done|]. split.
    + intros f text Htext Hdxf. exfalso.
      assert (Hin : f ∈ files) by (apply listed_dxf_files; eauto).
      rewrite Hempty in Hin. by apply elem_of_nil in Hin.
    + intros p Hchanged. exfalso. apply Hchanged. unfold lookup_file at 1. cbn [fs]. apply Hsame1.
  - erewrite bind_Ok by reflexivity.
    set (w2 := World (fs w1) _ (errlog w1)).
    destruct (batch_loop_spec _ _ target content
                (support_clean_turn input_dxf_folder output_clean_dxf_folder layer_height
                   output_stl_filename entries Hne Hwanted)
                files ([], 0%float) w2 (conj Hinput1 Houtput1))
      as ([all_meshes z_offset] & w3 & Hloop & [Hinput3 Houtput3] & Hfiles).
    erewrite bind_Ok by exact Hloop. cbv beta iota.
    assert (Hsame2 : forall p, lookup_file p w2 = lookup_file p w) by (intros p; apply Hsame1).
    eexists. split.
    { destruct Hstl as [->| ->]; reflexivity. }
    assert (Hfinal : forall (out : list string) (p : path),
               lookup_file p (World (fs w3) out (errlog w3)) = lookup_file p w3) by done.
    destruct Hstl as [->| ->]; cbn [fs]; (split; [done|]); (split; [done|]); split.
    + intros f text Htext Hdxf. rewrite Hfinal.
      change (joinpath output_clean_dxf_folder ("clean_" +:+ f)) with (target f).
      rewrite (batch_loop_exact target content files f w2 w3 Hfiles).
      * unfold content. rewrite Htext, Hsame2. reflexivity.
      * apply listed_dxf_files. eauto.
      * intros f' _ [= Heq]. by apply string_app_inj_l in Heq.
    + intros p Hchanged. rewrite Hfinal, <- Hsame2 in Hchanged.
      destruct (batch_loop_frame target content files p w2 w3 Hfiles Hchanged)
        as (f & Hin & Htarget & Hsome).
      apply listed_dxf_files in Hin as [[text Htext] Hdxf].
      unfold content in Hsome. rewrite Htext in Hsome. destruct Hsome as [c Hc].
      exists f, text, c. done.
    + intros f text Htext Hdxf. rewrite Hfinal.
      change (joinpath output_clean_dxf_folder ("clean_" +:+ f)) with (target f).
      rewrite (batch_loop_exact target content files f w2 w3 Hfiles).
      * unfold content. rewrite Htext, Hsame2. reflexivity.
      * apply listed_dxf_files. eauto.
      * intros f' _ [= Heq]. by apply string_app_inj_l in Heq.
    + intros p Hchanged. rewrite Hfinal, <- Hsame2 in Hchanged.
      destruct (batch_loop_frame target content files p w2 w3 Hfiles Hchanged)
        as (f & Hin & Htarget & Hsome).
      apply listed_dxf_files in Hin as [[text Htext] Hdxf].
      unfold content in Hsome. rewrite Htext in Hsome. destruct Hsome as [c Hc].
      exists f, text, c. done.
Qed.

End support_cleaning.

Lemma support_cleaning_without_stl_witness :
  fs Examples.disk !! "clean" = None
  /\ exists w',
       @SupportDxfToClean.process_dxf_to_clean_dxf_and_optional_stl
         Examples.ezdxf Examples.pyfloat Examples.trimesh
         "raw" "clean" 0.03%float None Examples.disk = (Ok tt, w')
       /\ is_Some (fs w' !! "clean")
       /\ lookup_file (Path "clean" "clean_tri.dxf") w' = Some "dxf with 3 entities"
       /\ lookup_file (Path "clean" "clean_bad.dxf") w' = None.
Proof.
  split; [vm_compute; reflexivity|].
  assert (Hraw : fs Examples.disk !! "raw"
                 = Some {[ "tri.dxf" := "triangle"; "mix.DXF" := "mixed"; "bad.dxf" := "junk";
                           "notes.md" := "n"; "l.txt" := "locked" ]})
    by (vm_compute; reflexivity).
  destruct (@support_cleaning_without_stl Examples.ezdxf Examples.pyfloat Examples.trimesh
              "raw" "clean" 0.03%float None Examples.disk _
              ltac:(discriminate) Hraw ltac:(discriminate) ltac:(discriminate)
              (or_introl eq_refl))
    as (w' & Hrun & _ & Hfolder & Hcontent & _).
  exists w'. split; [exact Hrun|]. split; [exact Hfolder|]. split.
  - change (Path "clean" "clean_tri.dxf") with (joinpath "clean" ("clean_" +:+ "tri.dxf")).
    rewrite (Hcontent "tri.dxf" "triangle") by (vm_compute; reflexivity).
    vm_compute. reflexivity.
  - change (Path "clean" "clean_bad.dxf") with (joinpath "clean" ("clean_" +:+ "bad.dxf")).
    rewrite (Hcontent "bad.dxf" "junk") by (vm_compute; reflexivity).
    vm_compute. reflexivity.
Defined.
